(** * Go-Kafka-Notification-System: outbox publisher, consumer runtime and
    scheduler, embedded in Rocq.

    The Go packages are embedded shallowly, one Rocq module per package:
    - [models]      : pkg/models (JSONMap, enum constants, structs, validators)
    - [repository]  : pkg/repository (PostgresNotificationRepository)
    - [services]    : internal/services (notificationService)
    - [scheduler]   : cmd/scheduler (SchedulerService)
    - [consumer]    : cmd/consumer (NotificationStore, Consumer, retry loop)

    PostgreSQL tables are lists of rows in insertion order, the broker is the
    history of SendMessage calls, and everything the code cannot decide by
    itself (statement failures, broker replies, the clock, fresh UUIDs, the
    process environment) is read from an environment script [Env], indexed by
    the number of interactions performed so far.  The library functions
    json.Marshal and json.Unmarshal are the methods of the class [Json]. *)

From Stdlib Require Import ZArith NArith String Ascii List Lia Bool.
From stdpp Require Import base option list gmap strings pretty sorting.

Set Warnings "-register-all".

Local Open Scope string_scope.
Local Open Scope Z_scope.

(** ** Go preliminaries *)

(** A Go [error] is its message; [fmt.Errorf("ctx: %w", err)] prefixes it. *)
Definition error := string.

(** The pair [(value, error)] a Go function returns. *)
Inductive result (A : Type) : Type :=
| Ok (a : A)
| Err (e : error).
Arguments Ok {A} a.
Arguments Err {A} e.

Definition is_Ok {A} (r : result A) : bool :=
  match r with Ok _ => true | Err _ => false end.

(** [time.Time]: an instant, in nanoseconds since the Unix epoch. *)
Definition Time := Z.

Definition nanoseconds_per_day : Z := 86400 * 1000000000.

(** The calendar day of an instant: PostgreSQL's [created_at::date] and
    [current_date] (session time zone UTC). *)
Definition date_of (t : Time) : Z := t / nanoseconds_per_day.

(** [Time.Weekday] of an instant (process time zone UTC): Sunday is 0, and
    January 1, 1970 was a Thursday. *)
Definition weekday (t : Time) : Z := (date_of t + 4) mod 7.

Definition time_Monday : Z := 1.

(** The zero [time.Time] (January 1, year 1, 00:00 UTC). *)
Definition time_zero : Time := -62135596800 * 1000000000.

(** [time.Duration], in nanoseconds. *)
Definition Duration := Z.
Definition time_Second : Duration := 1000000000.

(** [uuid.UUID] is [[16]byte]; the embedding keeps the 128-bit big-endian
    number the sixteen bytes spell. *)
Record UUID := mkUUID { uuid_bits : N }.

Global Instance UUID_eq_dec : EqDecision UUID.
Proof. solve_decision. Defined.

Definition hex_digit (n : N) : ascii :=
  match n with
  | 0%N => "0" | 1%N => "1" | 2%N => "2" | 3%N => "3"
  | 4%N => "4" | 5%N => "5" | 6%N => "6" | 7%N => "7"
  | 8%N => "8" | 9%N => "9" | 10%N => "a" | 11%N => "b"
  | 12%N => "c" | 13%N => "d" | 14%N => "e" | _ => "f"
  end%char.

(** The [digits] low hexadecimal digits of [n], most significant first. *)
Fixpoint hex_of (digits : nat) (n : N) : string :=
  match digits with
  | O => ""
  | S d => hex_of d (N.div n 16) +:+ String (hex_digit (N.modulo n 16)) ""
  end.

(** [UUID.String]: xxxxxxxx-xxxx-xxxx-xxxx-xxxxxxxxxxxx, lower case. *)
Definition uuid_String (u : UUID) : string :=
  let h := hex_of 32 (uuid_bits u) in
  substring 0 8 h +:+ "-" +:+ substring 8 4 h +:+ "-" +:+
  substring 12 4 h +:+ "-" +:+ substring 16 4 h +:+ "-" +:+ substring 20 12 h.

(** The double-quote character, for messages that quote a name. *)
Definition dquote : string := String (ascii_of_nat 34) EmptyString.

(** Membership test of a string in a slice: the [for ... range] loops of the
    validators. *)
Fixpoint slice_contains (xs : list string) (x : string) : bool :=
  match xs with
  | [] => false
  | v :: rest => if String.eqb x v then true else slice_contains rest x
  end.

(** [strings.Contains(s, ",")] and [strings.SplitN(s, ",", 2)[0]]: the part
    of [s] before its first comma, when it has one. *)
Fixpoint before_comma (s : string) : option string :=
  match s with
  | EmptyString => None
  | String c rest =>
      if Ascii.eqb c "," then Some EmptyString
      else match before_comma rest with
           | Some first => Some (String c first)
           | None => None
           end
  end.

Definition bytes (l : list nat) : list ascii := map ascii_of_nat l.

(** The UTF-8 encodings of the runes [unicode.IsSpace] accepts: tab, line
    feed, vertical tab, form feed, carriage return, space, U+0085, U+00A0,
    U+1680, U+2000 to U+200A, U+2028, U+2029, U+202F, U+205F, U+3000. *)
Definition space_runes : list (list ascii) :=
  map bytes
    [ [9]; [10]; [11]; [12]; [13]; [32]; [194; 133]; [194; 160]; [225; 154; 128];
      [226; 128; 128]; [226; 128; 129]; [226; 128; 130]; [226; 128; 131];
      [226; 128; 132]; [226; 128; 133]; [226; 128; 134]; [226; 128; 135];
      [226; 128; 136]; [226; 128; 137]; [226; 128; 138];
      [226; 128; 168]; [226; 128; 169]; [226; 128; 175]; [226; 129; 159];
      [227; 128; 128] ]%nat.

Fixpoint strip_bytes (p s : list ascii) : option (list ascii) :=
  match p, s with
  | [], _ => Some s
  | a :: p', b :: s' => if Ascii.eqb a b then strip_bytes p' s' else None
  | _ :: _, [] => None
  end.

(** [s] without the rune it starts with, when that rune is one of [runes]. *)
Fixpoint strip_rune (runes : list (list ascii)) (s : list ascii) : option (list ascii) :=
  match runes with
  | [] => None
  | r :: rest =>
      match strip_bytes r s with
      | Some s' => Some s'
      | None => strip_rune rest s
      end
  end.

Fixpoint trim_front (fuel : nat) (runes : list (list ascii)) (s : list ascii) : list ascii :=
  match fuel with
  | O => s
  | S fuel' =>
      match strip_rune runes s with
      | Some s' => trim_front fuel' runes s'
      | None => s
      end
  end.

(** [strings.TrimSpace]: the leading space runes are cut, then the trailing
    ones (read backwards, against the reversed encodings). *)
Definition strings_TrimSpace (s : string) : string :=
  let front := trim_front (String.length s) space_runes (list_ascii_of_string s) in
  string_of_list_ascii
    (rev (trim_front (length front) (map (@rev ascii) space_runes) (rev front))).

(** The dynamic values an [interface{}] of a JSONMap holds in this code base:
    what the services put in (strings, string-kinded enums, [*string],
    [time.Time]) and what the decoder produces (nil, bool, number, string,
    slice, map).  Numbers are kept when they are integers. *)
Inductive GoValue : Type :=
| VNil
| VBool (b : bool)
| VNumber (n : Z)
| VString (s : string)
| VStringPtr (p : option string)
| VTime (t : Time)
| VSlice (l : list GoValue)
| VMap (m : list (string * GoValue)).

(** [driver.Value]: what database/sql hands to and receives from a column. *)
Inductive driver_Value : Type :=
| DNil
| DBytes (b : string)
| DString (s : string)
| DInt64 (n : Z)
| DBool (b : bool)
| DTime (t : Time).

(** The dynamic type name [%T] prints. *)
Definition driver_type_name (v : driver_Value) : string :=
  match v with
  | DNil => "<nil>"
  | DBytes _ => "[]uint8"
  | DString _ => "string"
  | DInt64 _ => "int64"
  | DBool _ => "bool"
  | DTime _ => "time.Time"
  end.

(** ** pkg/models: types, constants, validators *)

Module models.

(** [type JSONMap map[string]interface{}]; [None] is the nil map. *)
Definition JSONMap : Type := option (gmap string GoValue).

Definition NotificationType := string.
Definition NotificationChannel := string.
Definition DeliveryStatus := string.
Definition PriorityLevel := string.

Definition DailyReminder : NotificationType := "daily_reminder".
Definition StreakReminder : NotificationType := "streak_reminder".
Definition LastChanceAlert : NotificationType := "last_chance_alert".
Definition AchievementUnlock : NotificationType := "achievement_unlock".
Definition XPGoalReminder : NotificationType := "xp_goal_reminder".
Definition LeagueUpdate : NotificationType := "league_update".
Definition WeMissYou : NotificationType := "we_miss_you".
Definition EventNotification : NotificationType := "event_notification".
Definition NewCourse : NotificationType := "new_course".
Definition PracticeNeeded : NotificationType := "practice_needed".
Definition WeeklyRecap : NotificationType := "weekly_recap".

Definition ChannelInApp : NotificationChannel := "in_app".
Definition ChannelPush : NotificationChannel := "push".
Definition ChannelEmail : NotificationChannel := "email".
Definition ChannelSMS : NotificationChannel := "sms".

Definition StatusQueued : DeliveryStatus := "queued".
Definition StatusSent : DeliveryStatus := "sent".
Definition StatusDelivered : DeliveryStatus := "delivered".
Definition StatusFailed : DeliveryStatus := "failed".
Definition StatusSuppressed : DeliveryStatus := "suppressed".
Definition StatusRead : DeliveryStatus := "read".

Definition PriorityLow : PriorityLevel := "low".
Definition PriorityMedium : PriorityLevel := "medium".
Definition PriorityHigh : PriorityLevel := "high".
Definition PriorityUrgent : PriorityLevel := "urgent".

Module User.
Record t := mk {
  ID : UUID;
  Name : string;
  Email : string;
  TotalXP : Z;
  CreatedAt : Time;
  UpdatedAt : Time
}.
End User.

Module Notification.
Record t := mk {
  ID : UUID;
  UserID : UUID;
  Type_ : NotificationType;
  Channel : NotificationChannel;
  Priority : PriorityLevel;
  TemplateID : option Z;
  Title : option string;
  Message : string;
  Metadata : JSONMap;
  DedupeKey : option string;
  CreatedAt : Time;
  ScheduledFor : option Time;
  SentAt : option Time;
  DeliveredAt : option Time;
  ReadAt : option Time;
  Status : DeliveryStatus
}.
End Notification.

Module UserNotificationPreferences.
Record t := mk {
  ID : Z;
  UserID : UUID;
  Type_ : NotificationType;
  Channel : NotificationChannel;
  Enabled : bool;
  QuietHoursStart : option string;
  QuietHoursEnd : option string;
  MaxPerDay : option Z;
  LastSentAt : option Time;
  Metadata : JSONMap;
  CreatedAt : Time;
  UpdatedAt : Time
}.
End UserNotificationPreferences.

Module NotificationDeliveryAttempt.
Record t := mk {
  ID : Z;
  NotificationID : UUID;
  AttemptNo : Z;
  Status : DeliveryStatus;
  ErrorCode : option string;
  ErrorMessage : option string;
  ProviderMessageID : option string;
  LatencyMs : option Z;
  CreatedAt : Time
}.
End NotificationDeliveryAttempt.

Module NotificationTemplate.
Record t := mk {
  ID : Z;
  Type_ : NotificationType;
  Channel : NotificationChannel;
  Title : option string;
  Body : string;
  Locale : string;
  Priority : PriorityLevel;
  IsActive : bool;
  Version : Z;
  CreatedAt : Time
}.
End NotificationTemplate.

Module OutboxNotification.
Record t := mk {
  ID : Z;
  NotificationID : UUID;
  Topic : string;
  Payload : JSONMap;
  Published : bool;
  CreatedAt : Time;
  PublishedAt : option Time
}.
End OutboxNotification.

Module UserEngagementStreak.
Record t := mk {
  ID : Z;
  UserID : UUID;
  StreakType : string;
  CurrentStreak : Z;
  LongestStreak : Z;
  LastActivityDate : option Time;
  StreakStartDate : option Time;
  TotalActivities : Z;
  Timezone : string;
  CreatedAt : Time;
  UpdatedAt : Time
}.
End UserEngagementStreak.

Module CreateNotificationRequest.
Record t := mk {
  UserID : UUID;
  Type_ : NotificationType;
  Channel : NotificationChannel;
  Priority : PriorityLevel;
  Title : option string;
  Message : string;
  Metadata : JSONMap;
  ScheduledFor : option Time
}.
End CreateNotificationRequest.

Definition validTypes : list NotificationType :=
  [ DailyReminder; StreakReminder; LastChanceAlert; AchievementUnlock;
    XPGoalReminder; LeagueUpdate; WeMissYou; EventNotification;
    NewCourse; PracticeNeeded; WeeklyRecap ].

Definition IsValidNotificationType (nt : NotificationType) : bool :=
  slice_contains validTypes nt.

Definition validChannels : list NotificationChannel :=
  [ ChannelInApp; ChannelPush; ChannelEmail; ChannelSMS ].

Definition IsValidChannel (nc : NotificationChannel) : bool :=
  slice_contains validChannels nc.

(** [func (n *Notification) IsRead() bool] and its two siblings. *)
Definition IsRead (n : Notification.t) : bool :=
  match Notification.ReadAt n with Some _ => true | None => false end.

Definition IsDelivered (n : Notification.t) : bool :=
  match Notification.DeliveredAt n with Some _ => true | None => false end.

Definition IsSent (n : Notification.t) : bool :=
  match Notification.SentAt n with Some _ => true | None => false end.

(** [func (p PriorityLevel) GetPriority() int]. *)
Definition GetPriority (p : PriorityLevel) : Z :=
  if String.eqb p PriorityLow then 1
  else if String.eqb p PriorityMedium then 2
  else if String.eqb p PriorityHigh then 3
  else if String.eqb p PriorityUrgent then 4
  else 0.

End models.

(** ** encoding/json

    [json.Marshal] of a JSONMap and [json.Unmarshal] into a [*JSONMap] or a
    [*models.Notification] are library code: they are the methods of this
    class, and the development holds for every instance.  [json_Unmarshal]
    receives the current value of the destination map (the decoder reuses a
    non-nil map, keeping its entries) and returns its new value together
    with the error. *)
Class Json : Type := {
  json_Marshal : models.JSONMap -> result string;
  json_Unmarshal : string -> models.JSONMap -> models.JSONMap * option error;
  json_Unmarshal_Notification : string -> result models.Notification.t
}.

(** ** The methods of models.JSONMap *)

Module JSONMap.
Section methods.
Context `{!Json}.

(** [func (j *JSONMap) Scan(value interface{}) error]: [j] is the map the
    receiver points to before the call; the result is the map it points to
    afterwards, and the error. *)
Definition Scan (j : models.JSONMap) (value : driver_Value)
  : models.JSONMap * option error :=
  match value with
  | DNil => (None, None)
  | DBytes v => json_Unmarshal v j
  | DString v => json_Unmarshal v j
  | _ => (j, Some ("cannot scan " +:+ driver_type_name value +:+ " into JSONMap"))
  end.

(** [func (j JSONMap) Value() (driver.Value, error)]. *)
Definition Value (j : models.JSONMap) : result driver_Value :=
  match j with
  | None => Ok DNil
  | Some m =>
      match json_Marshal (Some m) with
      | Ok data => Ok (DBytes data)
      | Err e => Err e
      end
  end.

End methods.
End JSONMap.

(** ** The PostgreSQL schema (migrations/001_initial_schema.sql)

    One record per table row, nullable columns as options, JSONB columns as
    their JSON text. *)

Module postgres.

Module users_row.
Record t := mk {
  user_id : UUID;
  name : string;
  email : string;
  total_xp : Z;
  created_at : Time;
  updated_at : Time
}.
End users_row.

Module notifications_row.
Record t := mk {
  id : UUID;
  user_id : UUID;
  type_ : string;
  channel : string;
  priority : string;
  template_id : option Z;
  title : option string;
  message : string;
  metadata : option string;
  dedupe_key : option string;
  created_at : Time;
  scheduled_for : option Time;
  sent_at : option Time;
  delivered_at : option Time;
  read_at : option Time;
  status : string
}.
End notifications_row.

Module preferences_row.
Record t := mk {
  id : Z;
  user_id : UUID;
  type_ : string;
  channel : string;
  enabled : bool;
  quiet_hours_start : option string;
  quiet_hours_end : option string;
  max_per_day : option Z;
  last_sent_at : option Time;
  metadata : option string;
  created_at : Time;
  updated_at : Time
}.
End preferences_row.

Module attempts_row.
Record t := mk {
  id : Z;
  notification_id : UUID;
  attempt_no : Z;
  status : string;
  error_code : option string;
  error_message : option string;
  provider_message_id : option string;
  latency_ms : option Z;
  created_at : Time
}.
End attempts_row.

Module outbox_row.
Record t := mk {
  id : Z;
  notification_id : UUID;
  topic : string;
  payload : string;
  published : bool;
  created_at : Time;
  published_at : option Time
}.
End outbox_row.

Module streaks_row.
Record t := mk {
  id : Z;
  user_id : UUID;
  streak_type : string;
  current_streak : Z;
  longest_streak : Z;
  last_activity_date : option Time;
  streak_start_date : option Time;
  total_activities : Z;
  timezone : string;
  created_at : Time;
  updated_at : Time
}.
End streaks_row.

Module templates_row.
Record t := mk {
  id : Z;
  type_ : string;
  channel : string;
  title : option string;
  body : string;
  (* the last five columns have a default and no NOT NULL *)
  locale : option string;
  priority : option string;
  is_active : option bool;
  version : option Z;
  created_at : option Time
}.
End templates_row.

(** The tables, each in insertion order, and the BIGSERIAL sequences. *)
Record Database := mkDatabase {
  users : list users_row.t;
  notification_templates : list templates_row.t;
  notifications : list notifications_row.t;
  user_notification_preferences : list preferences_row.t;
  notification_delivery_attempts : list attempts_row.t;
  outbox_notifications : list outbox_row.t;
  user_engagement_streaks : list streaks_row.t;
  preferences_id_seq : Z;
  attempts_id_seq : Z;
  outbox_id_seq : Z;
  streaks_id_seq : Z
}.

Definition with_notifications (db : Database) (v : list notifications_row.t) : Database :=
  mkDatabase (users db) (notification_templates db) v
    (user_notification_preferences db) (notification_delivery_attempts db)
    (outbox_notifications db) (user_engagement_streaks db)
    (preferences_id_seq db) (attempts_id_seq db) (outbox_id_seq db) (streaks_id_seq db).

Definition with_preferences (db : Database) (v : list preferences_row.t) (seq : Z) : Database :=
  mkDatabase (users db) (notification_templates db) (notifications db)
    v (notification_delivery_attempts db)
    (outbox_notifications db) (user_engagement_streaks db)
    seq (attempts_id_seq db) (outbox_id_seq db) (streaks_id_seq db).

Definition with_attempts (db : Database) (v : list attempts_row.t) (seq : Z) : Database :=
  mkDatabase (users db) (notification_templates db) (notifications db)
    (user_notification_preferences db) v
    (outbox_notifications db) (user_engagement_streaks db)
    (preferences_id_seq db) seq (outbox_id_seq db) (streaks_id_seq db).

Definition with_outbox (db : Database) (v : list outbox_row.t) (seq : Z) : Database :=
  mkDatabase (users db) (notification_templates db) (notifications db)
    (user_notification_preferences db) (notification_delivery_attempts db)
    v (user_engagement_streaks db)
    (preferences_id_seq db) (attempts_id_seq db) seq (streaks_id_seq db).

Definition with_streaks (db : Database) (v : list streaks_row.t) (seq : Z) : Database :=
  mkDatabase (users db) (notification_templates db) (notifications db)
    (user_notification_preferences db) (notification_delivery_attempts db)
    (outbox_notifications db) v
    (preferences_id_seq db) (attempts_id_seq db) (outbox_id_seq db) seq.

(** [ORDER BY key ASC]: a stable insertion sort, so rows with equal keys keep
    their table order. *)
Fixpoint insert_by {A} (key : A -> Z) (x : A) (l : list A) : list A :=
  match l with
  | [] => [x]
  | y :: l' => if key x <=? key y then x :: y :: l' else y :: insert_by key x l'
  end.

Definition order_by {A} (key : A -> Z) (l : list A) : list A :=
  foldr (insert_by key) [] l.

(** [LIMIT n OFFSET m]: PostgreSQL rejects a negative count or offset. *)
Definition limit_offset {A} (n m : Z) (l : list A) : result (list A) :=
  if n <? 0 then Err "pq: LIMIT must not be negative"
  else if m <? 0 then Err "pq: OFFSET must not be negative"
  else Ok (take (Z.to_nat n) (drop (Z.to_nat m) l)).

End postgres.

(** ** The world the processes run in *)

(** [sarama.ProducerMessage], with key and value already encoded. *)
Module ProducerMessage.
Record t := mk {
  Topic : string;
  Key : string;
  Value : string
}.
End ProducerMessage.

(** What the code reads from outside, one entry per interaction: whether the
    database statement issued at that point fails, what the broker answers to
    the SendMessage issued at that point ([partition, offset] or an error),
    what the clock shows, which UUID [uuid.New] draws; and the process
    environment. *)
Class Env : Type := {
  db_fault : nat -> option error;
  send_reply : nat -> result (Z * Z);
  clock : nat -> Time;
  fresh_uuid : nat -> UUID;
  getenv : string -> string
}.

Record World := mkWorld {
  db : postgres.Database;
  (* every SendMessage call so far, with the broker's answer *)
  producer_calls : list (ProducerMessage.t * result (Z * Z));
  (* lines written by log.Printf and fmt.Printf *)
  log : list string;
  (* interactions performed so far *)
  steps : nat
}.

(** The broker's log: the messages whose SendMessage was acknowledged. *)
Definition broker_log (w : World) : list ProducerMessage.t :=
  (filter (fun c => is_Ok (snd c)) (producer_calls w)).*1.

(** A Go call either returns or panics. *)
Inductive outcome (A : Type) : Type :=
| Done (a : A) (w : World)
| Panicked (msg : string) (w : World).
Arguments Done {A} a w.
Arguments Panicked {A} msg w.

Definition M (A : Type) : Type := World -> outcome A.

Global Instance M_ret : MRet M := fun A a w => Done a w.
Global Instance M_bind : MBind M := fun A B k m w =>
  match m w with
  | Done a w' => k a w'
  | Panicked msg w' => Panicked msg w'
  end.

Definition final_world {A} (o : outcome A) : World :=
  match o with Done _ w => w | Panicked _ w => w end.

Section primitives.
Context `{!Env}.

Definition tick (w : World) : World :=
  mkWorld (db w) (producer_calls w) (log w) (S (steps w)).

(** [db.ExecContext]: the statement fails as a whole, leaving the tables as
    they were, or takes effect. *)
Definition db_Exec (stmt : postgres.Database -> result postgres.Database)
  : M (option error) := fun w =>
  match db_fault (steps w) with
  | Some e => Done (Some e) (tick w)
  | None =>
      match stmt (db w) with
      | Ok db' => Done None (mkWorld db' (producer_calls w) (log w) (S (steps w)))
      | Err e => Done (Some e) (tick w)
      end
  end.

(** [db.QueryContext] followed by reading the rows. *)
Definition db_Query {A} (query : postgres.Database -> result A) : M (result A) := fun w =>
  match db_fault (steps w) with
  | Some e => Done (Err e) (tick w)
  | None => Done (query (db w)) (tick w)
  end.

(** A query that mentions [current_date]: the server evaluates it at the
    instant the statement runs. *)
Definition db_Query_at {A} (query : Time -> postgres.Database -> result A)
  : M (result A) := fun w =>
  match db_fault (steps w) with
  | Some e => Done (Err e) (tick w)
  | None => Done (query (clock (steps w)) (db w)) (tick w)
  end.

(** [rows.Err()]: the connection may break while the rows are read. *)
Definition rows_Err : M (option error) := fun w =>
  Done (db_fault (steps w)) (tick w).

Definition time_Now : M Time := fun w => Done (clock (steps w)) (tick w).

Definition uuid_New : M UUID := fun w => Done (fresh_uuid (steps w)) (tick w).

Definition os_Getenv (key : string) : M string := fun w => Done (getenv key) w.

Definition log_Printf (line : string) : M unit := fun w =>
  Done tt (mkWorld (db w) (producer_calls w) (log w ++ [line]) (steps w)).

Definition panic {A} (msg : string) : M A := fun w => Panicked msg w.

(** [sarama.SyncProducer.SendMessage]. *)
Definition producer_SendMessage (msg : ProducerMessage.t) : M (result (Z * Z)) := fun w =>
  let reply := send_reply (steps w) in
  Done reply (mkWorld (db w) (producer_calls w ++ [(msg, reply)]) (log w) (S (steps w))).

End primitives.

(** ** pkg/repository: PostgresNotificationRepository *)

Module repository.
Import postgres.
Section PostgresNotificationRepository.
Context `{!Json, !Env}.

(** [fmt.Errorf("context: %w", err)] on a statement's error. *)
Definition wrap (context : string) (err : option error) : option error :=
  match err with
  | Some e => Some (context +:+ ": " +:+ e)
  | None => None
  end.

(** database/sql reports a failing [Scan] of one column. *)
Definition scan_error (index : string) (column : string) (e : error) : error :=
  "sql: Scan error on column index " +:+ index +:+ ", name " +:+
  dquote +:+ column +:+ dquote +:+ ": " +:+ e.

(** A JSONB argument, converted by its [Value] method before the statement is
    sent: nil becomes NULL. *)
Definition jsonb_arg (j : models.JSONMap) : result (option string) :=
  match JSONMap.Value j with
  | Ok (DBytes data) => Ok (Some data)
  | Ok _ => Ok None
  | Err e => Err ("sql: converting argument type: " +:+ e)
  end.

(** A JSONB column read into a zero-valued JSONMap field by its [Scan]
    method. *)
Definition jsonb_scan (index column : string) (v : option string) : result models.JSONMap :=
  match JSONMap.Scan None (match v with Some data => DBytes data | None => DNil end) with
  | (j, None) => Ok j
  | (_, Some e) => Err (scan_error index column e)
  end.

(** The [for rows.Next() { rows.Scan(...); append }] loop: the first row that
    fails to scan ends it. *)
Fixpoint scan_rows {R A} (scan : R -> result A) (rows : list R) : result (list A) :=
  match rows with
  | [] => Ok []
  | r :: rest =>
      match scan r with
      | Err e => Err e
      | Ok item =>
          match scan_rows scan rest with
          | Err e => Err e
          | Ok items => Ok (item :: items)
          end
      end
  end.

(** [QueryRowContext(...).Scan(...)]: the first row, or sql.ErrNoRows. *)
Definition first_row {R} (rows : list R) : option R := head rows.

Definition notification_row (n : models.Notification.t) (metadata : option string)
  : notifications_row.t :=
  notifications_row.mk
    (models.Notification.ID n) (models.Notification.UserID n)
    (models.Notification.Type_ n) (models.Notification.Channel n)
    (models.Notification.Priority n) (models.Notification.TemplateID n)
    (models.Notification.Title n) (models.Notification.Message n)
    metadata (models.Notification.DedupeKey n)
    (models.Notification.CreatedAt n) (models.Notification.ScheduledFor n)
    None None None (models.Notification.Status n).

Definition scan_notification (r : notifications_row.t) : result models.Notification.t :=
  match jsonb_scan "8" "metadata" (notifications_row.metadata r) with
  | Err e => Err e
  | Ok metadata =>
      Ok (models.Notification.mk
            (notifications_row.id r) (notifications_row.user_id r)
            (notifications_row.type_ r) (notifications_row.channel r)
            (notifications_row.priority r) (notifications_row.template_id r)
            (notifications_row.title r) (notifications_row.message r)
            metadata (notifications_row.dedupe_key r)
            (notifications_row.created_at r) (notifications_row.scheduled_for r)
            (notifications_row.sent_at r) (notifications_row.delivered_at r)
            (notifications_row.read_at r) (notifications_row.status r))
  end.

(** The tail shared by the queries that return a slice: scan every row, then
    ask [rows.Err()]. *)
Definition collect {R A} (what_query what_scan what_rows : string)
    (scan : R -> result A) (rows : result (list R)) : M (result (list A)) :=
  match rows with
  | Err e => mret (Err (what_query +:+ ": " +:+ e))
  | Ok rows =>
      match scan_rows scan rows with
      | Err e => mret (Err (what_scan +:+ ": " +:+ e))
      | Ok items =>
          err ← rows_Err;
          match err with
          | Some e => mret (Err (what_rows +:+ ": " +:+ e))
          | None => mret (Ok items)
          end
      end
  end.

(** INSERT INTO notifications (...) VALUES ($1, ..., $13).  Constraint
    violations are among the failures the environment decides. *)
Definition CreateNotification (notification : models.Notification.t) : M (option error) :=
  match jsonb_arg (models.Notification.Metadata notification) with
  | Err e => mret (Some ("failed to create notification: " +:+ e))
  | Ok metadata =>
      err ← db_Exec (fun d =>
        Ok (with_notifications d (notifications d ++ [notification_row notification metadata])));
      mret (wrap "failed to create notification" err)
  end.

(** SELECT ... FROM notifications WHERE user_id = $1
    ORDER BY created_at DESC LIMIT $2 OFFSET $3. *)
Definition GetUserNotifications (userID : UUID) (limit offset : Z)
  : M (result (list models.Notification.t)) :=
  rows ← db_Query (fun d =>
    limit_offset limit offset
      (order_by (fun r => - notifications_row.created_at r)
         (filter (fun r => notifications_row.user_id r = userID) (notifications d))));
  collect "failed to query user notifications" "failed to scan notification"
    "error iterating notifications" scan_notification rows.

(** SELECT ... FROM notifications WHERE id = $1. *)
Definition GetNotificationByID (notificationID : UUID) : M (result models.Notification.t) :=
  row ← db_Query (fun d =>
    Ok (first_row (filter (fun r => notifications_row.id r = notificationID) (notifications d))));
  match row with
  | Err e => mret (Err ("failed to get notification: " +:+ e))
  | Ok None => mret (Err ("notification not found: " +:+ uuid_String notificationID))
  | Ok (Some r) =>
      match scan_notification r with
      | Err e => mret (Err ("failed to get notification: " +:+ e))
      | Ok n => mret (Ok n)
      end
  end.

Definition update_notification (notificationID : UUID)
    (f : notifications_row.t -> notifications_row.t) (d : Database) : result Database :=
  Ok (with_notifications d
        (map (fun r => if decide (notifications_row.id r = notificationID) then f r else r)
             (notifications d))).

Definition set_read (now : Time) (r : notifications_row.t) : notifications_row.t :=
  notifications_row.mk
    (notifications_row.id r) (notifications_row.user_id r) (notifications_row.type_ r)
    (notifications_row.channel r) (notifications_row.priority r)
    (notifications_row.template_id r) (notifications_row.title r)
    (notifications_row.message r) (notifications_row.metadata r)
    (notifications_row.dedupe_key r) (notifications_row.created_at r)
    (notifications_row.scheduled_for r) (notifications_row.sent_at r)
    (notifications_row.delivered_at r) (Some now) models.StatusRead.

Definition set_delivered (now : Time) (r : notifications_row.t) : notifications_row.t :=
  notifications_row.mk
    (notifications_row.id r) (notifications_row.user_id r) (notifications_row.type_ r)
    (notifications_row.channel r) (notifications_row.priority r)
    (notifications_row.template_id r) (notifications_row.title r)
    (notifications_row.message r) (notifications_row.metadata r)
    (notifications_row.dedupe_key r) (notifications_row.created_at r)
    (notifications_row.scheduled_for r) (notifications_row.sent_at r)
    (Some now) (notifications_row.read_at r) models.StatusDelivered.

Definition set_sent (now : Time) (r : notifications_row.t) : notifications_row.t :=
  notifications_row.mk
    (notifications_row.id r) (notifications_row.user_id r) (notifications_row.type_ r)
    (notifications_row.channel r) (notifications_row.priority r)
    (notifications_row.template_id r) (notifications_row.title r)
    (notifications_row.message r) (notifications_row.metadata r)
    (notifications_row.dedupe_key r) (notifications_row.created_at r)
    (notifications_row.scheduled_for r) (Some now)
    (notifications_row.delivered_at r) (notifications_row.read_at r) models.StatusSent.

(** UPDATE notifications SET read_at = $1, status = $2, updated_at = $3
    WHERE id = $4.  (The migration gives notifications no updated_at column:
    against that schema the statement is one of those that fail.) *)
Definition MarkAsRead (notificationID : UUID) : M (option error) :=
  now ← time_Now;
  err ← db_Exec (update_notification notificationID (set_read now));
  mret (wrap "failed to mark notification as read" err).

Definition MarkAsDelivered (notificationID : UUID) : M (option error) :=
  now ← time_Now;
  err ← db_Exec (update_notification notificationID (set_delivered now));
  mret (wrap "failed to mark notification as delivered" err).

Definition MarkAsSent (notificationID : UUID) : M (option error) :=
  now ← time_Now;
  err ← db_Exec (update_notification notificationID (set_sent now));
  mret (wrap "failed to mark notification as sent" err).

Definition scan_outbox (r : outbox_row.t) : result models.OutboxNotification.t :=
  match jsonb_scan "3" "payload" (Some (outbox_row.payload r)) with
  | Err e => Err e
  | Ok payload =>
      Ok (models.OutboxNotification.mk
            (outbox_row.id r) (outbox_row.notification_id r) (outbox_row.topic r)
            payload (outbox_row.published r) (outbox_row.created_at r)
            (outbox_row.published_at r))
  end.

(** The rows the query of GetUnpublishedOutbox selects:
    WHERE published = false ORDER BY created_at ASC LIMIT $1. *)
Definition unpublished_rows (limit : Z) (d : Database) : result (list outbox_row.t) :=
  limit_offset limit 0
    (order_by outbox_row.created_at
       (filter (fun r => outbox_row.published r = false) (outbox_notifications d))).

Definition GetUnpublishedOutbox (limit : Z) : M (result (list models.OutboxNotification.t)) :=
  rows ← db_Query (unpublished_rows limit);
  collect "failed to query unpublished outbox" "failed to scan outbox item"
    "error iterating outbox items" scan_outbox rows.

Definition set_published (now : Time) (r : outbox_row.t) : outbox_row.t :=
  outbox_row.mk (outbox_row.id r) (outbox_row.notification_id r) (outbox_row.topic r)
    (outbox_row.payload r) true (outbox_row.created_at r) (Some now).

(** UPDATE outbox_notifications SET published = true, published_at = $1
    WHERE id = $2. *)
Definition mark_published (now : Time) (outboxID : Z) (d : Database) : result Database :=
  Ok (with_outbox d
        (map (fun r => if outbox_row.id r =? outboxID then set_published now r else r)
             (outbox_notifications d))
        (outbox_id_seq d)).

Definition MarkOutboxPublished (outboxID : Z) : M (option error) :=
  now ← time_Now;
  err ← db_Exec (mark_published now outboxID);
  mret (wrap "failed to mark outbox as published" err).

(** INSERT INTO outbox_notifications (notification_id, topic, payload,
    published, created_at) VALUES ($1, ..., $5): the id is drawn from the
    BIGSERIAL sequence, and the payload column is NOT NULL.  The foreign key
    of notification_id is, like the other constraints, among the failures
    the environment decides: a run in which no statement fails is a run in
    which the notification referred to exists. *)
Definition insert_outbox (item : models.OutboxNotification.t) (payload : option string)
    (d : Database) : result Database :=
  match payload with
  | None =>
      Err ("pq: null value in column " +:+ dquote +:+ "payload" +:+ dquote +:+
           " violates not-null constraint")
  | Some data =>
      Ok (with_outbox d
            (outbox_notifications d ++
               [outbox_row.mk (outbox_id_seq d)
                  (models.OutboxNotification.NotificationID item)
                  (models.OutboxNotification.Topic item)
                  data
                  (models.OutboxNotification.Published item)
                  (models.OutboxNotification.CreatedAt item)
                  None])
            (outbox_id_seq d + 1))
  end.

Definition CreateOutboxEntry (outboxItem : models.OutboxNotification.t) : M (option error) :=
  match jsonb_arg (models.OutboxNotification.Payload outboxItem) with
  | Err e => mret (Some ("failed to create outbox entry: " +:+ e))
  | Ok payload =>
      err ← db_Exec (insert_outbox outboxItem payload);
      mret (wrap "failed to create outbox entry" err)
  end.

Definition scan_preference (r : preferences_row.t)
  : result models.UserNotificationPreferences.t :=
  match jsonb_scan "9" "metadata" (preferences_row.metadata r) with
  | Err e => Err e
  | Ok metadata =>
      Ok (models.UserNotificationPreferences.mk
            (preferences_row.id r) (preferences_row.user_id r)
            (preferences_row.type_ r) (preferences_row.channel r)
            (preferences_row.enabled r) (preferences_row.quiet_hours_start r)
            (preferences_row.quiet_hours_end r) (preferences_row.max_per_day r)
            (preferences_row.last_sent_at r) metadata
            (preferences_row.created_at r) (preferences_row.updated_at r))
  end.

(** SELECT ... FROM user_notification_preferences WHERE user_id = $1. *)
Definition GetUserPreferences (userID : UUID)
  : M (result (list models.UserNotificationPreferences.t)) :=
  rows ← db_Query (fun d =>
    Ok (filter (fun r => preferences_row.user_id r = userID)
          (user_notification_preferences d)));
  collect "failed to query user preferences" "failed to scan preference"
    "error iterating preferences" scan_preference rows.

Definition same_preference (userID : UUID) (prefs : models.UserNotificationPreferences.t)
    (r : preferences_row.t) : bool :=
  bool_decide (preferences_row.user_id r = userID) &&
  String.eqb (preferences_row.type_ r) (models.UserNotificationPreferences.Type_ prefs) &&
  String.eqb (preferences_row.channel r) (models.UserNotificationPreferences.Channel prefs).

(** INSERT INTO user_notification_preferences (...) VALUES (...)
    ON CONFLICT (userID, type, channel) DO UPDATE SET ...: the row of the same
    user, type and channel is updated when there is one, a new row is added
    otherwise.  (The conflict target names a column the table does not have:
    against the migration's schema the statement is one of those that
    fail.) *)
Definition upsert_preferences (userID : UUID) (prefs : models.UserNotificationPreferences.t)
    (metadata : option string) (now : Time) (d : Database) : result Database :=
  let P := models.UserNotificationPreferences.mk in
  if existsb (same_preference userID prefs) (user_notification_preferences d) then
    Ok (with_preferences d
          (map (fun r =>
                  if same_preference userID prefs r then
                    preferences_row.mk (preferences_row.id r) (preferences_row.user_id r)
                      (preferences_row.type_ r) (preferences_row.channel r)
                      (models.UserNotificationPreferences.Enabled prefs)
                      (models.UserNotificationPreferences.QuietHoursStart prefs)
                      (models.UserNotificationPreferences.QuietHoursEnd prefs)
                      (models.UserNotificationPreferences.MaxPerDay prefs)
                      (preferences_row.last_sent_at r) metadata
                      (preferences_row.created_at r) now
                  else r)
               (user_notification_preferences d))
          (preferences_id_seq d))
  else
    Ok (with_preferences d
          (user_notification_preferences d ++
             [preferences_row.mk (preferences_id_seq d) userID
                (models.UserNotificationPreferences.Type_ prefs)
                (models.UserNotificationPreferences.Channel prefs)
                (models.UserNotificationPreferences.Enabled prefs)
                (models.UserNotificationPreferences.QuietHoursStart prefs)
                (models.UserNotificationPreferences.QuietHoursEnd prefs)
                (models.UserNotificationPreferences.MaxPerDay prefs)
                None metadata now now])
          (preferences_id_seq d + 1)).

Definition UpdateUserPreferences (userID : UUID)
    (prefs : models.UserNotificationPreferences.t) : M (option error) :=
  now ← time_Now;
  match jsonb_arg (models.UserNotificationPreferences.Metadata prefs) with
  | Err e => mret (Some ("failed to update user preferences: " +:+ e))
  | Ok metadata =>
      err ← db_Exec (upsert_preferences userID prefs metadata now);
      mret (wrap "failed to update user preferences" err)
  end.

Definition scan_streak (r : streaks_row.t) : models.UserEngagementStreak.t :=
  models.UserEngagementStreak.mk
    (streaks_row.id r) (streaks_row.user_id r) (streaks_row.streak_type r)
    (streaks_row.current_streak r) (streaks_row.longest_streak r)
    (streaks_row.last_activity_date r) (streaks_row.streak_start_date r)
    (streaks_row.total_activities r) (streaks_row.timezone r)
    (streaks_row.created_at r) (streaks_row.updated_at r).

(** SELECT ... FROM user_engagement_streaks
    WHERE user_id = $1 AND streak_type = $2. *)
Definition GetUserEngagementStreak (userID : UUID) (streakType : string)
  : M (result models.UserEngagementStreak.t) :=
  row ← db_Query (fun d =>
    Ok (first_row
          (filter (fun r => streaks_row.user_id r = userID /\
                            streaks_row.streak_type r = streakType)
             (user_engagement_streaks d))));
  match row with
  | Err e => mret (Err ("failed to get user engagement streak: " +:+ e))
  | Ok None =>
      mret (Err ("streak not found for user " +:+ uuid_String userID +:+
                 " and type " +:+ streakType))
  | Ok (Some r) => mret (Ok (scan_streak r))
  end.

Definition same_streak (streak : models.UserEngagementStreak.t) (r : streaks_row.t) : bool :=
  bool_decide (streaks_row.user_id r = models.UserEngagementStreak.UserID streak) &&
  String.eqb (streaks_row.streak_type r) (models.UserEngagementStreak.StreakType streak).

(** INSERT INTO user_engagement_streaks (...) VALUES (...)
    ON CONFLICT (user_id, streak_type) DO UPDATE SET .... *)
Definition upsert_streak (streak : models.UserEngagementStreak.t) (now : Time)
    (d : Database) : result Database :=
  let fill id created :=
    streaks_row.mk id
      (models.UserEngagementStreak.UserID streak)
      (models.UserEngagementStreak.StreakType streak)
      (models.UserEngagementStreak.CurrentStreak streak)
      (models.UserEngagementStreak.LongestStreak streak)
      (models.UserEngagementStreak.LastActivityDate streak)
      (models.UserEngagementStreak.StreakStartDate streak)
      (models.UserEngagementStreak.TotalActivities streak)
      (models.UserEngagementStreak.Timezone streak)
      created now in
  if existsb (same_streak streak) (user_engagement_streaks d) then
    Ok (with_streaks d
          (map (fun r => if same_streak streak r
                         then fill (streaks_row.id r) (streaks_row.created_at r) else r)
               (user_engagement_streaks d))
          (streaks_id_seq d))
  else
    Ok (with_streaks d
          (user_engagement_streaks d ++ [fill (streaks_id_seq d) now])
          (streaks_id_seq d + 1)).

Definition UpdateUserEngagementStreak (streak : models.UserEngagementStreak.t)
  : M (option error) :=
  now ← time_Now;
  err ← db_Exec (upsert_streak streak now);
  mret (wrap "failed to update user engagement streak" err).

(** SELECT ... FROM notifications WHERE status = $1
    ORDER BY created_at ASC LIMIT $2. *)
Definition GetNotificationsByStatus (status : models.DeliveryStatus) (limit : Z)
  : M (result (list models.Notification.t)) :=
  rows ← db_Query (fun d =>
    limit_offset limit 0
      (order_by notifications_row.created_at
         (filter (fun r => notifications_row.status r = status) (notifications d))));
  collect "failed to query notifications by status" "failed to scan notification"
    "error iterating notifications" scan_notification rows.

Definition is_due (before : Time) (r : notifications_row.t) : bool :=
  match notifications_row.scheduled_for r with
  | Some t => (t <=? before) && String.eqb (notifications_row.status r) models.StatusQueued
  | None => false
  end.

(** SELECT ... FROM notifications WHERE scheduled_for IS NOT NULL
    AND scheduled_for <= $1 AND status = $2 ORDER BY scheduled_for ASC LIMIT $3. *)
Definition GetScheduledNotifications (before : Time) (limit : Z)
  : M (result (list models.Notification.t)) :=
  rows ← db_Query (fun d =>
    limit_offset limit 0
      (order_by (fun r => default 0 (notifications_row.scheduled_for r))
         (filter (fun r => is_due before r = true) (notifications d))));
  collect "failed to query scheduled notifications" "failed to scan notification"
    "error iterating scheduled notifications" scan_notification rows.

(** INSERT INTO notification_delivery_attempts (...) VALUES ($1, ..., $8). *)
Definition CreateDeliveryAttempt (attempt : models.NotificationDeliveryAttempt.t)
  : M (option error) :=
  err ← db_Exec (fun d =>
    Ok (with_attempts d
          (notification_delivery_attempts d ++
             [attempts_row.mk (attempts_id_seq d)
                (models.NotificationDeliveryAttempt.NotificationID attempt)
                (models.NotificationDeliveryAttempt.AttemptNo attempt)
                (models.NotificationDeliveryAttempt.Status attempt)
                (models.NotificationDeliveryAttempt.ErrorCode attempt)
                (models.NotificationDeliveryAttempt.ErrorMessage attempt)
                (models.NotificationDeliveryAttempt.ProviderMessageID attempt)
                (models.NotificationDeliveryAttempt.LatencyMs attempt)
                (models.NotificationDeliveryAttempt.CreatedAt attempt)])
          (attempts_id_seq d + 1)));
  mret (wrap "failed to create delivery attempt" err).

(** [rows.Scan(&t.ID, ..., &t.CreatedAt)] of a template row.  The title is
    scanned into a [*string]; locale, priority, is_active, version and
    created_at are nullable columns scanned into plain fields, so a NULL in
    one of them fails the Scan, at the first such column. *)
Definition scan_template (r : templates_row.t) : result models.NotificationTemplate.t :=
  match templates_row.locale r with
  | None => Err (scan_error "5" "locale" "converting NULL to string is unsupported")
  | Some locale =>
  match templates_row.priority r with
  | None => Err (scan_error "6" "priority" "converting NULL to string is unsupported")
  | Some priority =>
  match templates_row.is_active r with
  | None => Err (scan_error "7" "is_active" "converting NULL to bool is unsupported")
  | Some is_active =>
  match templates_row.version r with
  | None => Err (scan_error "8" "version" "converting NULL to int is unsupported")
  | Some version =>
  match templates_row.created_at r with
  | None =>
      Err (scan_error "9" "created_at"
             "unsupported Scan, storing driver.Value type <nil> into type *time.Time")
  | Some created_at =>
      Ok (models.NotificationTemplate.mk
            (templates_row.id r) (templates_row.type_ r) (templates_row.channel r)
            (templates_row.title r) (templates_row.body r) locale priority is_active
            version created_at)
  end end end end end.

(** SELECT ... FROM notification_templates
    WHERE type = $1 AND channel = $2 AND is_active = true ORDER BY version DESC:
    a row whose is_active is NULL is not selected, and in descending order
    the rows whose version is NULL come first. *)
Definition GetNotificationTemplates (notificationType : models.NotificationType)
    (channel : models.NotificationChannel)
  : M (result (list models.NotificationTemplate.t)) :=
  rows ← db_Query (fun d =>
    let selected :=
      filter (fun r => templates_row.type_ r = notificationType /\
                       templates_row.channel r = channel /\
                       templates_row.is_active r = Some true)
        (notification_templates d) in
    Ok (filter (fun r => templates_row.version r = None) selected ++
        order_by (fun r => - default 0 (templates_row.version r))
          (filter (fun r => templates_row.version r <> None) selected))%list);
  collect "failed to query notification templates" "failed to scan template"
    "error iterating templates" scan_template rows.

End PostgresNotificationRepository.
End repository.

(** ** internal/services: notificationService *)

Module services.
Section notificationService.
Context `{!Json, !Env}.

(** The [topic] field of the service; [repository] is the PostgreSQL
    repository and [producer] the producer of the world. *)
Variable topic : string.

(** Lower-casing of ASCII letters: what [strings.EqualFold] amounts to when
    one side is an ASCII word. *)
Definition to_lower (c : ascii) : ascii :=
  let n := nat_of_ascii c in
  if ((65 <=? n) && (n <=? 90))%nat then ascii_of_nat (n + 32) else c.

Fixpoint map_string (f : ascii -> ascii) (s : string) : string :=
  match s with
  | EmptyString => EmptyString
  | String c rest => String (f c) (map_string f rest)
  end.

Definition strings_EqualFold (s t : string) : bool :=
  String.eqb (map_string to_lower s) (map_string to_lower t).

(** The payload snapshot every create path writes to the outbox. *)
Definition payload_of (notification : models.Notification.t) : models.JSONMap :=
  Some (list_to_map
    [ ("id", VString (uuid_String (models.Notification.ID notification)));
      ("user_id", VString (uuid_String (models.Notification.UserID notification)));
      ("type", VString (models.Notification.Type_ notification));
      ("channel", VString (models.Notification.Channel notification));
      ("priority", VString (models.Notification.Priority notification));
      ("title", VStringPtr (models.Notification.Title notification));
      ("message", VString (models.Notification.Message notification));
      ("created_at", VTime (models.Notification.CreatedAt notification)) ]).

Definition outbox_item (notification : models.Notification.t) (topic : string)
    (now : Time) : models.OutboxNotification.t :=
  models.OutboxNotification.mk 0 (models.Notification.ID notification) topic
    (payload_of notification) false now None.

(** [mustMarshalJSON]. *)
Definition mustMarshalJSON (v : models.JSONMap) : M string :=
  match json_Marshal v with
  | Ok data => mret data
  | Err e => panic ("failed to marshal JSON: " +:+ e)
  end.

(** The message ProcessOutbox builds for one outbox item. *)
Definition message_of (item : models.OutboxNotification.t) (value : string)
  : ProducerMessage.t :=
  ProducerMessage.mk (models.OutboxNotification.Topic item)
    (uuid_String (models.OutboxNotification.NotificationID item))
    value.

(** The loop [for _, item := range outboxItems] of ProcessOutbox. *)
Fixpoint publish_items (outboxItems : list models.OutboxNotification.t) : M (option error) :=
  match outboxItems with
  | [] => mret None
  | item :: rest =>
      value ← mustMarshalJSON (models.OutboxNotification.Payload item);
      reply ← producer_SendMessage (message_of item value);
      match reply with
      | Err e => mret (Some ("failed to send message to Kafka: " +:+ e))
      | Ok (partition, offset) =>
          err ← repository.MarkOutboxPublished (models.OutboxNotification.ID item);
          match err with
          | Some e => mret (Some ("failed to mark outbox as published: " +:+ e))
          | None =>
              _ ← log_Printf
                    ("Published notification " +:+
                     uuid_String (models.OutboxNotification.NotificationID item) +:+
                     " to Kafka: partition=" +:+ pretty partition +:+
                     ", offset=" +:+ pretty offset);
              publish_items rest
          end
      end
  end.

Definition ProcessOutbox : M (option error) :=
  outboxItems ← repository.GetUnpublishedOutbox 100;
  match outboxItems with
  | Err e => mret (Some ("failed to get unpublished outbox: " +:+ e))
  | Ok outboxItems => publish_items outboxItems
  end.

Definition CreateNotification (req : models.CreateNotificationRequest.t)
  : M (result models.Notification.t) :=
  if negb (models.IsValidNotificationType (models.CreateNotificationRequest.Type_ req)) then
    mret (Err ("invalid notification type: " +:+ models.CreateNotificationRequest.Type_ req))
  else if negb (models.IsValidChannel (models.CreateNotificationRequest.Channel req)) then
    mret (Err ("invalid notification channel: " +:+ models.CreateNotificationRequest.Channel req))
  else
    id ← uuid_New;
    now ← time_Now;
    let notification :=
      models.Notification.mk id
        (models.CreateNotificationRequest.UserID req)
        (models.CreateNotificationRequest.Type_ req)
        (models.CreateNotificationRequest.Channel req)
        (models.CreateNotificationRequest.Priority req)
        None
        (models.CreateNotificationRequest.Title req)
        (models.CreateNotificationRequest.Message req)
        (models.CreateNotificationRequest.Metadata req)
        None now
        (models.CreateNotificationRequest.ScheduledFor req)
        None None None models.StatusQueued in
    err ← repository.CreateNotification notification;
    match err with
    | Some e => mret (Err ("failed to create notification: " +:+ e))
    | None =>
        now' ← time_Now;
        err ← repository.CreateOutboxEntry (outbox_item notification topic now');
        match err with
        | Some e => mret (Err ("failed to create outbox entry: " +:+ e))
        | None =>
            immediate ← os_Getenv "OUTBOX_IMMEDIATE_PUBLISH";
            _ ← (if strings_EqualFold immediate "true"
                 then ProcessOutbox else mret None);
            mret (Ok notification)
        end
    end.

Definition GetUserNotifications (userID : UUID) (limit offset : Z)
  : M (result (list models.Notification.t)) :=
  let limit := if limit <=? 0 then 50 else limit in
  let offset := if offset <? 0 then 0 else offset in
  repository.GetUserNotifications userID limit offset.

Definition MarkAsRead (notificationID : UUID) : M (option error) :=
  repository.MarkAsRead notificationID.

Definition with_user (userID : UUID) (now : Time)
    (prefs : models.UserNotificationPreferences.t) : models.UserNotificationPreferences.t :=
  models.UserNotificationPreferences.mk
    (models.UserNotificationPreferences.ID prefs) userID
    (models.UserNotificationPreferences.Type_ prefs)
    (models.UserNotificationPreferences.Channel prefs)
    (models.UserNotificationPreferences.Enabled prefs)
    (models.UserNotificationPreferences.QuietHoursStart prefs)
    (models.UserNotificationPreferences.QuietHoursEnd prefs)
    (models.UserNotificationPreferences.MaxPerDay prefs)
    (models.UserNotificationPreferences.LastSentAt prefs)
    (models.UserNotificationPreferences.Metadata prefs)
    (models.UserNotificationPreferences.CreatedAt prefs) now.

Definition UpdateUserPreferences (userID : UUID)
    (prefs : models.UserNotificationPreferences.t) : M (option error) :=
  now ← time_Now;
  repository.UpdateUserPreferences userID (with_user userID now prefs).

Definition GetUserPreferences (userID : UUID)
  : M (result (list models.UserNotificationPreferences.t)) :=
  repository.GetUserPreferences userID.

(** A reminder the service or the scheduler synthesizes for a user. *)
Definition reminder (id : UUID) (user : models.User.t) (type : models.NotificationType)
    (priority : models.PriorityLevel) (title message : string) (now : Time)
  : models.Notification.t :=
  models.Notification.mk id (models.User.ID user) type models.ChannelInApp priority
    None (Some title) message None None now None None None None models.StatusQueued.

Definition daily_message (name : string) (currentStreak : Z) : string :=
  "Hey " +:+ name +:+ "! It's time for your daily practice session. Keep your " +:+
  pretty currentStreak +:+ "-day streak alive! ðŸ”¥".

Definition streak_message (name : string) (currentStreak : Z) : string :=
  name +:+ ", you haven't practiced today! Your " +:+ pretty currentStreak +:+
  "-day streak is at risk. Practice now to keep it going!".

Definition CreateDailyReminder (user : models.User.t) : M (option error) :=
  streak ← repository.GetUserEngagementStreak (models.User.ID user) "practice";
  let currentStreak :=
    match streak with
    | Ok streak => models.UserEngagementStreak.CurrentStreak streak
    | Err _ => 0
    end in
  id ← uuid_New;
  now ← time_Now;
  let notification :=
    reminder id user models.DailyReminder models.PriorityMedium
      "Time to Practice!" (daily_message (models.User.Name user) currentStreak) now in
  err ← repository.CreateNotification notification;
  match err with
  | Some e => mret (Some ("failed to create daily reminder: " +:+ e))
  | None =>
      now' ← time_Now;
      err ← repository.CreateOutboxEntry (outbox_item notification topic now');
      mret (repository.wrap "failed to create outbox entry for daily reminder" err)
  end.

Definition CreateStreakReminder (user : models.User.t) : M (option error) :=
  streak ← repository.GetUserEngagementStreak (models.User.ID user) "practice";
  match streak with
  | Err e => mret (Some ("failed to get user streak: " +:+ e))
  | Ok streak =>
      if models.UserEngagementStreak.CurrentStreak streak =? 0 then
        mret (Some "user has no active streak")
      else
        id ← uuid_New;
        now ← time_Now;
        let notification :=
          reminder id user models.StreakReminder models.PriorityHigh
            "Don't Break Your Streak!"
            (streak_message (models.User.Name user)
               (models.UserEngagementStreak.CurrentStreak streak)) now in
        err ← repository.CreateNotification notification;
        match err with
        | Some e => mret (Some ("failed to create streak reminder: " +:+ e))
        | None =>
            now' ← time_Now;
            err ← repository.CreateOutboxEntry (outbox_item notification topic now');
            mret (repository.wrap "failed to create outbox entry for streak reminder" err)
        end
  end.

End notificationService.
End services.

(** ** cmd/scheduler: SchedulerService (daily reminders) *)

Module scheduler.
Import postgres.
Section SchedulerService.
Context `{!Json, !Env}.

(** The rows of
    SELECT DISTINCT u.user_id, u.name, u.email
    FROM users u JOIN user_notification_preferences unp ON u.user_id = unp.user_id
    WHERE unp.type = 'daily_reminder' AND unp.channel = 'in_app'
      AND unp.enabled = true
      AND NOT EXISTS (SELECT 1 FROM notifications n
                      WHERE n.user_id = u.user_id AND n.type = 'daily_reminder'
                        AND n.created_at::date = current_date). *)
Definition wants_daily_reminder (u : users_row.t) (unp : preferences_row.t) : bool :=
  bool_decide (users_row.user_id u = preferences_row.user_id unp) &&
  String.eqb (preferences_row.type_ unp) "daily_reminder" &&
  String.eqb (preferences_row.channel unp) "in_app" &&
  Bool.eqb (preferences_row.enabled unp) true.

Definition reminded_on (today : Z) (u : users_row.t) (n : notifications_row.t) : bool :=
  bool_decide (notifications_row.user_id n = users_row.user_id u) &&
  String.eqb (notifications_row.type_ n) "daily_reminder" &&
  (date_of (notifications_row.created_at n) =? today).

Definition daily_reminder_rows (now : Time) (d : Database) : list (UUID * string * string) :=
  remove_dups
    (flat_map
       (fun u =>
          flat_map
            (fun unp =>
               if wants_daily_reminder u unp &&
                  negb (existsb (reminded_on (date_of now) u) (notifications d))
               then [(users_row.user_id u, users_row.name u, users_row.email u)]
               else [])
            (user_notification_preferences d))
       (users d)).

(** [rows.Scan(&user.ID, &user.Name, &user.Email)] into a zero User. *)
Definition scan_user (r : UUID * string * string) : models.User.t :=
  models.User.mk r.1.1 r.1.2 r.2 0 time_zero time_zero.

Definition getUsersNeedingDailyReminders : M (result (list models.User.t)) :=
  rows ← db_Query_at (fun now d => Ok (daily_reminder_rows now d));
  match rows with
  | Err e => mret (Err ("failed to query users needing daily reminders: " +:+ e))
  | Ok rows => mret (Ok (map scan_user rows))
  end.

Definition createDailyReminder (user : models.User.t) : M (option error) :=
  streak ← repository.GetUserEngagementStreak (models.User.ID user) "practice";
  _ ← match streak with
      | Err e =>
          log_Printf ("Failed to get user streak for " +:+
                      uuid_String (models.User.ID user) +:+ ": " +:+ e)
      | Ok _ => mret tt
      end;
  let currentStreak :=
    match streak with
    | Ok streak => models.UserEngagementStreak.CurrentStreak streak
    | Err _ => 0
    end in
  id ← uuid_New;
  now ← time_Now;
  let notification :=
    services.reminder id user models.DailyReminder models.PriorityMedium
      "Time to Practice!" (services.daily_message (models.User.Name user) currentStreak)
      now in
  err ← repository.CreateNotification notification;
  match err with
  | Some e => mret (Some ("failed to create daily reminder: " +:+ e))
  | None =>
      now' ← time_Now;
      err ← repository.CreateOutboxEntry
              (services.outbox_item notification "notifications" now');
      _ ← match err with
          | Some e =>
              log_Printf ("Failed to create outbox entry for daily reminder: " +:+ e)
          | None => mret tt
          end;
      _ ← log_Printf ("Created daily reminder for user " +:+
                      uuid_String (models.User.ID user) +:+
                      " (streak: " +:+ pretty currentStreak +:+ ")");
      mret None
  end.

(** The loop [for _, user := range users] of processDailyReminders. *)
Fixpoint remind_each (users : list models.User.t) : M unit :=
  match users with
  | [] => mret tt
  | user :: rest =>
      err ← createDailyReminder user;
      _ ← match err with
          | Some e =>
              log_Printf ("Failed to create daily reminder for user " +:+
                          uuid_String (models.User.ID user) +:+ ": " +:+ e)
          | None => mret tt
          end;
      remind_each rest
  end.

Definition processDailyReminders : M (option error) :=
  users ← getUsersNeedingDailyReminders;
  match users with
  | Err e => mret (Some ("failed to get users needing daily reminders: " +:+ e))
  | Ok users =>
      _ ← (if (0 <? Z.of_nat (length users))
           then log_Printf ("Processing daily reminders for " +:+
                            pretty (Z.of_nat (length users)) +:+ " users")
           else mret tt);
      _ ← remind_each users;
      mret None
  end.

(** *** The other three ticks

    The preference join and the guards the cohort queries share:
    [unp.type = $type AND unp.channel = 'in_app' AND unp.enabled = true] on
    [u.user_id = unp.user_id], and [n.user_id = u.user_id AND n.type = $type]
    of the NOT EXISTS subqueries. *)
Definition wants (type : string) (u : users_row.t) (unp : preferences_row.t) : bool :=
  bool_decide (users_row.user_id u = preferences_row.user_id unp) &&
  String.eqb (preferences_row.type_ unp) type &&
  String.eqb (preferences_row.channel unp) "in_app" &&
  Bool.eqb (preferences_row.enabled unp) true.

Definition notified (type : string) (u : users_row.t) (n : notifications_row.t) : bool :=
  bool_decide (notifications_row.user_id n = users_row.user_id u) &&
  String.eqb (notifications_row.type_ n) type.

(** [u.user_id = ues.user_id AND ues.streak_type = 'practice'
     AND ues.current_streak > 0 AND ues.last_activity_date < current_date]:
    a NULL date compares to no date. *)
Definition streak_at_risk (today : Z) (u : users_row.t) (ues : streaks_row.t) : bool :=
  bool_decide (users_row.user_id u = streaks_row.user_id ues) &&
  String.eqb (streaks_row.streak_type ues) "practice" &&
  (0 <? streaks_row.current_streak ues) &&
  match streaks_row.last_activity_date ues with
  | Some t => date_of t <? today
  | None => false
  end.

(** The rows of
    SELECT DISTINCT u.user_id, u.name, u.email
    FROM users u
    JOIN user_notification_preferences unp ON u.user_id = unp.user_id
    JOIN user_engagement_streaks ues ON u.user_id = ues.user_id
    WHERE unp.type = 'streak_reminder' AND unp.channel = 'in_app'
      AND unp.enabled = true AND ues.streak_type = 'practice'
      AND ues.current_streak > 0 AND ues.last_activity_date < current_date
      AND NOT EXISTS (SELECT 1 FROM notifications n
                      WHERE n.user_id = u.user_id AND n.type = 'streak_reminder'
                        AND n.created_at::date = current_date). *)
Definition streak_reminder_rows (now : Time) (d : Database) : list (UUID * string * string) :=
  remove_dups
    (flat_map
       (fun u =>
          flat_map
            (fun unp =>
               flat_map
                 (fun ues =>
                    if wants "streak_reminder" u unp &&
                       streak_at_risk (date_of now) u ues &&
                       negb (existsb
                               (fun n => notified "streak_reminder" u n &&
                                         (date_of (notifications_row.created_at n)
                                          =? date_of now))
                               (notifications d))
                    then [(users_row.user_id u, users_row.name u, users_row.email u)]
                    else [])
                 (user_engagement_streaks d))
            (user_notification_preferences d))
       (users d)).

Definition getUsersNeedingStreakReminders : M (result (list models.User.t)) :=
  rows ← db_Query_at (fun now d => Ok (streak_reminder_rows now d));
  match rows with
  | Err e => mret (Err ("failed to query users needing streak reminders: " +:+ e))
  | Ok rows => mret (Ok (map scan_user rows))
  end.

(** [EXISTS (SELECT 1 FROM user_engagement_streaks ues
             WHERE ues.user_id = u.user_id AND ues.streak_type = 'practice'
               AND ues.current_streak > 0)]. *)
Definition has_active_streak (u : users_row.t) (d : Database) : bool :=
  existsb
    (fun ues =>
       bool_decide (streaks_row.user_id ues = users_row.user_id u) &&
       String.eqb (streaks_row.streak_type ues) "practice" &&
       (0 <? streaks_row.current_streak ues))
    (user_engagement_streaks d).

(** [date_trunc('week', current_date)]: the Monday the week of [now] began
    with, at midnight. *)
Definition week_start (now : Time) : Time :=
  (date_of now - (date_of now + 3) mod 7) * nanoseconds_per_day.

(** The rows of
    SELECT DISTINCT u.user_id, u.name, u.email
    FROM users u JOIN user_notification_preferences unp ON u.user_id = unp.user_id
    WHERE unp.type = 'weekly_recap' AND unp.channel = 'in_app'
      AND unp.enabled = true
      AND EXISTS (... an active practice streak ...)
      AND NOT EXISTS (SELECT 1 FROM notifications n
                      WHERE n.user_id = u.user_id AND n.type = 'weekly_recap'
                        AND n.created_at >= date_trunc('week', current_date)). *)
Definition weekly_recap_rows (now : Time) (d : Database) : list (UUID * string * string) :=
  remove_dups
    (flat_map
       (fun u =>
          flat_map
            (fun unp =>
               if wants "weekly_recap" u unp &&
                  has_active_streak u d &&
                  negb (existsb
                          (fun n => notified "weekly_recap" u n &&
                                    (week_start now <=? notifications_row.created_at n))
                          (notifications d))
               then [(users_row.user_id u, users_row.name u, users_row.email u)]
               else [])
            (user_notification_preferences d))
       (users d)).

Definition getActiveUsersForWeeklyRecap : M (result (list models.User.t)) :=
  rows ← db_Query_at (fun now d => Ok (weekly_recap_rows now d));
  match rows with
  | Err e => mret (Err ("failed to query active users for weekly recap: " +:+ e))
  | Ok rows => mret (Ok (map scan_user rows))
  end.

(** [EXISTS (SELECT 1 FROM user_engagement_streaks ues
             WHERE ues.user_id = u.user_id AND ues.streak_type = 'practice'
               AND ues.last_activity_date < current_date - interval '7 days')]. *)
Definition long_inactive (today : Z) (u : users_row.t) (d : Database) : bool :=
  existsb
    (fun ues =>
       bool_decide (streaks_row.user_id ues = users_row.user_id u) &&
       String.eqb (streaks_row.streak_type ues) "practice" &&
       match streaks_row.last_activity_date ues with
       | Some t => date_of t <? today - 7
       | None => false
       end)
    (user_engagement_streaks d).

(** The rows of
    SELECT DISTINCT u.user_id, u.name, u.email
    FROM users u JOIN user_notification_preferences unp ON u.user_id = unp.user_id
    WHERE unp.type = 'we_miss_you' AND unp.channel = 'in_app'
      AND unp.enabled = true
      AND EXISTS (... a practice streak last active more than 7 days ago ...)
      AND NOT EXISTS (SELECT 1 FROM notifications n
                      WHERE n.user_id = u.user_id AND n.type = 'we_miss_you'
                        AND n.created_at >= current_date - interval '7 days'). *)
Definition engagement_nudge_rows (now : Time) (d : Database) : list (UUID * string * string) :=
  remove_dups
    (flat_map
       (fun u =>
          flat_map
            (fun unp =>
               if wants "we_miss_you" u unp &&
                  long_inactive (date_of now) u d &&
                  negb (existsb
                          (fun n => notified "we_miss_you" u n &&
                                    ((date_of now - 7) * nanoseconds_per_day
                                     <=? notifications_row.created_at n))
                          (notifications d))
               then [(users_row.user_id u, users_row.name u, users_row.email u)]
               else [])
            (user_notification_preferences d))
       (users d)).

Definition getInactiveUsersForEngagementNudge : M (result (list models.User.t)) :=
  rows ← db_Query_at (fun now d => Ok (engagement_nudge_rows now d));
  match rows with
  | Err e => mret (Err ("failed to query inactive users for engagement nudge: " +:+ e))
  | Ok rows => mret (Ok (map scan_user rows))
  end.

(** The tail the four create functions share: the outbox entry, whose
    failure is only logged, and the closing log line. *)
Definition enqueue (notification : models.Notification.t) (what created : string)
  : M (option error) :=
  now' ← time_Now;
  err ← repository.CreateOutboxEntry
          (services.outbox_item notification "notifications" now');
  _ ← match err with
      | Some e => log_Printf ("Failed to create outbox entry for " +:+ what +:+ ": " +:+ e)
      | None => mret tt
      end;
  _ ← log_Printf created;
  mret None.

Definition createStreakReminder (user : models.User.t) : M (option error) :=
  streak ← repository.GetUserEngagementStreak (models.User.ID user) "practice";
  match streak with
  | Err e => mret (Some ("failed to get user streak: " +:+ e))
  | Ok streak =>
      if models.UserEngagementStreak.CurrentStreak streak =? 0 then
        mret (Some "user has no active streak")
      else
        id ← uuid_New;
        now ← time_Now;
        let notification :=
          services.reminder id user models.StreakReminder models.PriorityHigh
            "Don't Break Your Streak!"
            (services.streak_message (models.User.Name user)
               (models.UserEngagementStreak.CurrentStreak streak)) now in
        err ← repository.CreateNotification notification;
        match err with
        | Some e => mret (Some ("failed to create streak reminder: " +:+ e))
        | None =>
            enqueue notification "streak reminder"
              ("Created streak reminder for user " +:+
               uuid_String (models.User.ID user) +:+ " (streak: " +:+
               pretty (models.UserEngagementStreak.CurrentStreak streak) +:+ ")")
        end
  end.

Definition weekly_message (name : string) (currentStreak : Z) : string :=
  "Great week " +:+ name +:+ "! You maintained your " +:+ pretty currentStreak +:+
  "-day streak! Keep up the amazing work! ðŸŽ‰".

Definition createWeeklyRecap (user : models.User.t) : M (option error) :=
  streak ← repository.GetUserEngagementStreak (models.User.ID user) "practice";
  _ ← match streak with
      | Err e => log_Printf ("Failed to get user streak for weekly recap: " +:+ e)
      | Ok _ => mret tt
      end;
  let currentStreak :=
    match streak with
    | Ok streak => models.UserEngagementStreak.CurrentStreak streak
    | Err _ => 0
    end in
  id ← uuid_New;
  now ← time_Now;
  let notification :=
    services.reminder id user models.WeeklyRecap models.PriorityLow
      "Your Weekly Progress Report" (weekly_message (models.User.Name user) currentStreak)
      now in
  err ← repository.CreateNotification notification;
  match err with
  | Some e => mret (Some ("failed to create weekly recap: " +:+ e))
  | None =>
      enqueue notification "weekly recap"
        ("Created weekly recap for user " +:+ uuid_String (models.User.ID user))
  end.

Definition nudge_message (name : string) : string :=
  "Hey " +:+ name +:+ "! It's been a while since your last practice. " +:+
  "Your skills are getting rusty! Come back and practice! ðŸ’ª".

Definition createEngagementNudge (user : models.User.t) : M (option error) :=
  id ← uuid_New;
  now ← time_Now;
  let notification :=
    services.reminder id user models.WeMissYou models.PriorityLow
      "We Miss You!" (nudge_message (models.User.Name user)) now in
  err ← repository.CreateNotification notification;
  match err with
  | Some e => mret (Some ("failed to create engagement nudge: " +:+ e))
  | None =>
      enqueue notification "engagement nudge"
        ("Created engagement nudge for user " +:+ uuid_String (models.User.ID user))
  end.

(** The loop [for _, user := range users] of the three ticks: a failure is
    logged and the loop goes on with the next user. *)
Fixpoint each_user (create : models.User.t -> M (option error)) (what : string)
    (users : list models.User.t) : M unit :=
  match users with
  | [] => mret tt
  | user :: rest =>
      err ← create user;
      _ ← match err with
          | Some e =>
              log_Printf ("Failed to create " +:+ what +:+ " for user " +:+
                          uuid_String (models.User.ID user) +:+ ": " +:+ e)
          | None => mret tt
          end;
      each_user create what rest
  end.

(** What the ticks do once their cohort query has returned. *)
Definition process (cohort : string) (what plural : string)
    (create : models.User.t -> M (option error))
    (users : result (list models.User.t)) : M (option error) :=
  match users with
  | Err e => mret (Some ("failed to get " +:+ cohort +:+ ": " +:+ e))
  | Ok users =>
      _ ← (if (0 <? Z.of_nat (length users))
           then log_Printf ("Processing " +:+ plural +:+ " for " +:+
                            pretty (Z.of_nat (length users)) +:+ " users")
           else mret tt);
      _ ← each_user create what users;
      mret None
  end.

Definition processStreakReminders : M (option error) :=
  users ← getUsersNeedingStreakReminders;
  process "users needing streak reminders" "streak reminder" "streak reminders"
    createStreakReminder users.

Definition processWeeklyRecaps : M (option error) :=
  now ← time_Now;
  if negb (weekday now =? time_Monday) then mret None
  else
    users ← getActiveUsersForWeeklyRecap;
    process "active users for weekly recap" "weekly recap" "weekly recaps"
      createWeeklyRecap users.

Definition processEngagementNudges : M (option error) :=
  users ← getInactiveUsersForEngagementNudge;
  process "inactive users for engagement nudge" "engagement nudge" "engagement nudges"
    createEngagementNudge users.

End SchedulerService.
End scheduler.

(** ** cmd/consumer *)

(** [sarama.ConsumerMessage]. *)
Module ConsumerMessage.
Record t := mk {
  Key : string;
  Value : string;
  Topic : string;
  Partition : Z;
  Offset : Z
}.
End ConsumerMessage.

Module consumer.

Definition ConsumerGroup : string := "notifications-group".
Definition ConsumerTopic : string := "notifications".

(** The consumer process: the NotificationStore's map
    ([UserNotifications map[string][]models.Notification]), the messages
    marked on the session, and the lines logged. *)
Record Process := mkProcess {
  data : gmap string (list models.Notification.t);
  marked : list ConsumerMessage.t;
  logged : list string
}.

(** [NotificationStore.Add]: [ns.data[userID] = append(ns.data[userID], n)]. *)
Definition Add (userID : string) (notification : models.Notification.t)
    (ns : gmap string (list models.Notification.t))
  : gmap string (list models.Notification.t) :=
  <[userID := (default [] (ns !! userID) ++ [notification])%list]> ns.

(** [NotificationStore.Get]. *)
Definition Get (userID : string) (ns : gmap string (list models.Notification.t))
  : list models.Notification.t :=
  default [] (ns !! userID).

(** [getKafkaBroker]: the broker address read from KAFKA_BROKERS. *)
Definition kafka_broker_of (brokers : string) : string :=
  if String.eqb brokers EmptyString then "kafka:9092"
  else
    match before_comma brokers with
    | Some first => strings_TrimSpace first
    | None => strings_TrimSpace brokers
    end.

Definition getKafkaBroker `{!Env} : M string :=
  brokers ← os_Getenv "KAFKA_BROKERS";
  mret (kafka_broker_of brokers).

Definition ErrNoMessagesFound : error := "no messages found".

(** [getUserIDFromRequest]: [param] is what [ctx.Param("userID")] yields. *)
Definition getUserIDFromRequest (param : string) : result string :=
  if String.eqb param EmptyString then Err ErrNoMessagesFound else Ok param.

(** What a handler passes to [ctx.JSON]: the status code and the fields of
    the [gin.H] body that are present. *)
Record Response := mkResponse {
  status : Z;
  message : option string;
  notifications : option (list models.Notification.t)
}.

Definition StatusOK : Z := 200.
Definition StatusNotFound : Z := 404.

(** [handleNotifications], the handler of GET /notifications/:userID. *)
Definition handleNotifications (param : string)
    (store : gmap string (list models.Notification.t)) : Response :=
  match getUserIDFromRequest param with
  | Err e => mkResponse StatusNotFound (Some e) None
  | Ok userID =>
      let notes := Get userID store in
      if (length notes =? 0)%nat then
        mkResponse StatusOK (Some "No notifications found for user") (Some [])
      else mkResponse StatusOK None (Some notes)
  end.

Section Consumer.
Context `{!Json}.

(** One iteration of [for msg := range claim.Messages()]. *)
Definition consume_message (msg : ConsumerMessage.t) (p : Process) : Process :=
  let userID := ConsumerMessage.Key msg in
  match json_Unmarshal_Notification (ConsumerMessage.Value msg) with
  | Err e =>
      mkProcess (data p) (marked p)
        (logged p ++ ["failed to unmarshal notification: " +:+ e])
  | Ok notification =>
      mkProcess (Add userID notification (data p)) (marked p ++ [msg]) (logged p)
  end.

(** [Consumer.ConsumeClaim] over the messages the claim delivers; it returns
    nil when the channel is closed. *)
Fixpoint ConsumeClaim (messages : list ConsumerMessage.t) (p : Process)
  : Process * option error :=
  match messages with
  | [] => (p, None)
  | msg :: rest => ConsumeClaim rest (consume_message msg p)
  end.

(** What the retry loop reads from outside at its [n]-th interaction: the
    error of initializeConsumerGroup, the messages a [cg.Consume] session
    claims and the error it ends with, and whether the shared context is
    cancelled by then. *)
Class Broker : Type := {
  init_error : nat -> option error;
  session : nat -> list ConsumerMessage.t * option error;
  cancelled : nat -> bool
}.

(** The places of setupConsumerGroup where control waits for the outside. *)
Inductive Place : Type :=
| Connecting        (* cg, err := initializeConsumerGroup() *)
| InitBackoff       (* select after an initialization error *)
| Consuming         (* err = cg.Consume(ctx, topics, consumer) *)
| RetryBackoff      (* cg.Close(), then the select after the inner loop *)
| Returned.

Global Instance Place_eq_dec : EqDecision Place.
Proof. solve_decision. Defined.

Inductive Event : Type :=
| EvConnect (err : option error)
| EvConsume (err : option error)
| EvClose
| EvWait (d : Duration) (done : bool).

Definition backoff : Duration := 5 * time_Second.

Record Runtime := mkRuntime {
  place : Place;
  process : Process;
  events : list Event;
  interactions : nat
}.

Context `{!Broker}.

Definition say (line : string) (p : Process) : Process :=
  mkProcess (data p) (marked p) (logged p ++ [line]).

(** One interaction of setupConsumerGroup with the outside. *)
Definition step (r : Runtime) : Runtime :=
  let n := interactions r in
  match place r with
  | Connecting =>
      match init_error n with
      | Some e =>
          mkRuntime InitBackoff
            (say ("initialization error: failed to initialize consumer group: " +:+ e)
                 (process r))
            (events r ++ [EvConnect (Some e)]) (S n)
      | None => mkRuntime Consuming (process r) (events r ++ [EvConnect None]) (S n)
      end
  | InitBackoff =>
      if cancelled n
      then mkRuntime Returned (process r) (events r ++ [EvWait backoff true]) (S n)
      else mkRuntime Connecting (process r) (events r ++ [EvWait backoff false]) (S n)
  | Consuming =>
      let '(messages, err) := session n in
      let p := (ConsumeClaim messages (process r)).1 in
      match err with
      | Some e =>
          mkRuntime RetryBackoff (say ("error from consumer: " +:+ e) p)
            (events r ++ [EvConsume (Some e); EvClose]) (S n)
      | None =>
          if cancelled n
          then mkRuntime Returned p (events r ++ [EvConsume None; EvClose]) (S n)
          else mkRuntime Consuming p (events r ++ [EvConsume None]) (S n)
      end
  | RetryBackoff =>
      if cancelled n
      then mkRuntime Returned (process r) (events r ++ [EvWait backoff true]) (S n)
      else mkRuntime Connecting (process r) (events r ++ [EvWait backoff false]) (S n)
  | Returned => r
  end.

(** setupConsumerGroup, run for [k] interactions. *)
Fixpoint setupConsumerGroup (k : nat) (r : Runtime) : Runtime :=
  match k with
  | O => r
  | S k' => setupConsumerGroup k' (step r)
  end.

Definition start (store : gmap string (list models.Notification.t)) : Runtime :=
  mkRuntime Connecting (mkProcess store [] []) [] 0.

End Consumer.
End consumer.

(** ** A reference instance of encoding/json

    A compact printer and a reader of JSON texts, used to run the
    development on concrete inputs and to state what Scan and Value do with
    the library behind them.  This instance prints object keys in sorted
    order, escapes strings and prints instants in RFC 3339 (UTC) as the Go
    encoder does, reads integers, strings, literals, arrays and objects, and
    rejects what it does not support.  A number read into an [interface{}]
    becomes a float64, as in the Go decoder: an integer that float64 cannot
    hold is rounded to the nearest one it can (ties to even).  [VNumber n]
    stands for a Go integer or for a float64 whose value is the integer [n];
    the printer writes its digits, which is what the Go encoder does for
    integers and for such float64 values up to 2^53 in magnitude. *)

Module reference.

Definition dq : ascii := ascii_of_nat 34.
Definition backslash : ascii := ascii_of_nat 92.

Definition two_digits (n : Z) : string :=
  (if n <? 10 then "0" else "") +:+ pretty n.

Definition four_digits (n : Z) : string :=
  (if n <? 10 then "000" else if n <? 100 then "00" else if n <? 1000 then "0" else "")
  +:+ pretty n.

(** The civil date of a day count since 1970-01-01. *)
Definition civil_from_days (days : Z) : Z * Z * Z :=
  let z := days + 719468 in
  let era := z / 146097 in
  let doe := z - era * 146097 in
  let yoe := (doe - doe / 1460 + doe / 36524 - doe / 146096) / 365 in
  let doy := doe - (365 * yoe + yoe / 4 - yoe / 100) in
  let mp := (5 * doy + 2) / 153 in
  let d := doy - (153 * mp + 2) / 5 + 1 in
  let m := if mp <? 10 then mp + 3 else mp - 9 in
  let y := yoe + era * 400 + (if m <=? 2 then 1 else 0) in
  (y, m, d).

Definition days_from_civil (y m d : Z) : Z :=
  let y := if m <=? 2 then y - 1 else y in
  let era := y / 400 in
  let yoe := y - era * 400 in
  let doy := (153 * (if m >? 2 then m - 3 else m + 9) + 2) / 5 + d - 1 in
  let doe := yoe * 365 + yoe / 4 - yoe / 100 + doy in
  era * 146097 + doe - 719468.

(** The fraction of a second, without trailing zeros. *)
Fixpoint fraction (width : nat) (nanos : Z) : string :=
  match width with
  | O => ""
  | S w =>
      if nanos =? 0 then ""
      else
        let unit := 10 ^ Z.of_nat w in
        pretty (nanos / unit) +:+ fraction w (nanos mod unit)
  end.

Definition format_RFC3339 (t : Time) : string :=
  let secs := t / 1000000000 in
  let nanos := t mod 1000000000 in
  let '(y, m, d) := civil_from_days (secs / 86400) in
  let rem := secs mod 86400 in
  four_digits y +:+ "-" +:+ two_digits m +:+ "-" +:+ two_digits d +:+ "T" +:+
  two_digits (rem / 3600) +:+ ":" +:+ two_digits (rem mod 3600 / 60) +:+ ":" +:+
  two_digits (rem mod 60) +:+
  (if nanos =? 0 then "" else "." +:+ fraction 9 nanos) +:+ "Z".

Definition escape_char (c : ascii) : string :=
  let n := N_of_ascii c in
  if Ascii.eqb c dq then String backslash (String dq "")
  else if Ascii.eqb c backslash then String backslash (String backslash "")
  else if (n =? 10)%N then String backslash "n"
  else if (n =? 13)%N then String backslash "r"
  else if (n =? 9)%N then String backslash "t"
  else if ((n <? 32) || (n =? 60) || (n =? 62) || (n =? 38))%N
       then String backslash ("u00" +:+ hex_of 2 n)
  else String c "".

Fixpoint escape (s : string) : string :=
  match s with
  | EmptyString => ""
  | String c rest => escape_char c +:+ escape rest
  end.

Definition quoted (s : string) : string :=
  String dq (escape s) +:+ String dq "".

Fixpoint print_value (v : GoValue) : string :=
  match v with
  | VNil => "null"
  | VBool b => if b then "true" else "false"
  | VNumber n => pretty n
  | VString s => quoted s
  | VStringPtr None => "null"
  | VStringPtr (Some s) => quoted s
  | VTime t => quoted (format_RFC3339 t)
  | VSlice l =>
      "[" +:+
      (fix elements (l : list GoValue) : string :=
         match l with
         | [] => ""
         | [x] => print_value x
         | x :: rest => print_value x +:+ "," +:+ elements rest
         end) l +:+ "]"
  | VMap m =>
      "{" +:+
      (fix members (m : list (string * GoValue)) : string :=
         match m with
         | [] => ""
         | [(k, x)] => quoted k +:+ ":" +:+ print_value x
         | (k, x) :: rest => quoted k +:+ ":" +:+ print_value x +:+ "," +:+ members rest
         end) m +:+ "}"
  end.

(** Insertion of a member in a list of members sorted by key; a member of
    the same key is replaced. *)
Fixpoint put_member (k : string) (v : GoValue) (m : list (string * GoValue))
  : list (string * GoValue) :=
  match m with
  | [] => [(k, v)]
  | (k', v') :: rest =>
      if String.eqb k k' then (k, v) :: rest
      else if String.ltb k k' then (k, v) :: (k', v') :: rest
      else (k', v') :: put_member k v rest
  end.

Definition sorted_members (m : list (string * GoValue)) : list (string * GoValue) :=
  foldl (fun acc kv => put_member kv.1 kv.2 acc) [] m.

Definition Marshal (j : models.JSONMap) : result string :=
  match j with
  | None => Ok "null"
  | Some m => Ok (print_value (VMap (sorted_members (map_to_list m))))
  end.

Definition is_space (c : ascii) : bool :=
  let n := N_of_ascii c in ((n =? 32) || (n =? 9) || (n =? 10) || (n =? 13))%N.

Fixpoint skip_space (s : string) : string :=
  match s with
  | String c rest => if is_space c then skip_space rest else s
  | EmptyString => s
  end.

Definition digit_value (c : ascii) : option Z :=
  let n := Z.of_N (N_of_ascii c) in
  if (48 <=? n) && (n <=? 57) then Some (n - 48) else None.

Definition hex_value (c : ascii) : option N :=
  let n := N_of_ascii c in
  if ((48 <=? n) && (n <=? 57))%N then Some (n - 48)%N
  else if ((97 <=? n) && (n <=? 102))%N then Some (n - 87)%N
  else if ((65 <=? n) && (n <=? 70))%N then Some (n - 55)%N
  else None.

Fixpoint read_digits (s : string) (acc : Z) : Z * string :=
  match s with
  | String c rest =>
      match digit_value c with
      | Some d => read_digits rest (10 * acc + d)
      | None => (acc, s)
      end
  | EmptyString => (acc, s)
  end.

Definition starts_with_digit (s : string) : bool :=
  match s with
  | String c _ => match digit_value c with Some _ => true | None => false end
  | EmptyString => false
  end.

(** The text of a string literal after its opening quote: the decoded
    string and what follows the closing quote. *)
Fixpoint read_string (s : string) : option (string * string) :=
  match s with
  | EmptyString => None
  | String c rest =>
      if Ascii.eqb c dq then Some ("", rest)
      else if Ascii.eqb c backslash then
        match rest with
        | String e rest' =>
            let plain (x : ascii) :=
              match read_string rest' with
              | Some (body, after) => Some (String x body, after)
              | None => None
              end in
            if Ascii.eqb e dq then plain dq
            else if Ascii.eqb e backslash then plain backslash
            else if Ascii.eqb e "/" then plain "/"%char
            else if Ascii.eqb e "n" then plain (ascii_of_nat 10)
            else if Ascii.eqb e "r" then plain (ascii_of_nat 13)
            else if Ascii.eqb e "t" then plain (ascii_of_nat 9)
            else if Ascii.eqb e "b" then plain (ascii_of_nat 8)
            else if Ascii.eqb e "f" then plain (ascii_of_nat 12)
            else if Ascii.eqb e "u" then
              match rest' with
              | String a (String b (String x (String y rest''))) =>
                  match hex_value a, hex_value b, hex_value x, hex_value y with
                  | Some 0%N, Some 0%N, Some h, Some l =>
                      if (h <? 8)%N then
                        match read_string rest'' with
                        | Some (body, after) =>
                            Some (String (ascii_of_N (16 * h + l)) body, after)
                        | None => None
                        end
                      else None
                  | _, _, _, _ => None
                  end
              | _ => None
              end
            else None
        | EmptyString => None
        end
      else
        match read_string rest with
        | Some (body, after) => Some (String c body, after)
        | None => None
        end
  end.

Definition strip_prefix (p s : string) : option string :=
  if String.prefix p s then Some (substring (String.length p) (String.length s) s)
  else None.

Fixpoint read_value (fuel : nat) (s : string) : option (GoValue * string) :=
  match fuel with
  | O => None
  | S fuel =>
      let s := skip_space s in
      match s with
      | EmptyString => None
      | String c rest =>
          if Ascii.eqb c dq then
            match read_string rest with
            | Some (body, after) => Some (VString body, after)
            | None => None
            end
          else if Ascii.eqb c "[" then
            match skip_space rest with
            | String "]" after => Some (VSlice [], after)
            | _ =>
                match read_elements fuel rest with
                | Some (l, after) => Some (VSlice l, after)
                | None => None
                end
            end
          else if Ascii.eqb c "{" then
            match skip_space rest with
            | String "}" after => Some (VMap [], after)
            | _ =>
                match read_members fuel rest with
                | Some (m, after) => Some (VMap (sorted_members m), after)
                | None => None
                end
            end
          else if Ascii.eqb c "-" then
            if starts_with_digit rest then
              let '(n, after) := read_digits rest 0 in Some (VNumber (- n), after)
            else None
          else if starts_with_digit s then
            let '(n, after) := read_digits s 0 in Some (VNumber n, after)
          else
            match strip_prefix "null" s, strip_prefix "true" s, strip_prefix "false" s with
            | Some after, _, _ => Some (VNil, after)
            | _, Some after, _ => Some (VBool true, after)
            | _, _, Some after => Some (VBool false, after)
            | _, _, _ => None
            end
      end
  end
with read_elements (fuel : nat) (s : string) : option (list GoValue * string) :=
  match fuel with
  | O => None
  | S fuel =>
      match read_value fuel s with
      | None => None
      | Some (v, after) =>
          match skip_space after with
          | String "," more =>
              match read_elements fuel more with
              | Some (l, after') => Some (v :: l, after')
              | None => None
              end
          | String "]" after' => Some ([v], after')
          | _ => None
          end
      end
  end
with read_members (fuel : nat) (s : string) : option (list (string * GoValue) * string) :=
  match fuel with
  | O => None
  | S fuel =>
      match skip_space s with
      | String c rest =>
          if Ascii.eqb c dq then
            match read_string rest with
            | None => None
            | Some (k, after) =>
                match skip_space after with
                | String ":" more =>
                    match read_value fuel more with
                    | None => None
                    | Some (v, after') =>
                        match skip_space after' with
                        | String "," more' =>
                            match read_members fuel more' with
                            | Some (m, after'') => Some ((k, v) :: m, after'')
                            | None => None
                            end
                        | String "}" after'' => Some ([(k, v)], after'')
                        | _ => None
                        end
                    end
                | _ => None
                end
            end
          else None
      | EmptyString => None
      end
  end.

(** A whole JSON text. *)
Definition read_json (data : string) : result GoValue :=
  match read_value (2 * String.length data + 2) data with
  | Some (v, after) =>
      match skip_space after with
      | EmptyString => Ok v
      | _ => Err "invalid character after top-level value"
      end
  | None => Err "invalid or unsupported JSON text"
  end.

Definition kind_name (v : GoValue) : string :=
  match v with
  | VNil => "null"
  | VBool _ => "bool"
  | VNumber _ => "number"
  | VString _ | VStringPtr _ | VTime _ => "string"
  | VSlice _ => "array"
  | VMap _ => "object"
  end.

(** [strconv.ParseFloat] on an integer literal: the float64 nearest to [n],
    ties to even.  An integer of at most 53 bits is kept. *)
Definition float64_of_int (n : Z) : Z :=
  let a := Z.abs n in
  let e := Z.log2 a - 52 in
  if e <=? 0 then n
  else
    let q := a / 2 ^ e in
    let r := a mod 2 ^ e in
    let half := 2 ^ (e - 1) in
    let q' := if (half <? r) || ((r =? half) && Z.odd q) then q + 1 else q in
    Z.sgn n * (q' * 2 ^ e).

(** A value as the decoder stores it into an [interface{}]: every number
    becomes a float64.  A number beyond the range of float64 is among what
    this instance rejects. *)
Fixpoint to_interface (v : GoValue) : option GoValue :=
  match v with
  | VNumber n =>
      let f := float64_of_int n in
      if Z.abs f <? 2 ^ 1024 then Some (VNumber f) else None
  | VSlice l =>
      match
        (fix elements (l : list GoValue) : option (list GoValue) :=
           match l with
           | [] => Some []
           | x :: rest =>
               match to_interface x, elements rest with
               | Some x', Some rest' => Some (x' :: rest')
               | _, _ => None
               end
           end) l
      with
      | Some l' => Some (VSlice l')
      | None => None
      end
  | VMap m =>
      match
        (fix members (m : list (string * GoValue)) : option (list (string * GoValue)) :=
           match m with
           | [] => Some []
           | (k, x) :: rest =>
               match to_interface x, members rest with
               | Some x', Some rest' => Some ((k, x') :: rest')
               | _, _ => None
               end
           end) m
      with
      | Some m' => Some (VMap m')
      | None => None
      end
  | _ => Some v
  end.

Definition out_of_range : error := "json: number out of the range of float64".

(** [json.Unmarshal(data, j)] for [j *JSONMap]: null sets the map to nil, an
    object is stored into the map the destination holds (a fresh one when it
    is nil), anything else is an error. *)
Definition Unmarshal (data : string) (j : models.JSONMap) : models.JSONMap * option error :=
  match read_json data with
  | Err e => (j, Some e)
  | Ok VNil => (None, None)
  | Ok (VMap m) =>
      match to_interface (VMap m) with
      | Some (VMap m') =>
          (Some (foldl (fun acc kv => <[kv.1 := kv.2]> acc) (default ∅ j) m'), None)
      | _ => (j, Some out_of_range)
      end
  | Ok v =>
      (j, Some ("json: cannot unmarshal " +:+ kind_name v +:+
                " into Go value of type models.JSONMap"))
  end.

Fixpoint read_hex (s : string) (acc : N) : option N :=
  match s with
  | EmptyString => Some acc
  | String c rest =>
      match hex_value c with
      | Some h => read_hex rest (16 * acc + h)%N
      | None => None
      end
  end.

(** [uuid.Parse] on the canonical 36-character form. *)
Definition parse_uuid (s : string) : option UUID :=
  if (String.length s =? 36)%nat &&
     String.eqb (substring 8 1 s) "-" && String.eqb (substring 13 1 s) "-" &&
     String.eqb (substring 18 1 s) "-" && String.eqb (substring 23 1 s) "-"
  then
    match read_hex (substring 0 8 s +:+ substring 9 4 s +:+ substring 14 4 s +:+
                    substring 19 4 s +:+ substring 24 12 s) 0%N with
    | Some n => Some (mkUUID n)
    | None => None
    end
  else None.

(** The digits after the decimal point of the seconds, as nanoseconds. *)
Fixpoint read_fraction (width : nat) (s : string) (acc : Z) : Z * string :=
  match width with
  | O => (acc, s)
  | S w =>
      match s with
      | String c rest =>
          match digit_value c with
          | Some d => read_fraction w rest (acc + d * 10 ^ Z.of_nat w)
          | None => (acc, s)
          end
      | EmptyString => (acc, s)
      end
  end.

(** [time.Parse(time.RFC3339, s)] for UTC instants written with Z. *)
Definition parse_RFC3339 (s : string) : option Time :=
  let '(y, s) := read_digits s 0 in
  match s with
  | String "-" s =>
      let '(m, s) := read_digits s 0 in
      match s with
      | String "-" s =>
          let '(d, s) := read_digits s 0 in
          match s with
          | String "T" s =>
              let '(hh, s) := read_digits s 0 in
              match s with
              | String ":" s =>
                  let '(mm, s) := read_digits s 0 in
                  match s with
                  | String ":" s =>
                      let '(ss, s) := read_digits s 0 in
                      let '(nanos, s) :=
                        match s with
                        | String "." s => read_fraction 9 s 0
                        | _ => (0, s)
                        end in
                      if String.eqb s "Z" then
                        Some (((days_from_civil y m d * 86400) + hh * 3600 + mm * 60 + ss)
                              * 1000000000 + nanos)
                      else None
                  | _ => None
                  end
              | _ => None
              end
          | _ => None
          end
      | _ => None
      end
  | _ => None
  end.

Fixpoint member (k : string) (m : list (string * GoValue)) : GoValue :=
  match m with
  | [] => VNil
  | (k', v) :: rest => if String.eqb k k' then v else member k rest
  end.

Definition mismatch {A} (v : GoValue) (field type : string) : result A :=
  Err ("json: cannot unmarshal " +:+ kind_name v +:+ " into Go struct field Notification." +:+
       field +:+ " of type " +:+ type).

Definition string_field (m : list (string * GoValue)) (k : string) : result string :=
  match member k m with
  | VNil => Ok ""
  | VString s => Ok s
  | v => mismatch v k "string"
  end.

Definition string_ptr_field (m : list (string * GoValue)) (k : string)
  : result (option string) :=
  match member k m with
  | VNil => Ok None
  | VString s => Ok (Some s)
  | v => mismatch v k "string"
  end.

Definition int_ptr_field (m : list (string * GoValue)) (k : string) : result (option Z) :=
  match member k m with
  | VNil => Ok None
  | VNumber n => Ok (Some n)
  | v => mismatch v k "int64"
  end.

Definition uuid_field (m : list (string * GoValue)) (k : string) : result UUID :=
  match member k m with
  | VNil => Ok (mkUUID 0)
  | VString s =>
      match parse_uuid s with
      | Some u => Ok u
      | None => Err "invalid UUID format"
      end
  | v => mismatch v k "uuid.UUID"
  end.

Definition time_ptr_field (m : list (string * GoValue)) (k : string)
  : result (option Time) :=
  match member k m with
  | VNil => Ok None
  | VString s =>
      match parse_RFC3339 s with
      | Some t => Ok (Some t)
      | None => Err ("parsing time " +:+ s +:+ ": cannot parse as RFC 3339")
      end
  | v => mismatch v k "time.Time"
  end.

Definition map_field (m : list (string * GoValue)) (k : string) : result models.JSONMap :=
  match member k m with
  | VNil => Ok None
  | VMap o =>
      match to_interface (VMap o) with
      | Some (VMap o') => Ok (Some (foldl (fun acc kv => <[kv.1 := kv.2]> acc) ∅ o'))
      | _ => Err out_of_range
      end
  | v => mismatch v k "models.JSONMap"
  end.

Definition and_then {A B} (r : result A) (k : A -> result B) : result B :=
  match r with
  | Ok a => k a
  | Err e => Err e
  end.

(** [json.Unmarshal(data, &notification)] for a zero models.Notification,
    following the struct's json tags. *)
Definition Unmarshal_Notification (data : string) : result models.Notification.t :=
  match read_json data with
  | Err e => Err e
  | Ok (VMap m) =>
      and_then (uuid_field m "id") (fun id =>
      and_then (uuid_field m "user_id") (fun user_id =>
      and_then (string_field m "type") (fun type =>
      and_then (string_field m "channel") (fun channel =>
      and_then (string_field m "priority") (fun priority =>
      and_then (int_ptr_field m "template_id") (fun template_id =>
      and_then (string_ptr_field m "title") (fun title =>
      and_then (string_field m "message") (fun message =>
      and_then (map_field m "metadata") (fun metadata =>
      and_then (string_ptr_field m "dedupe_key") (fun dedupe_key =>
      and_then (time_ptr_field m "created_at") (fun created_at =>
      and_then (time_ptr_field m "scheduled_for") (fun scheduled_for =>
      and_then (time_ptr_field m "sent_at") (fun sent_at =>
      and_then (time_ptr_field m "delivered_at") (fun delivered_at =>
      and_then (time_ptr_field m "read_at") (fun read_at =>
      and_then (string_field m "status") (fun status =>
      Ok (models.Notification.mk id user_id type channel priority template_id title
            message metadata dedupe_key (default time_zero created_at) scheduled_for
            sent_at delivered_at read_at status)))))))))))))))))
  | Ok VNil =>
      Ok (models.Notification.mk (mkUUID 0) (mkUUID 0) "" "" "" None None "" None None
            time_zero None None None None "")
  | Ok v =>
      Err ("json: cannot unmarshal " +:+ kind_name v +:+
           " into Go value of type models.Notification")
  end.

Definition json : Json :=
  {| json_Marshal := Marshal;
     json_Unmarshal := Unmarshal;
     json_Unmarshal_Notification := Unmarshal_Notification |}.

End reference.

(** ** Concrete worlds and environments used by the examples *)

Module examples.

(** An environment in which nothing fails: every statement takes effect, the
    broker acknowledges every message, the clock advances by one second per
    interaction from 2023-11-14T22:13:20Z, and the n-th UUID is n + 16. *)
Definition calm : Env :=
  {| db_fault := fun _ => None;
     send_reply := fun n => Ok (0, Z.of_nat n);
     clock := fun n => 1700000000000000000 + Z.of_nat n * 1000000000;
     fresh_uuid := fun n => mkUUID (N.of_nat n + 16);
     getenv := fun _ => "" |}.

(** The same environment, except that the statement or the SendMessage
    issued at interaction [k] fails. *)
Definition failing_at (k : nat) : Env :=
  {| db_fault := fun n => if (n =? k)%nat then Some "pq: connection refused" else None;
     send_reply := fun n =>
       if (n =? k)%nat then Err "kafka: client has run out of available brokers"
       else Ok (0, Z.of_nat n);
     clock := fun n => 1700000000000000000 + Z.of_nat n * 1000000000;
     fresh_uuid := fun n => mkUUID (N.of_nat n + 16);
     getenv := fun _ => "" |}.

Definition empty_db : postgres.Database :=
  postgres.mkDatabase [] [] [] [] [] [] [] 1 1 1 1.

Definition alice : UUID := mkUUID 10.

Definition one_user_db : postgres.Database :=
  postgres.mkDatabase
    [postgres.users_row.mk alice "Alice" "alice@example.com" 0 0 0]
    [] []
    [postgres.preferences_row.mk 1 alice "daily_reminder" "in_app" true
       None None None None None 0 0]
    [] [] [] 2 1 1 1.

Definition world_of (d : postgres.Database) : World := mkWorld d [] [] 0.

Definition request : models.CreateNotificationRequest.t :=
  models.CreateNotificationRequest.mk alice models.AchievementUnlock
    models.ChannelInApp models.PriorityMedium (Some "Practice Completed!")
    "Great job on completing your practice session. Keep it up!"
    (Some {[ "event" := VString "practice_completed" ]}) None.

Definition message (key value : string) (offset : Z) : ConsumerMessage.t :=
  ConsumerMessage.mk key value "notifications" 0 offset.

(** A message whose value is no JSON text, and the error the reference
    decoder reports for it. *)
Definition malformed : ConsumerMessage.t := message "k" "not json" 1.

Definition malformed_error : error :=
  Eval vm_compute in
    match reference.Unmarshal_Notification "not json" with Ok _ => "" | Err e => e end.

Definition well_formed (offset : Z) : ConsumerMessage.t :=
  message "00000000-0000-0000-0000-000000000011"
    "{ }" offset.

Definition idle : consumer.Process := consumer.mkProcess ∅ [] [].

(** A broker that refuses the first connection, then serves one session that
    ends with an error, then serves sessions that end without one; the
    context is never cancelled. *)
Definition flaky : consumer.Broker :=
  {| consumer.init_error := fun n => if (n =? 0)%nat then Some "dial tcp: connection refused" else None;
     consumer.session := fun n =>
       if (n =? 3)%nat then ([well_formed 0; malformed], Some "kafka: broker not available")
       else ([], None);
     consumer.cancelled := fun _ => false |}.

(** The metadata the PracticeCompleted handler attaches, and its JSON text
    under the reference instance. *)
Definition metadata : gmap string GoValue :=
  {[ "event" := VString "practice_completed" ]}.


(** Three notifications created for Alice, then a tick of the publisher in
    which the second SendMessage (interaction 20) fails. *)
Definition backlog_env : Env := failing_at 20.

Definition create (w : World) : World :=
  final_world
    (@services.CreateNotification reference.json backlog_env "notifications" request w).

Definition backlog : World :=
  Eval vm_compute in create (create (create (world_of one_user_db))).





(** One notification created for Alice and published in a calm
    environment, and what the consumer makes of the published message. *)
Definition published : World :=
  Eval vm_compute in
    final_world
      (@services.ProcessOutbox reference.json calm
         (final_world
            (@services.CreateNotification reference.json calm "notifications" request
               (world_of one_user_db)))).

Definition delivered : consumer.Process :=
  (@consumer.ConsumeClaim reference.json
     (map (fun m => ConsumerMessage.mk (ProducerMessage.Key m) (ProducerMessage.Value m)
                      (ProducerMessage.Topic m) 0 0)
          (broker_log published))
     idle).1.

(** [calm], with a clock that advances by one second per interaction during
    the first hour after 2023-11-14T22:13:20Z and then stands still, so that
    every interaction falls on the same calendar day. *)
Definition same_day : Env :=
  {| db_fault := fun _ => None;
     send_reply := fun n => Ok (0, Z.of_nat n);
     clock := fun n => 1700000000000000000 + Z.min (Z.of_nat n) 3600 * 1000000000;
     fresh_uuid := fun n => mkUUID (N.of_nat n + 16);
     getenv := fun _ => "" |}.

(** 2023-11-14, as a number of days since the epoch. *)
Definition today : Z := 19675.

Definition alice_row : postgres.users_row.t :=
  postgres.users_row.mk alice "Alice" "alice@example.com" 0 0 0.

Definition alice_wants_reminders : postgres.preferences_row.t :=
  postgres.preferences_row.mk 1 alice "daily_reminder" "in_app" true
    None None None None None 0 0.

Definition reminded_once : World :=
  Eval vm_compute in
    final_world (@scheduler.processDailyReminders reference.json same_day
                   (world_of one_user_db)).

Definition reminded_twice : World :=
  Eval vm_compute in
    final_world (@scheduler.processDailyReminders reference.json same_day reminded_once).

(** One notification created for Alice in a calm environment, not yet
    published. *)
Definition created : World :=
  Eval vm_compute in
    final_world
      (@services.CreateNotification reference.json calm "notifications" request
         (world_of one_user_db)).




(** A notification as the handlers build it. *)
Definition welcome : models.Notification.t :=
  models.Notification.mk (mkUUID 99) alice models.AchievementUnlock models.ChannelInApp
    models.PriorityMedium None (Some "Practice Completed!")
    "Great job on completing your practice session. Keep it up!"
    (Some metadata) None 1700000000000000000 None None None None models.StatusQueued.

Definition alice_user : models.User.t :=
  models.User.mk alice "Alice" "alice@example.com" 0 0 0.

(** Alice with a practice streak of five days last fed on 2023-11-03, and
    with the three engagement notifications enabled in the app. *)
Definition alice_wants (type : string) (id : Z) : postgres.preferences_row.t :=
  postgres.preferences_row.mk id alice type "in_app" true None None None None None 0 0.

Definition alice_streak : postgres.streaks_row.t :=
  postgres.streaks_row.mk 1 alice "practice" 5 9 (Some 1699000000000000000)
    (Some 1698600000000000000) 12 "UTC" 0 0.

Definition engaged_db : postgres.Database :=
  postgres.mkDatabase [alice_row] [] []
    [alice_wants "streak_reminder" 1; alice_wants "weekly_recap" 2;
     alice_wants "we_miss_you" 3]
    [] [] [alice_streak] 4 1 1 2.

(** [same_day], one day earlier: every interaction falls on Monday
    2023-11-13. *)
Definition monday : Env :=
  {| db_fault := fun _ => None;
     send_reply := fun n => Ok (0, Z.of_nat n);
     clock := fun n => 1699913600000000000 + Z.min (Z.of_nat n) 3600 * 1000000000;
     fresh_uuid := fun n => mkUUID (N.of_nat n + 16);
     getenv := fun _ => "" |}.

Definition that_monday : Z := 19674.

End examples.

(** ** Vocabulary of the properties *)

(** Ascending order of a key. *)
Definition by_key {A : Type} (key : A -> Z) (a b : A) : Prop := key a <= key b.

Section vocabulary.
Context `{!Json, !Env}.



(** The calls of the NotificationRepository interface. *)
Inductive Call : Type :=
| CallCreateNotification (notification : models.Notification.t)
| CallGetUserNotifications (userID : UUID) (limit offset : Z)
| CallGetNotificationByID (notificationID : UUID)
| CallMarkAsRead (notificationID : UUID)
| CallMarkAsDelivered (notificationID : UUID)
| CallMarkAsSent (notificationID : UUID)
| CallGetUnpublishedOutbox (limit : Z)
| CallMarkOutboxPublished (outboxID : Z)
| CallCreateOutboxEntry (outboxItem : models.OutboxNotification.t)
| CallGetUserPreferences (userID : UUID)
| CallUpdateUserPreferences (userID : UUID) (prefs : models.UserNotificationPreferences.t)
| CallGetUserEngagementStreak (userID : UUID) (streakType : string)
| CallUpdateUserEngagementStreak (streak : models.UserEngagementStreak.t)
| CallGetNotificationsByStatus (status : models.DeliveryStatus) (limit : Z)
| CallGetScheduledNotifications (before : Time) (limit : Z)
| CallCreateDeliveryAttempt (attempt : models.NotificationDeliveryAttempt.t)
| CallGetNotificationTemplates (notificationType : models.NotificationType)
    (channel : models.NotificationChannel).

(** The world a repository call leaves behind. *)
Definition world_after `{!Env} (c : Call) (w : World) : World :=
  match c with
  | CallCreateNotification n => final_world (repository.CreateNotification n w)
  | CallGetUserNotifications u l o => final_world (repository.GetUserNotifications u l o w)
  | CallGetNotificationByID id => final_world (repository.GetNotificationByID id w)
  | CallMarkAsRead id => final_world (repository.MarkAsRead id w)
  | CallMarkAsDelivered id => final_world (repository.MarkAsDelivered id w)
  | CallMarkAsSent id => final_world (repository.MarkAsSent id w)
  | CallGetUnpublishedOutbox l => final_world (repository.GetUnpublishedOutbox l w)
  | CallMarkOutboxPublished id => final_world (repository.MarkOutboxPublished id w)
  | CallCreateOutboxEntry item => final_world (repository.CreateOutboxEntry item w)
  | CallGetUserPreferences u => final_world (repository.GetUserPreferences u w)
  | CallUpdateUserPreferences u p => final_world (repository.UpdateUserPreferences u p w)
  | CallGetUserEngagementStreak u t => final_world (repository.GetUserEngagementStreak u t w)
  | CallUpdateUserEngagementStreak s => final_world (repository.UpdateUserEngagementStreak s w)
  | CallGetNotificationsByStatus st l => final_world (repository.GetNotificationsByStatus st l w)
  | CallGetScheduledNotifications b l => final_world (repository.GetScheduledNotifications b l w)
  | CallCreateDeliveryAttempt a => final_world (repository.CreateDeliveryAttempt a w)
  | CallGetNotificationTemplates t c => final_world (repository.GetNotificationTemplates t c w)
  end.


(** The daily_reminder events of a recipient created on a given day. *)
Definition daily_reminders_on (today : Z) (userID : UUID) (d : postgres.Database)
  : list postgres.notifications_row.t :=
  filter (fun n => postgres.notifications_row.user_id n = userID /\
                   postgres.notifications_row.type_ n = "daily_reminder" /\
                   date_of (postgres.notifications_row.created_at n) = today)
    (postgres.notifications d).

(** A row the daily-reminder tick writes for [user]. *)
Definition reminder_row (user : models.User.t) (row : postgres.notifications_row.t) : Prop :=
  postgres.notifications_row.user_id row = models.User.ID user /\
  postgres.notifications_row.type_ row = "daily_reminder" /\
  exists n, postgres.notifications_row.created_at row = clock n.

Definition returned_error {A} (o : outcome (result A)) : bool :=
  match o with
  | Done (Err _) _ => true
  | _ => false
  end.

(** Two outbox rows hold the same entry: they agree on everything but the
    published flag and its time. *)
Definition same_entry (r r' : postgres.outbox_row.t) : Prop :=
  postgres.outbox_row.id r' = postgres.outbox_row.id r /\
  postgres.outbox_row.notification_id r' = postgres.outbox_row.notification_id r /\
  postgres.outbox_row.topic r' = postgres.outbox_row.topic r /\
  postgres.outbox_row.payload r' = postgres.outbox_row.payload r /\
  postgres.outbox_row.created_at r' = postgres.outbox_row.created_at r.

(** The outbox table [after] is the table [before] in which exactly the rows
    whose id is in [ids] were marked published. *)
Definition marked_rows (ids : list Z) (before after : list postgres.outbox_row.t) : Prop :=
  Forall2 (fun r r' =>
             if bool_decide (postgres.outbox_row.id r ∈ ids)
             then same_entry r r' /\
                  postgres.outbox_row.published r' = true /\
                  is_Some (postgres.outbox_row.published_at r')
             else r' = r)
          before after.

(** A SendMessage call that carried the message of [item] and was
    acknowledged. *)
Definition sent_ok (item : models.OutboxNotification.t)
    (c : ProducerMessage.t * result (Z * Z)) : Prop :=
  exists value reply,
    json_Marshal (models.OutboxNotification.Payload item) = Ok value /\
    c = (services.message_of item value, Ok reply).

(** [msg] is the broker message ProcessOutbox builds from the outbox row
    [row]: its topic is the row's, its key is the row's notification id as a
    string, its value is the marshalled payload read from the row. *)
Definition message_for (row : postgres.outbox_row.t) (msg : ProducerMessage.t) : Prop :=
  exists item,
    repository.scan_outbox row = Ok item /\
    ProducerMessage.Topic msg = postgres.outbox_row.topic row /\
    ProducerMessage.Key msg = uuid_String (postgres.outbox_row.notification_id row) /\
    json_Marshal (models.OutboxNotification.Payload item) = Ok (ProducerMessage.Value msg).

End vocabulary.

(** The ids of the outbox rows are distinct and were all drawn from the
    sequence. *)
Definition outbox_ids_fresh (d : postgres.Database) : Prop :=
  NoDup (postgres.outbox_row.id <$> postgres.outbox_notifications d) /\
  Forall (fun r => postgres.outbox_row.id r < postgres.outbox_id_seq d)
    (postgres.outbox_notifications d).

(** The notifications a claim files under the key [k]: those of the messages
    keyed [k] whose value decodes, in the order of the claim. *)
Definition filed_under `{!Json} (k : string) (messages : list ConsumerMessage.t)
  : list models.Notification.t :=
  omap (fun msg =>
          if String.eqb (ConsumerMessage.Key msg) k then
            match json_Unmarshal_Notification (ConsumerMessage.Value msg) with
            | Ok n => Some n
            | Err _ => None
            end
          else None)
       messages.

(** A row a create function of the scheduler writes for [user]. *)
Definition made_for `{!Env} (type : string) (user : models.User.t)
    (row : postgres.notifications_row.t) : Prop :=
  postgres.notifications_row.user_id row = models.User.ID user /\
  postgres.notifications_row.type_ row = type /\
  exists n, postgres.notifications_row.created_at row = clock n.

(** From [w] to [w'] the notifications table gained [rows] at its end, and
    the users, the preferences and the streaks are as they were. *)
Definition notifications_added (w w' : World) (rows : list postgres.notifications_row.t)
  : Prop :=
  postgres.notifications (db w') = (postgres.notifications (db w) ++ rows)%list /\
  postgres.users (db w') = postgres.users (db w) /\
  postgres.user_notification_preferences (db w')
    = postgres.user_notification_preferences (db w) /\
  postgres.user_engagement_streaks (db w') = postgres.user_engagement_streaks (db w).

(** The notifications of one type a user has. *)
Definition notifications_of (type : string) (userID : UUID) (d : postgres.Database)
  : list postgres.notifications_row.t :=
  filter (fun n => postgres.notifications_row.user_id n = userID /\
                   postgres.notifications_row.type_ n = type)
    (postgres.notifications d).

(** The row of the cohort queries for a user. *)
Definition cohort_row (u : postgres.users_row.t) : UUID * string * string :=
  (postgres.users_row.user_id u, postgres.users_row.name u, postgres.users_row.email u).

(** The practice streak GetUserEngagementStreak finds for the user is not
    zero. *)
Definition practice_streak_active (user : models.User.t) (d : postgres.Database) : Prop :=
  exists row,
    head (filter (fun r => postgres.streaks_row.user_id r = models.User.ID user /\
                           postgres.streaks_row.streak_type r = "practice")
            (postgres.user_engagement_streaks d)) = Some row /\
    postgres.streaks_row.current_streak row <> 0.

(** How a call can change the outbox table and its sequence. *)
Inductive outbox_change (d d' : postgres.Database) : Prop :=
| outbox_same :
    postgres.outbox_notifications d' = postgres.outbox_notifications d ->
    postgres.outbox_id_seq d' = postgres.outbox_id_seq d -> outbox_change d d'
| outbox_marked (f : postgres.outbox_row.t -> postgres.outbox_row.t) :
    (forall r, postgres.outbox_row.id (f r) = postgres.outbox_row.id r) ->
    postgres.outbox_notifications d' = map f (postgres.outbox_notifications d) ->
    postgres.outbox_id_seq d' = postgres.outbox_id_seq d -> outbox_change d d'
| outbox_inserted (r : postgres.outbox_row.t) :
    postgres.outbox_row.id r = postgres.outbox_id_seq d ->
    postgres.outbox_notifications d'
      = (postgres.outbox_notifications d ++ [r])%list ->
    postgres.outbox_id_seq d' = postgres.outbox_id_seq d + 1 -> outbox_change d d'.

(** [l] is a run of white-space runes. *)
Definition white_space (l : list ascii) : Prop :=
  exists runes, Forall (fun r => In r space_runes) runes /\ l = concat runes.

(** The outbox row [r] under another topic. *)
Definition with_topic (topic : string) (r : postgres.outbox_row.t) : postgres.outbox_row.t :=
  postgres.outbox_row.mk (postgres.outbox_row.id r) (postgres.outbox_row.notification_id r)
    topic (postgres.outbox_row.payload r) (postgres.outbox_row.published r)
    (postgres.outbox_row.created_at r) (postgres.outbox_row.published_at r).

(** The database [d] with the outbox rows after the first [kept] put under
    [topic]. *)
Definition retopic (kept : nat) (topic : string) (d : postgres.Database)
  : postgres.Database :=
  postgres.with_outbox d
    (take kept (postgres.outbox_notifications d) ++
     (with_topic topic <$> drop kept (postgres.outbox_notifications d)))%list
    (postgres.outbox_id_seq d).





(** * Properties *)

(** ** models.JSONMap (C10) *)

Section JSONMap_properties.
Context `{!Json}.





End JSONMap_properties.


(** ** services.GetUserNotifications (C9) *)

Section paging.
Context `{!Json, !Env}.

(** C9. The service replaces a limit that is zero or negative by 50 and a
    negative offset by 0 before it calls the repository: the repository is
    called with a limit of at least 1 and an offset of at least 0 (so the
    LIMIT/OFFSET clause of its query is never rejected). *)
Theorem GetUserNotifications_normalises_paging (userID : UUID) (limit offset : Z) :
  exists limit' offset',
    services.GetUserNotifications userID limit offset
      = repository.GetUserNotifications userID limit' offset' /\
    1 <= limit' /\ 0 <= offset' /\
    (limit <= 0 -> limit' = 50) /\ (0 < limit -> limit' = limit) /\
    (offset < 0 -> offset' = 0) /\ (0 <= offset -> offset' = offset) /\
    (forall A (rows : list A), is_Ok (postgres.limit_offset limit' offset' rows) = true).
Proof.
  exists (if limit <=? 0 then 50 else limit), (if offset <? 0 then 0 else offset).
  split; [reflexivity |].
  destruct (Z.leb_spec limit 0), (Z.ltb_spec offset 0);
    repeat split; try lia; intros A rows; unfold postgres.limit_offset;
    repeat match goal with
           | |- context [?a <? ?b] => destruct (Z.ltb_spec a b); try lia
           end; reflexivity.
Qed.

End paging.

(** ** The consumer (C7, C8) *)

Section consumer_properties.
Context `{!Json}.

Lemma ConsumeClaim_returns_nil (messages : list ConsumerMessage.t) (p : consumer.Process) :
  (consumer.ConsumeClaim messages p).2 = None.
Proof. revert p. induction messages as [| msg rest IH]; intros p; simpl; auto. Qed.

Lemma ConsumeClaim_app (l1 l2 : list ConsumerMessage.t) (p : consumer.Process) :
  consumer.ConsumeClaim (l1 ++ l2) p
  = consumer.ConsumeClaim l2 (consumer.ConsumeClaim l1 p).1.
Proof. revert p. induction l1 as [| msg rest IH]; intros p; simpl; auto. Qed.

(** The map and the marks after a claim do not depend on what was logged. *)
Lemma ConsumeClaim_ignores_log (messages : list ConsumerMessage.t) (p q : consumer.Process) :
  consumer.data p = consumer.data q -> consumer.marked p = consumer.marked q ->
  consumer.data (consumer.ConsumeClaim messages p).1
    = consumer.data (consumer.ConsumeClaim messages q).1 /\
  consumer.marked (consumer.ConsumeClaim messages p).1
    = consumer.marked (consumer.ConsumeClaim messages q).1.
Proof.
  revert p q. induction messages as [| msg rest IH]; intros p q Hd Hm; simpl; [auto |].
  apply IH; unfold consumer.consume_message;
    destruct (json_Unmarshal_Notification (ConsumerMessage.Value msg)); simpl; congruence.
Qed.

(** C7. A claimed message whose value does not decode only adds a line to
    the log: the Delivery Store and the marked offsets are as before the
    message, the claim goes on with the messages after it, ConsumeClaim
    returns nil, and the store and the marks at the end are those of a claim
    that never contained the message (it is neither retried nor put
    anywhere). *)
Theorem ConsumeClaim_drops_malformed
    (before after : list ConsumerMessage.t) (bad : ConsumerMessage.t)
    (e : error) (p : consumer.Process) :
  json_Unmarshal_Notification (ConsumerMessage.Value bad) = Err e ->
  let p1 := (consumer.ConsumeClaim before p).1 in
  let p2 := consumer.consume_message bad p1 in
  consumer.data p2 = consumer.data p1 /\
  consumer.marked p2 = consumer.marked p1 /\
  consumer.logged p2
    = (consumer.logged p1 ++ ["failed to unmarshal notification: " +:+ e])%list /\
  consumer.ConsumeClaim (before ++ bad :: after) p = consumer.ConsumeClaim after p2 /\
  (consumer.ConsumeClaim (before ++ bad :: after) p).2 = None /\
  consumer.data (consumer.ConsumeClaim (before ++ bad :: after) p).1
    = consumer.data (consumer.ConsumeClaim (before ++ after) p).1 /\
  consumer.marked (consumer.ConsumeClaim (before ++ bad :: after) p).1
    = consumer.marked (consumer.ConsumeClaim (before ++ after) p).1.
Proof.
  intros Hbad p1 p2.
  assert (Hp2 : p2 = consumer.mkProcess (consumer.data p1) (consumer.marked p1)
                       (consumer.logged p1 ++ ["failed to unmarshal notification: " +:+ e])).
  { subst p2. unfold consumer.consume_message. now rewrite Hbad. }
  assert (Hrun : consumer.ConsumeClaim (before ++ bad :: after) p
                 = consumer.ConsumeClaim after p2).
  { rewrite ConsumeClaim_app. reflexivity. }
  repeat split.
  - now rewrite Hp2.
  - now rewrite Hp2.
  - now rewrite Hp2.
  - exact Hrun.
  - apply ConsumeClaim_returns_nil.
  - rewrite Hrun, ConsumeClaim_app. apply ConsumeClaim_ignores_log; now rewrite Hp2.
  - rewrite Hrun, ConsumeClaim_app. apply ConsumeClaim_ignores_log; now rewrite Hp2.
Qed.

End consumer_properties.

Lemma ConsumeClaim_drops_malformed_witness :
  @json_Unmarshal_Notification reference.json (ConsumerMessage.Value examples.malformed)
    = Err examples.malformed_error /\
  consumer.data
    (@consumer.ConsumeClaim reference.json
       ([examples.well_formed 0] ++ examples.malformed :: [examples.well_formed 2])
       examples.idle).1
  = consumer.data
      (@consumer.ConsumeClaim reference.json
         ([examples.well_formed 0] ++ [examples.well_formed 2]) examples.idle).1.
Proof.
  assert (E : @json_Unmarshal_Notification reference.json
                (ConsumerMessage.Value examples.malformed)
              = Err examples.malformed_error) by (vm_compute; reflexivity).
  split; [exact E |].
  exact (proj1 (proj2 (proj2 (proj2 (proj2 (proj2
           (@ConsumeClaim_drops_malformed reference.json
              [examples.well_formed 0] [examples.well_formed 2] examples.malformed
              examples.malformed_error examples.idle E))))))).
Defined.

Section retry_loop.
Context `{!Json, !consumer.Broker}.

Lemma step_Returned (r : consumer.Runtime) :
  consumer.place r = consumer.Returned -> consumer.step r = r.
Proof. intros Hp. unfold consumer.step. now rewrite Hp. Qed.

Lemma setupConsumerGroup_Returned (k : nat) (r : consumer.Runtime) :
  consumer.place r = consumer.Returned -> consumer.setupConsumerGroup k r = r.
Proof.
  induction k as [| k IH]; intros Hp; simpl; [reflexivity |].
  rewrite step_Returned by exact Hp. now apply IH.
Qed.

Lemma step_interactions (r : consumer.Runtime) :
  consumer.place r <> consumer.Returned ->
  consumer.interactions (consumer.step r) = S (consumer.interactions r).
Proof.
  intros Hp. unfold consumer.step.
  destruct (consumer.place r); try congruence;
    repeat match goal with
           | |- context [match ?x with _ => _ end] => destruct x; simpl
           end; reflexivity.
Qed.

(** The only steps into [Returned] are those that see the context
    cancelled. *)
Lemma step_returns_on_cancel (r : consumer.Runtime) :
  consumer.place r <> consumer.Returned ->
  consumer.place (consumer.step r) = consumer.Returned ->
  consumer.cancelled (consumer.interactions r) = true.
Proof.
  intros Hp. unfold consumer.step.
  destruct (consumer.place r); try congruence;
    repeat match goal with
           | |- context [match ?x with _ => _ end] => destruct x eqn:?; simpl
           end; congruence.
Qed.

Lemma returns_only_on_cancel (k : nat) (r : consumer.Runtime) :
  consumer.place r <> consumer.Returned ->
  consumer.place (consumer.setupConsumerGroup k r) = consumer.Returned ->
  exists n, (consumer.interactions r <= n < consumer.interactions r + k)%nat /\
            consumer.cancelled n = true.
Proof.
  revert r. induction k as [| k IH]; intros r Hp Hret; simpl in Hret; [congruence |].
  destruct (decide (consumer.place (consumer.step r) = consumer.Returned)) as [Hs | Hs].
  - exists (consumer.interactions r). split; [lia |]. now apply step_returns_on_cancel.
  - destruct (IH _ Hs Hret) as (n & Hn & Hc).
    rewrite step_interactions in Hn by exact Hp. exists n. split; [lia | exact Hc].
Qed.

Lemma runs_forever (k : nat) (r : consumer.Runtime) :
  (forall n, consumer.cancelled n = false) ->
  consumer.place r <> consumer.Returned ->
  consumer.place (consumer.setupConsumerGroup k r) <> consumer.Returned /\
  consumer.interactions (consumer.setupConsumerGroup k r)
    = (consumer.interactions r + k)%nat.
Proof.
  intros Hnever. revert r. induction k as [| k IH]; intros r Hp; simpl.
  - split; [exact Hp | lia].
  - assert (Hs : consumer.place (consumer.step r) <> consumer.Returned).
    { intros Hs. apply step_returns_on_cancel in Hs; [| exact Hp].
      rewrite Hnever in Hs. discriminate. }
    destruct (IH _ Hs) as [H1 H2]. split; [exact H1 |].
    rewrite H2, step_interactions by exact Hp. lia.
Qed.

(** C8. The retry loop of setupConsumerGroup returns only when it sees the
    shared context cancelled, and as long as the context is not cancelled it
    keeps taking steps.  An initialization error leads to the wait after
    initialization, a consume error closes the group and leads to the wait
    after the inner loop; each wait lasts the fixed 5 seconds and, when the
    context is not cancelled meanwhile, is followed by a new connection
    attempt, which on success consumes again.  Under cancellation the waits
    and a session that ended without error return. *)
Theorem setupConsumerGroup_retries_until_cancelled :
  consumer.backoff = 5000000000 /\
  (forall k r,
      consumer.place r <> consumer.Returned ->
      consumer.place (consumer.setupConsumerGroup k r) = consumer.Returned ->
      exists n, (consumer.interactions r <= n < consumer.interactions r + k)%nat /\
                consumer.cancelled n = true) /\
  (forall k r,
      (forall n, consumer.cancelled n = false) ->
      consumer.place r <> consumer.Returned ->
      consumer.place (consumer.setupConsumerGroup k r) <> consumer.Returned /\
      consumer.interactions (consumer.setupConsumerGroup k r)
        = (consumer.interactions r + k)%nat) /\
  (forall r e,
      consumer.place r = consumer.Connecting ->
      consumer.init_error (consumer.interactions r) = Some e ->
      consumer.place (consumer.step r) = consumer.InitBackoff) /\
  (forall r,
      consumer.place r = consumer.Connecting ->
      consumer.init_error (consumer.interactions r) = None ->
      consumer.place (consumer.step r) = consumer.Consuming) /\
  (forall r messages e,
      consumer.place r = consumer.Consuming ->
      consumer.session (consumer.interactions r) = (messages, Some e) ->
      consumer.place (consumer.step r) = consumer.RetryBackoff /\
      consumer.events (consumer.step r)
        = (consumer.events r ++ [consumer.EvConsume (Some e); consumer.EvClose])%list) /\
  (forall r,
      consumer.place r = consumer.InitBackoff \/ consumer.place r = consumer.RetryBackoff ->
      consumer.cancelled (consumer.interactions r) = false ->
      consumer.place (consumer.step r) = consumer.Connecting /\
      consumer.events (consumer.step r)
        = (consumer.events r ++ [consumer.EvWait (5 * time_Second) false])%list) /\
  (forall r,
      consumer.place r = consumer.InitBackoff \/ consumer.place r = consumer.RetryBackoff ->
      consumer.cancelled (consumer.interactions r) = true ->
      consumer.place (consumer.step r) = consumer.Returned) /\
  (forall r messages,
      consumer.place r = consumer.Consuming ->
      consumer.session (consumer.interactions r) = (messages, None) ->
      consumer.place (consumer.step r)
        = if consumer.cancelled (consumer.interactions r)
          then consumer.Returned else consumer.Consuming) /\
  (forall r messages e,
      consumer.place r = consumer.Consuming ->
      consumer.session (consumer.interactions r) = (messages, Some e) ->
      consumer.cancelled (S (consumer.interactions r)) = false ->
      consumer.init_error (S (S (consumer.interactions r))) = None ->
      consumer.place (consumer.setupConsumerGroup 3 r) = consumer.Consuming).
Proof.
  split; [reflexivity |].
  split; [exact returns_only_on_cancel |].
  split; [exact runs_forever |].
  split; [intros r e Hp He; unfold consumer.step; now rewrite Hp, He |].
  split; [intros r Hp He; unfold consumer.step; now rewrite Hp, He |].
  split; [intros r messages e Hp Hs; unfold consumer.step; now rewrite Hp, Hs |].
  split; [intros r [Hp | Hp] Hc; unfold consumer.step; now rewrite Hp, Hc |].
  split; [intros r [Hp | Hp] Hc; unfold consumer.step; now rewrite Hp, Hc |].
  split.
  - intros r messages Hp Hs. unfold consumer.step. rewrite Hp, Hs.
    now destruct (consumer.cancelled (consumer.interactions r)).
  - intros r messages e Hp Hs Hc Hi. simpl.
    assert (H1 : consumer.step r
                 = consumer.mkRuntime consumer.RetryBackoff
                     (consumer.say ("error from consumer: " +:+ e)
                        (consumer.ConsumeClaim messages (consumer.process r)).1)
                     (consumer.events r ++ [consumer.EvConsume (Some e); consumer.EvClose])
                     (S (consumer.interactions r))).
    { unfold consumer.step. now rewrite Hp, Hs. }
    rewrite H1. unfold consumer.step at 2. simpl. rewrite Hc.
    unfold consumer.step. simpl. now rewrite Hi.
Qed.

End retry_loop.

(** ** ORDER BY and LIMIT *)

Section ordering.
Context {A : Type} (key : A -> Z).

Lemma insert_by_Permutation (x : A) (l : list A) :
  postgres.insert_by key x l ≡ₚ x :: l.
Proof.
  induction l as [| y l IH]; simpl; [reflexivity |].
  destruct (key x <=? key y); [reflexivity |].
  rewrite IH. apply Permutation_swap.
Qed.

Lemma order_by_Permutation (l : list A) : postgres.order_by key l ≡ₚ l.
Proof.
  induction l as [| x l IH]; simpl; [reflexivity |].
  rewrite insert_by_Permutation. now rewrite IH.
Qed.

Lemma insert_by_sorted (x : A) (l : list A) :
  StronglySorted (by_key key) l -> StronglySorted (by_key key) (postgres.insert_by key x l).
Proof.
  induction 1 as [| y l Hs IH Hy]; simpl.
  - repeat constructor.
  - destruct (Z.leb_spec (key x) (key y)) as [Hxy | Hxy].
    + constructor; [constructor; assumption |].
      constructor; [exact Hxy |].
      eapply Forall_impl; [exact Hy |]. unfold by_key. intros z Hz. simpl in Hz. lia.
    + constructor; [exact IH |].
      rewrite insert_by_Permutation. constructor; [unfold by_key; lia | exact Hy].
Qed.

Lemma order_by_sorted (l : list A) : StronglySorted (by_key key) (postgres.order_by key l).
Proof.
  induction l as [| x l IH]; simpl; [constructor |]. now apply insert_by_sorted.
Qed.

(** Inserting in front of a list whose keys are all at least the new key. *)
Lemma insert_by_head (x : A) (l : list A) :
  Forall (by_key key x) l -> postgres.insert_by key x l = x :: l.
Proof.
  destruct 1 as [| y l Hy _]; simpl; [reflexivity |].
  unfold by_key in Hy. destruct (Z.leb_spec (key x) (key y)); [reflexivity | lia].
Qed.

Lemma insert_by_filter (P : A -> Prop) `{!forall a, Decision (P a)} (x : A) (l : list A) :
  StronglySorted (by_key key) l ->
  filter P (postgres.insert_by key x l)
  = if decide (P x) then postgres.insert_by key x (filter P l) else filter P l.
Proof.
  induction 1 as [| y l Hs IH Hy]; simpl.
  - rewrite filter_cons. destruct (decide (P x)); reflexivity.
  - destruct (Z.leb_spec (key x) (key y)) as [Hxy | Hxy].
    + rewrite (filter_cons P x). destruct (decide (P x)) as [Hx | Hx]; [| reflexivity].
      symmetry. apply insert_by_head.
      apply Forall_forall. intros z Hz. apply list_elem_of_filter in Hz as [_ Hz].
      apply elem_of_cons in Hz as [-> | Hz]; [exact Hxy |].
      rewrite Forall_forall in Hy. specialize (Hy z Hz). unfold by_key in *. lia.
    + rewrite (filter_cons P y), IH. rewrite (filter_cons P y).
      destruct (decide (P x)) as [Hx | Hx], (decide (P y)) as [Hpy | Hpy]; simpl;
        try reflexivity.
      destruct (Z.leb_spec (key x) (key y)); [lia | reflexivity].
Qed.

(** The sort is stable, so it commutes with WHERE. *)
Lemma order_by_filter (P : A -> Prop) `{!forall a, Decision (P a)} (l : list A) :
  filter P (postgres.order_by key l) = postgres.order_by key (filter P l).
Proof.
  induction l as [| x l IH]; simpl; [reflexivity |].
  rewrite insert_by_filter by apply order_by_sorted.
  rewrite filter_cons. destruct (decide (P x)); simpl; now rewrite IH.
Qed.

Lemma sorted_take_drop (n : nat) (l : list A) (x y : A) :
  StronglySorted (by_key key) l -> x ∈ take n l -> y ∈ drop n l -> key x <= key y.
Proof.
  intros Hs. revert n. induction Hs as [| z l Hs IH Hz]; intros n Hx Hy.
  - rewrite take_nil in Hx. inversion Hx.
  - destruct n as [| n]; simpl in *; [inversion Hx |].
    apply elem_of_cons in Hx as [-> | Hx].
    + rewrite Forall_forall in Hz. apply Hz. now apply (subseteq_drop n l).
    + eapply IH; eassumption.
Qed.

Lemma elem_of_take_order_by (n : nat) (l : list A) (x : A) :
  x ∈ take n (postgres.order_by key l) -> x ∈ l.
Proof.
  intros Hx. apply (subseteq_take n) in Hx. now rewrite order_by_Permutation in Hx.
Qed.

End ordering.

(** ** The repository's outbox queries (C5) *)

Section outbox_queries.
Context `{!Json, !Env}.

Lemma scan_rows_Forall2 {R B} (scan : R -> result B) (rows : list R) (items : list B) :
  repository.scan_rows scan rows = Ok items ->
  Forall2 (fun r i => scan r = Ok i) rows items.
Proof.
  revert items. induction rows as [| r rows IH]; intros items Hs; simpl in Hs.
  - injection Hs as <-. constructor.
  - destruct (scan r) as [i |] eqn:Hr; [| discriminate].
    destruct (repository.scan_rows scan rows) as [is' |]; [| discriminate].
    injection Hs as <-. constructor; [exact Hr | now apply IH].
Qed.

Lemma scan_rows_Ok {R B} (scan : R -> result B) (rows : list R) :
  Forall (fun r => is_Ok (scan r) = true) rows ->
  exists items, repository.scan_rows scan rows = Ok items.
Proof.
  induction 1 as [| r rows Hr _ [items IH]]; simpl; [eauto |].
  destruct (scan r); [| discriminate]. rewrite IH. eauto.
Qed.

(** Scanning a row copies its columns; only the payload is decoded. *)
Lemma scan_outbox_fields (r : postgres.outbox_row.t) (i : models.OutboxNotification.t) :
  repository.scan_outbox r = Ok i ->
  models.OutboxNotification.ID i = postgres.outbox_row.id r /\
  models.OutboxNotification.NotificationID i = postgres.outbox_row.notification_id r /\
  models.OutboxNotification.Topic i = postgres.outbox_row.topic r /\
  models.OutboxNotification.Published i = postgres.outbox_row.published r /\
  models.OutboxNotification.CreatedAt i = postgres.outbox_row.created_at r /\
  models.OutboxNotification.PublishedAt i = postgres.outbox_row.published_at r.
Proof.
  unfold repository.scan_outbox.
  destruct (repository.jsonb_scan _ _ _); [| discriminate].
  intros [= <-]. simpl. auto 10.
Qed.

Lemma scan_outbox_sorted (rows : list postgres.outbox_row.t)
    (items : list models.OutboxNotification.t) :
  StronglySorted (by_key postgres.outbox_row.created_at) rows ->
  Forall2 (fun r i => repository.scan_outbox r = Ok i) rows items ->
  StronglySorted (by_key models.OutboxNotification.CreatedAt) items.
Proof.
  intros Hst. revert items.
  induction Hst as [| r rows Hst IH Hr]; intros items Hs.
  - apply Forall2_nil_inv_l in Hs as ->. constructor.
  - apply Forall2_cons_inv_l in Hs as (i & items' & Hi & Hs' & ->).
    constructor; [now apply IH |].
    apply Forall_forall. intros i' Hi'.
    destruct (proj1 (list_elem_of_lookup _ _) Hi') as [n Hn].
    destruct (Forall2_lookup_r _ _ _ _ _ Hs' Hn) as (r' & Hr' & Hscan').
    apply scan_outbox_fields in Hi as (_ & _ & _ & _ & Hc & _).
    apply scan_outbox_fields in Hscan' as (_ & _ & _ & _ & Hc' & _).
    unfold by_key. rewrite Hc, Hc'.
    rewrite Forall_forall in Hr. apply Hr. eapply list_elem_of_lookup_2. exact Hr'.
Qed.

Lemma unpublished_rows_Ok (limit : Z) (d : postgres.Database) (rows : list postgres.outbox_row.t) :
  repository.unpublished_rows limit d = Ok rows ->
  0 <= limit /\
  rows = take (Z.to_nat limit)
           (postgres.order_by postgres.outbox_row.created_at
              (filter (fun r => postgres.outbox_row.published r = false)
                 (postgres.outbox_notifications d))).
Proof.
  unfold repository.unpublished_rows, postgres.limit_offset.
  destruct (Z.ltb_spec limit 0); [discriminate |]. simpl.
  intros [= <-]. split; [lia | reflexivity].
Qed.

Lemma unpublished_rows_eq (limit : Z) (d : postgres.Database) :
  0 <= limit ->
  repository.unpublished_rows limit d
  = Ok (take (Z.to_nat limit)
          (postgres.order_by postgres.outbox_row.created_at
             (filter (fun r => postgres.outbox_row.published r = false)
                (postgres.outbox_notifications d)))).
Proof.
  intros Hlimit. unfold repository.unpublished_rows, postgres.limit_offset.
  destruct (Z.ltb_spec limit 0); [lia | reflexivity].
Qed.

(** What a call of GetUnpublishedOutbox amounts to. *)
Lemma GetUnpublishedOutbox_inv (limit : Z) (w : World) :
  match repository.GetUnpublishedOutbox limit w with
  | Done (Ok items) w' =>
      exists rows,
        repository.unpublished_rows limit (db w) = Ok rows /\
        repository.scan_rows repository.scan_outbox rows = Ok items /\
        w' = tick (tick w)
  | Done (Err _) w' =>
      db w' = db w /\ producer_calls w' = producer_calls w /\ log w' = log w
  | Panicked _ _ => False
  end.
Proof.
  unfold repository.GetUnpublishedOutbox, repository.collect, mbind, M_bind, db_Query,
    rows_Err, mret, M_ret.
  destruct (db_fault (steps w)); simpl; [auto |].
  destruct (repository.unpublished_rows limit (db w)) as [rows |] eqn:Hq; simpl; [| auto].
  destruct (repository.scan_rows repository.scan_outbox rows) as [items |] eqn:Hs;
    simpl; [| auto].
  destruct (db_fault (S (steps w))); simpl; [auto |].
  exists rows. auto.
Qed.

(** C5. Whenever GetUnpublishedOutbox returns entries, every one of them is
    unpublished, they are in ascending order of creation time, there are at
    most [limit] of them, and they are the scanned images of unpublished rows
    of the table such that no unpublished row left out is older than a
    returned one; the call never changes the tables.  It does return entries
    when the limit is not negative, the two interactions with the database
    do not fail and every payload scans. *)
Theorem GetUnpublishedOutbox_oldest_unpublished (limit : Z) (w : World) :
  match repository.GetUnpublishedOutbox limit w with
  | Done (Ok items) w' =>
      db w' = db w /\
      Forall (fun i => models.OutboxNotification.Published i = false) items /\
      StronglySorted (by_key models.OutboxNotification.CreatedAt) items /\
      Z.of_nat (length items) <= limit /\
      exists rows rest,
        Forall2 (fun r i => repository.scan_outbox r = Ok i) rows items /\
        filter (fun r => postgres.outbox_row.published r = false)
          (postgres.outbox_notifications (db w)) ≡ₚ rows ++ rest /\
        Forall (fun r =>
                  Forall (fun i => models.OutboxNotification.CreatedAt i
                                   <= postgres.outbox_row.created_at r) items) rest
  | Done (Err _) w' => db w' = db w
  | Panicked _ _ => False
  end /\
  (0 <= limit ->
   db_fault (steps w) = None -> db_fault (S (steps w)) = None ->
   Forall (fun r => is_Ok (repository.scan_outbox r) = true)
     (postgres.outbox_notifications (db w)) ->
   exists items, repository.GetUnpublishedOutbox limit w = Done (Ok items) (tick (tick w))).
Proof.
  split.
  - pose proof (GetUnpublishedOutbox_inv limit w) as Hinv.
    destruct (repository.GetUnpublishedOutbox limit w) as [[items | e] w' | msg w'];
      [| tauto | tauto].
    destruct Hinv as (rows & Hq & Hs & ->).
    apply unpublished_rows_Ok in Hq as [Hlimit ->].
    apply scan_rows_Forall2 in Hs.
    set (unpublished := filter (fun r => postgres.outbox_row.published r = false)
                          (postgres.outbox_notifications (db w))) in *.
    set (sorted := postgres.order_by postgres.outbox_row.created_at unpublished) in *.
    assert (Hsorted : StronglySorted (by_key postgres.outbox_row.created_at) sorted)
      by apply order_by_sorted.
    split; [reflexivity |]. split; [| split; [| split]].
    + apply Forall_forall. intros i Hi.
      destruct (proj1 (list_elem_of_lookup _ _) Hi) as [n Hn].
      destruct (Forall2_lookup_r _ _ _ _ _ Hs Hn) as (r & Hr & Hscan).
      apply scan_outbox_fields in Hscan as (_ & _ & _ & -> & _).
      assert (Hin : r ∈ unpublished).
      { eapply elem_of_take_order_by, list_elem_of_lookup_2. exact Hr. }
      now apply list_elem_of_filter in Hin as [Hin _].
    + assert (Hst : StronglySorted (by_key postgres.outbox_row.created_at)
                      (take (Z.to_nat limit) sorted)).
      { rewrite <- (take_drop (Z.to_nat limit) sorted) in Hsorted.
        now apply StronglySorted_app_1_l in Hsorted. }
      eapply scan_outbox_sorted; eassumption.
    + rewrite <- (Forall2_length _ _ _ Hs), length_take. lia.
    + exists (take (Z.to_nat limit) sorted), (drop (Z.to_nat limit) sorted).
      split; [exact Hs |]. split.
      * rewrite take_drop. symmetry. apply order_by_Permutation.
      * apply Forall_forall. intros r Hr. apply Forall_forall. intros i Hi.
        destruct (proj1 (list_elem_of_lookup _ _) Hi) as [n Hn].
        destruct (Forall2_lookup_r _ _ _ _ _ Hs Hn) as (r' & Hr' & Hscan).
        apply scan_outbox_fields in Hscan as (_ & _ & _ & _ & -> & _).
        eapply (sorted_take_drop postgres.outbox_row.created_at); [exact Hsorted | | exact Hr].
        eapply list_elem_of_lookup_2. exact Hr'.
  - intros Hlimit Hq Hr Hscan.
    unfold repository.GetUnpublishedOutbox, repository.collect, mbind, M_bind, db_Query,
      rows_Err, mret, M_ret.
    rewrite Hq. simpl. rewrite (unpublished_rows_eq limit (db w) Hlimit). simpl.
    destruct (scan_rows_Ok repository.scan_outbox
                (take (Z.to_nat limit)
                   (postgres.order_by postgres.outbox_row.created_at
                      (filter (fun r => postgres.outbox_row.published r = false)
                         (postgres.outbox_notifications (db w)))))) as [items Hitems].
    { apply Forall_forall. intros r Hin. rewrite Forall_forall in Hscan. apply Hscan.
      apply elem_of_take_order_by in Hin.
      now apply list_elem_of_filter in Hin as [_ Hin]. }
    rewrite Hitems. simpl. rewrite Hr. eauto.
Qed.

End outbox_queries.

(** ** The published flag (C6) *)

Section published_flag.
Context `{!Json, !Env}.







End published_flag.

(** ** What the repository's write calls amount to *)

Section repository_calls.
Context `{!Json, !Env}.

Lemma CreateNotification_inv (n : models.Notification.t) (w : World) :
  match repository.CreateNotification n w with
  | Done None w' =>
      exists metadata,
        w' = mkWorld
               (postgres.with_notifications (db w)
                  (postgres.notifications (db w) ++ [repository.notification_row n metadata]))
               (producer_calls w) (log w) (S (steps w))
  | Done (Some _) w' => w' = w \/ w' = tick w
  | Panicked _ _ => False
  end.
Proof.
  unfold repository.CreateNotification, repository.wrap, mbind, M_bind, mret, M_ret, db_Exec.
  destruct (repository.jsonb_arg _) as [metadata |]; simpl; [| auto].
  destruct (db_fault (steps w)); simpl; [auto |]. eauto.
Qed.

Lemma CreateOutboxEntry_inv (item : models.OutboxNotification.t) (w : World) :
  match repository.CreateOutboxEntry item w with
  | Done None w' =>
      exists data,
        w' = mkWorld
               (postgres.with_outbox (db w)
                  (postgres.outbox_notifications (db w) ++
                     [postgres.outbox_row.mk (postgres.outbox_id_seq (db w))
                        (models.OutboxNotification.NotificationID item)
                        (models.OutboxNotification.Topic item)
                        data
                        (models.OutboxNotification.Published item)
                        (models.OutboxNotification.CreatedAt item)
                        None])
                  (postgres.outbox_id_seq (db w) + 1))
               (producer_calls w) (log w) (S (steps w))
  | Done (Some _) w' => w' = w \/ w' = tick w
  | Panicked _ _ => False
  end.
Proof.
  unfold repository.CreateOutboxEntry, repository.wrap, mbind, M_bind, mret, M_ret, db_Exec.
  destruct (repository.jsonb_arg _) as [payload |]; simpl; [| auto].
  destruct (db_fault (steps w)); simpl; [auto |].
  destruct payload as [data |]; simpl; [eauto | auto].
Qed.

Lemma MarkOutboxPublished_inv (outboxID : Z) (w : World) :
  match repository.MarkOutboxPublished outboxID w with
  | Done None w' =>
      w' = mkWorld
             (postgres.with_outbox (db w)
                (map (fun r => if postgres.outbox_row.id r =? outboxID
                               then repository.set_published (clock (steps w)) r else r)
                     (postgres.outbox_notifications (db w)))
                (postgres.outbox_id_seq (db w)))
             (producer_calls w) (log w) (S (S (steps w)))
  | Done (Some _) w' => w' = tick (tick w)
  | Panicked _ _ => False
  end.
Proof.
  unfold repository.MarkOutboxPublished, repository.mark_published, repository.wrap,
    mbind, M_bind, mret, M_ret, db_Exec, time_Now, tick.
  simpl. destruct (db_fault (S (steps w))); simpl; reflexivity.
Qed.

End repository_calls.

Section published_flag_paths.
Context `{!Json, !Env}.

Ltac break_scrutinee :=
  match goal with
  | |- context [match ?x with _ => _ end] =>
      lazymatch x with
      | context [match _ with _ => _ end] => fail
      | _ => destruct x eqn:?; simpl
      end
  end.







End published_flag_paths.

(** ** The publishing loop *)

Section publishing.
Context `{!Json, !Env}.

Lemma marked_rows_nil (rows : list postgres.outbox_row.t) : marked_rows [] rows rows.
Proof.
  apply Forall_Forall2_diag, Forall_forall. intros r _.
  rewrite bool_decide_eq_false_2; [reflexivity | apply not_elem_of_nil].
Qed.

Lemma marked_rows_cons (now : Time) (i : Z) (ids : list Z)
    (rows rows' : list postgres.outbox_row.t) :
  marked_rows ids
    (map (fun r => if postgres.outbox_row.id r =? i
                   then repository.set_published now r else r) rows) rows' ->
  marked_rows (i :: ids) rows rows'.
Proof.
  unfold marked_rows. revert rows'.
  induction rows as [| r rows IH]; intros rows' Hm; simpl in Hm.
  - apply Forall2_nil_inv_l in Hm as ->. constructor.
  - apply Forall2_cons_inv_l in Hm as (r' & rows'' & Hr & Hrest & ->).
    constructor; [| now apply IH].
    destruct (Z.eqb_spec (postgres.outbox_row.id r) i) as [Heq | Hne].
    + rewrite bool_decide_eq_true_2 by (rewrite Heq; apply list_elem_of_here).
      simpl in Hr. rewrite Heq in Hr.
      destruct (bool_decide (i ∈ ids)).
      * destruct Hr as ((H1 & H2 & H3 & H4 & H5) & Hp & Ht). simpl in *.
        repeat split; try assumption; congruence.
      * subst r'. unfold same_entry. simpl. rewrite Heq. eauto 10.
    + destruct (bool_decide (postgres.outbox_row.id r ∈ ids)) eqn:Hin.
      * rewrite bool_decide_eq_true_2; [exact Hr |].
        apply list_elem_of_further. now apply bool_decide_eq_true_1 in Hin.
      * rewrite bool_decide_eq_false_2; [exact Hr |].
        apply bool_decide_eq_false_1 in Hin.
        intros Hin'. apply elem_of_cons in Hin' as [Heq | Hin']; contradiction.
Qed.

(** One iteration of the loop of ProcessOutbox. *)
Lemma publish_items_cons (item : models.OutboxNotification.t)
    (rest : list models.OutboxNotification.t) (w : World) :
  services.publish_items (item :: rest) w
  = match json_Marshal (models.OutboxNotification.Payload item) with
    | Err e => Panicked ("failed to marshal JSON: " +:+ e) w
    | Ok value =>
        let w1 := mkWorld (db w)
                    (producer_calls w ++
                       [(services.message_of item value, send_reply (steps w))])
                    (log w) (S (steps w)) in
        match send_reply (steps w) with
        | Err e => Done (Some ("failed to send message to Kafka: " +:+ e)) w1
        | Ok (partition, offset) =>
            match repository.MarkOutboxPublished (models.OutboxNotification.ID item) w1 with
            | Done (Some e) w2 =>
                Done (Some ("failed to mark outbox as published: " +:+ e)) w2
            | Done None w2 =>
                services.publish_items rest
                  (mkWorld (db w2) (producer_calls w2)
                     (log w2 ++
                        ["Published notification " +:+
                         uuid_String (models.OutboxNotification.NotificationID item) +:+
                         " to Kafka: partition=" +:+ pretty partition +:+
                         ", offset=" +:+ pretty offset])
                     (steps w2))
            | Panicked msg w2 => Panicked msg w2
            end
        end
    end.
Proof.
  simpl. unfold services.mustMarshalJSON, mbind, M_bind, mret, M_ret, panic,
    producer_SendMessage, log_Printf.
  destruct (json_Marshal _) as [value |]; simpl; [| reflexivity].
  destruct (send_reply (steps w)) as [[partition offset] |]; simpl; [| reflexivity].
  destruct (repository.MarkOutboxPublished _ _) as [[e |] w2 | msg w2]; reflexivity.
Qed.

(** A run of the loop over [items]: it completes a prefix of [k] items, each
    sent, acknowledged and marked, and then either is through, or stops at
    item [k] on a send error, on a mark error, or on a payload that does not
    marshal. *)
Lemma publish_items_run (items : list models.OutboxNotification.t) (w : World) :
  exists (k : nat) (calls : list (ProducerMessage.t * result (Z * Z))),
    (k <= length items)%nat /\
    producer_calls (final_world (services.publish_items items w))
      = (producer_calls w ++ calls)%list /\
    db (final_world (services.publish_items items w))
      = postgres.with_outbox (db w)
          (postgres.outbox_notifications
             (db (final_world (services.publish_items items w))))
          (postgres.outbox_id_seq (db w)) /\
    marked_rows (models.OutboxNotification.ID <$> take k items)
      (postgres.outbox_notifications (db w))
      (postgres.outbox_notifications (db (final_world (services.publish_items items w)))) /\
    Forall2 sent_ok (take k items) (take k calls) /\
    match services.publish_items items w with
    | Done None _ => k = length items /\ length calls = k
    | Done (Some e) _ =>
        exists item value,
          items !! k = Some item /\ length calls = S k /\
          json_Marshal (models.OutboxNotification.Payload item) = Ok value /\
          ((exists e0, calls !! k = Some (services.message_of item value, Err e0) /\
                       e = "failed to send message to Kafka: " +:+ e0) \/
           (exists reply e0, calls !! k = Some (services.message_of item value, Ok reply) /\
                             e = "failed to mark outbox as published: " +:+ e0))
    | Panicked msg _ =>
        length calls = k /\
        exists item e0,
          items !! k = Some item /\
          json_Marshal (models.OutboxNotification.Payload item) = Err e0
    end.
Proof.
  revert w. induction items as [| item rest IH]; intros w.
  - exists 0%nat, []. simpl. rewrite app_nil_r.
    repeat split; try reflexivity; try constructor.
    + now destruct (db w).
    + apply marked_rows_nil.
  - rewrite publish_items_cons.
    destruct (json_Marshal (models.OutboxNotification.Payload item)) as [value | e0] eqn:Hm.
    + simpl. destruct (send_reply (steps w)) as [[partition offset] | e0] eqn:Hsend.
      * pose proof (MarkOutboxPublished_inv (models.OutboxNotification.ID item)
                      (mkWorld (db w)
                         (producer_calls w ++
                            [(services.message_of item value, Ok (partition, offset))])
                         (log w) (S (steps w)))) as Hinv.
        destruct (repository.MarkOutboxPublished _ _) as [[e |] w2 | msg w2];
          [| | contradiction].
        -- subst w2. exists 0%nat, [(services.message_of item value, Ok (partition, offset))].
           simpl. repeat split; try constructor; try lia.
           ++ now destruct (db w).
           ++ apply marked_rows_nil.
           ++ exists item, value. repeat split; try reflexivity; [exact Hm |].
              right. eauto.
        -- subst w2. simpl.
           match goal with
           | |- context [services.publish_items rest ?w3] =>
               destruct (IH w3) as (k & calls & Hk & Hcalls & Hdb & Hmarked & Hsent & Hout)
           end.
           simpl in *.
           exists (S k), ((services.message_of item value, Ok (partition, offset)) :: calls).
           split; [simpl; lia |]. split; [rewrite Hcalls, <- app_assoc; reflexivity |].
           split; [rewrite Hdb at 1; reflexivity |].
           split; [simpl; eapply marked_rows_cons; exact Hmarked |].
           split; [simpl; constructor; [exists value, (partition, offset); auto | exact Hsent] |].
           destruct (services.publish_items rest _) as [[e |] w' | msg w']; simpl.
           ++ destruct Hout as (it & v & H1 & H2 & H3 & H4).
              exists it, v. repeat split; try assumption; try lia.
           ++ destruct Hout as [-> ->]. split; reflexivity.
           ++ destruct Hout as [-> Hout]. split; [reflexivity | exact Hout].
      * exists 0%nat, [(services.message_of item value, Err e0)].
        simpl. repeat split; try constructor; try lia.
        -- now destruct (db w).
        -- apply marked_rows_nil.
        -- exists item, value. repeat split; try reflexivity; [exact Hm |]. left. eauto.
    + exists 0%nat, []. simpl. rewrite app_nil_r.
      repeat split; try constructor; try lia.
      * now destruct (db w).
      * apply marked_rows_nil.
      * exists item, e0. split; [reflexivity | exact Hm].
Qed.

End publishing.

(** ** services.CreateNotification and ProcessOutbox on the store (C3) *)

Section create_notification.
Context `{!Json, !Env}.

Lemma marked_rows_same_entry (ids : list Z) (before after : list postgres.outbox_row.t) :
  marked_rows ids before after -> Forall2 same_entry before after.
Proof.
  unfold marked_rows. intros Hm. eapply Forall2_impl; [exact Hm |]. intros r r' Hr.
  simpl in Hr. destruct (bool_decide _); [tauto |]. subst r'. unfold same_entry. auto.
Qed.

(** ProcessOutbox touches nothing but flags of the outbox table. *)
Lemma ProcessOutbox_frame (w : World) :
  db (final_world (services.ProcessOutbox w))
    = postgres.with_outbox (db w)
        (postgres.outbox_notifications (db (final_world (services.ProcessOutbox w))))
        (postgres.outbox_id_seq (db w)) /\
  exists ids,
    marked_rows ids (postgres.outbox_notifications (db w))
      (postgres.outbox_notifications (db (final_world (services.ProcessOutbox w)))).
Proof.
  unfold services.ProcessOutbox, mbind, M_bind.
  pose proof (GetUnpublishedOutbox_inv 100 w) as Hinv.
  destruct (repository.GetUnpublishedOutbox 100 w) as [[items | e] w1 | msg w1];
    [| | contradiction].
  - destruct Hinv as (rows & _ & _ & ->).
    destruct (publish_items_run items (tick (tick w)))
      as (k & calls & _ & _ & Hdb & Hmarked & _).
    split; [exact Hdb | eauto].
  - destruct Hinv as (Hdb & _ & _). simpl. rewrite Hdb.
    split; [now destruct (db w) | exists []; apply marked_rows_nil].
Qed.

(** C3, as amended. When CreateNotification succeeds, the Notification row
    has been appended to the notifications table and the outbox table holds
    an entry for it.  When it reports an error, either nothing was written
    (validation failed or the Notification insert failed), or the
    OutboxEntry insert failed and the Notification row written just before
    is left in the table without an entry: the two inserts are separate
    statements.  (A panic can only come from the immediate publish, after
    both rows were written.) *)
Theorem CreateNotification_writes (topic : string)
    (req : models.CreateNotificationRequest.t) (w : World) :
  let both_written (n : models.Notification.t) (w' : World) :=
    (exists metadata,
        postgres.notifications (db w')
        = (postgres.notifications (db w) ++ [repository.notification_row n metadata])%list) /\
    (exists row,
        row ∈ postgres.outbox_notifications (db w') /\
        postgres.outbox_row.notification_id row = models.Notification.ID n) in
  match services.CreateNotification topic req w with
  | Done (Ok n) w' =>
      models.Notification.UserID n = models.CreateNotificationRequest.UserID req /\
      both_written n w'
  | Done (Err e) w' =>
      db w' = db w \/
      (exists n metadata e0,
          db w' = postgres.with_notifications (db w)
                    (postgres.notifications (db w) ++ [repository.notification_row n metadata]) /\
          models.Notification.UserID n = models.CreateNotificationRequest.UserID req /\
          e = "failed to create outbox entry: " +:+ e0)
  | Panicked _ w' => exists n, both_written n w'
  end.
Proof.
  intros both_written. unfold services.CreateNotification.
  destruct (models.IsValidNotificationType _); simpl; [| now left].
  destruct (models.IsValidChannel _); simpl; [| now left].
  unfold mbind, M_bind, uuid_New, time_Now, os_Getenv, mret, M_ret. simpl.
  match goal with
  | |- context [repository.CreateNotification ?n _] => set (notification := n)
  end.
  match goal with
  | |- context [repository.CreateNotification ?n ?w2] =>
      pose proof (CreateNotification_inv n w2) as Hn;
      destruct (repository.CreateNotification n w2) as [[e |] w3 | msg w3];
      [| | contradiction]
  end.
  { left. destruct Hn as [-> | ->]; reflexivity. }
  destruct Hn as [metadata ->]. simpl.
  match goal with
  | |- context [repository.CreateOutboxEntry ?i ?w4] =>
      pose proof (CreateOutboxEntry_inv i w4) as Ho;
      destruct (repository.CreateOutboxEntry i w4) as [[e |] w5 | msg w5];
      [| | contradiction]
  end.
  { right. exists notification, metadata, e.
    destruct Ho as [-> | ->]; simpl; auto. }
  destruct Ho as [data ->]. simpl.
  assert (Hboth : forall w',
            db w' = postgres.with_outbox
                      (postgres.with_outbox
                         (postgres.with_notifications (db w)
                            (postgres.notifications (db w) ++
                               [repository.notification_row notification metadata]))
                         (postgres.outbox_notifications (db w) ++
                            [postgres.outbox_row.mk (postgres.outbox_id_seq (db w))
                               (models.Notification.ID notification) topic data false
                               (clock (S (S (S (steps w))))) None])
                         (postgres.outbox_id_seq (db w) + 1))
                      (postgres.outbox_notifications (db w'))
                      (postgres.outbox_id_seq (db w) + 1) ->
            Forall2 same_entry
              (postgres.outbox_notifications (db w) ++
                 [postgres.outbox_row.mk (postgres.outbox_id_seq (db w))
                    (models.Notification.ID notification) topic data false
                    (clock (S (S (S (steps w))))) None])
              (postgres.outbox_notifications (db w')) ->
            both_written notification w').
  { intros w' Hdb Hrows. split.
    - exists metadata. rewrite Hdb. reflexivity.
    - apply Forall2_app_inv_l in Hrows as (k1 & k2 & _ & Hlast & ->).
      apply Forall2_cons_inv_l in Hlast as (row & k3 & (_ & Hid & _) & _ & ->).
      exists row. split; [| exact Hid].
      apply elem_of_app. right. apply list_elem_of_here. }
  destruct (services.strings_EqualFold _ _).
  - match goal with
    | |- context [services.ProcessOutbox ?w6] =>
        destruct (ProcessOutbox_frame w6) as (Hdb & ids & Hmarked);
        apply marked_rows_same_entry in Hmarked;
        destruct (services.ProcessOutbox w6) as [ret w7 | msg w7]; simpl in *
    end.
    + split; [reflexivity |]. apply Hboth; assumption.
    + exists notification. apply Hboth; assumption.
  - simpl. split; [reflexivity |]. apply Hboth; simpl.
    + reflexivity.
    + apply Forall_Forall2_diag, Forall_forall. unfold same_entry. auto.
Qed.

End create_notification.

(** ** A batch of ProcessOutbox (C2) *)

Section batches.
Context `{!Json, !Env}.

Lemma filter_ext_elem {A} (P Q : A -> Prop) `{!forall x, Decision (P x)}
    `{!forall x, Decision (Q x)} (l : list A) :
  (forall x, x ∈ l -> (P x <-> Q x)) -> filter P l = filter Q l.
Proof.
  induction l as [| x l IH]; intros Hext; [reflexivity |].
  rewrite !filter_cons.
  rewrite IH by (intros y Hy; apply Hext; now apply list_elem_of_further).
  pose proof (Hext x (list_elem_of_here x l)) as Hx.
  destruct (decide (P x)), (decide (Q x)); tauto.
Qed.

Lemma filter_all {A} (P : A -> Prop) `{!forall x, Decision (P x)} (l : list A) :
  (forall x, x ∈ l -> P x) -> filter P l = l.
Proof.
  induction l as [| x l IH]; intros Hall; [reflexivity |].
  rewrite filter_cons_True by (apply Hall, list_elem_of_here).
  rewrite IH; [reflexivity |]. intros y Hy. apply Hall. now apply list_elem_of_further.
Qed.

(** With distinct keys, removing the rows whose key is among those of the
    first [k] rows leaves the rows after the first [k]. *)
Lemma filter_not_in_take {A} (f : A -> Z) (l : list A) (k : nat) :
  NoDup (f <$> l) -> filter (fun r => f r ∉ (f <$> take k l)) l = drop k l.
Proof.
  revert k. induction l as [| x l IH]; intros k Hnd.
  - now rewrite take_nil, drop_nil.
  - destruct k as [| k]; simpl.
    + apply filter_all. intros y _. apply not_elem_of_nil.
    + apply NoDup_cons in Hnd as [Hx Hnd].
      rewrite filter_cons_False by (intros Hn; apply Hn, list_elem_of_here).
      rewrite <- (IH k Hnd). apply filter_ext_elem. intros y Hy. split.
      * intros Hn Hin. apply Hn. now apply list_elem_of_further.
      * intros Hn Hin. apply elem_of_cons in Hin as [Heq | Hin]; [| contradiction].
        apply Hx. rewrite <- Heq. apply list_elem_of_fmap. eauto.
Qed.

(** The unpublished rows after a marking are the unpublished rows before it
    that were not marked. *)
Lemma filter_unpublished_marked (ids : list Z) (before after : list postgres.outbox_row.t) :
  marked_rows ids before after ->
  filter (fun r => postgres.outbox_row.published r = false) after
  = filter (fun r => postgres.outbox_row.id r ∉ ids)
      (filter (fun r => postgres.outbox_row.published r = false) before).
Proof.
  unfold marked_rows. induction 1 as [| r r' before after Hr _ IH]; [reflexivity |].
  destruct (bool_decide (postgres.outbox_row.id r ∈ ids)) eqn:Hin.
  - apply bool_decide_eq_true_1 in Hin. destruct Hr as (_ & Hp & _).
    rewrite (filter_cons_False _ r') by (rewrite Hp; discriminate).
    rewrite IH. rewrite (filter_cons _ r).
    destruct (decide (postgres.outbox_row.published r = false)); [| reflexivity].
    now rewrite filter_cons_False by tauto.
  - apply bool_decide_eq_false_1 in Hin. subst r'.
    rewrite !(filter_cons _ r), IH.
    destruct (decide (postgres.outbox_row.published r = false)); [| reflexivity].
    now rewrite filter_cons_True by assumption.
Qed.

Lemma scan_outbox_ids (rows : list postgres.outbox_row.t)
    (items : list models.OutboxNotification.t) :
  Forall2 (fun r i => repository.scan_outbox r = Ok i) rows items ->
  models.OutboxNotification.ID <$> items = postgres.outbox_row.id <$> rows.
Proof.
  induction 1 as [| r i rows items Hr _ IH]; [reflexivity |].
  rewrite !fmap_cons, IH. apply scan_outbox_fields in Hr as (-> & _). reflexivity.
Qed.

(** Scanning is a function of the row. *)
Lemma scan_outbox_functional (rows : list postgres.outbox_row.t)
    (items items' : list models.OutboxNotification.t) :
  Forall2 (fun r i => repository.scan_outbox r = Ok i) rows items ->
  Forall2 (fun r i => repository.scan_outbox r = Ok i) rows items' ->
  items = items'.
Proof.
  intros Hs. revert items'. induction Hs as [| r i rows items Hr _ IH]; intros items' Hs'.
  - now apply Forall2_nil_inv_l in Hs'.
  - apply Forall2_cons_inv_l in Hs' as (i' & items'' & Hr' & Hs' & ->).
    rewrite Hr in Hr'. injection Hr' as <-. f_equal. now apply IH.
Qed.

(** The ids of the rows a query of the unpublished rows selects are
    distinct when those of the table are. *)
Lemma NoDup_sorted_unpublished (rows : list postgres.outbox_row.t) :
  NoDup (postgres.outbox_row.id <$> rows) ->
  NoDup (postgres.outbox_row.id <$>
           postgres.order_by postgres.outbox_row.created_at
             (filter (fun r => postgres.outbox_row.published r = false) rows)).
Proof.
  intros Hnd. rewrite order_by_Permutation.
  eapply sublist_NoDup; [exact Hnd |]. apply fmap_sublist, sublist_filter.
Qed.


End batches.

(** The all-or-nothing reading of C3 fails when the second insert fails
    (here at interaction 4): CreateNotification reports an error, yet the
    notifications table has gained a row and the outbox has none. *)
Lemma CreateNotification_leaves_orphan :
  returned_error
    (@services.CreateNotification reference.json (examples.failing_at 4) "notifications"
       examples.request (examples.world_of examples.one_user_db)) = true /\
  postgres.notifications (db (examples.world_of examples.one_user_db)) = [] /\
  postgres.notifications_row.user_id <$>
    postgres.notifications
      (db (final_world
             (@services.CreateNotification reference.json (examples.failing_at 4)
                "notifications" examples.request
                (examples.world_of examples.one_user_db))))
  = [examples.alice] /\
  postgres.outbox_notifications
    (db (final_world
           (@services.CreateNotification reference.json (examples.failing_at 4)
              "notifications" examples.request
              (examples.world_of examples.one_user_db))))
  = [].
Proof. repeat split; vm_compute; reflexivity. Qed.


(** ** The daily-reminder tick (C4) *)

Section daily_reminders.
Context `{!Json, !Env}.

Lemma reminded_on_spec (today : Z) (u : postgres.users_row.t) (n : postgres.notifications_row.t) :
  scheduler.reminded_on today u n = true <->
  postgres.notifications_row.user_id n = postgres.users_row.user_id u /\
  postgres.notifications_row.type_ n = "daily_reminder" /\
  date_of (postgres.notifications_row.created_at n) = today.
Proof.
  unfold scheduler.reminded_on.
  rewrite !andb_true_iff, bool_decide_eq_true, String.eqb_eq, Z.eqb_eq. tauto.
Qed.

Lemma reminded_today (today : Z) (u : postgres.users_row.t) (d : postgres.Database) :
  existsb (scheduler.reminded_on today u) (postgres.notifications d) = false <->
  daily_reminders_on today (postgres.users_row.user_id u) d = [].
Proof.
  unfold daily_reminders_on.
  induction (postgres.notifications d) as [| n l IH]; simpl; [tauto |].
  rewrite filter_cons, orb_false_iff, IH.
  pose proof (reminded_on_spec today u n) as Hs.
  destruct (decide _) as [Hn | Hn].
  - apply Hs in Hn. rewrite Hn. split; [intros [? _]; discriminate | discriminate].
  - destruct (scheduler.reminded_on today u n); [exfalso; apply Hn, Hs; reflexivity |].
    tauto.
Qed.

Lemma in_daily_reminder_rows (now : Time) (d : postgres.Database) (t : UUID * string * string) :
  t ∈ scheduler.daily_reminder_rows now d <->
  exists u unp,
    u ∈ postgres.users d /\ unp ∈ postgres.user_notification_preferences d /\
    scheduler.wants_daily_reminder u unp = true /\
    existsb (scheduler.reminded_on (date_of now) u) (postgres.notifications d) = false /\
    t = (postgres.users_row.user_id u, postgres.users_row.name u, postgres.users_row.email u).
Proof.
  unfold scheduler.daily_reminder_rows.
  rewrite elem_of_remove_dups, list_elem_of_In, in_flat_map. split.
  - intros (u & Hu & Ht). apply in_flat_map in Ht as (unp & Hunp & Ht).
    destruct (scheduler.wants_daily_reminder u unp) eqn:Hw; simpl in Ht; [| contradiction].
    destruct (existsb _ _) eqn:He; simpl in Ht; [contradiction |].
    destruct Ht as [<- | []]. exists u, unp.
    rewrite !list_elem_of_In. auto.
  - intros (u & unp & Hu & Hunp & Hw & He & ->). exists u.
    rewrite <- list_elem_of_In. split; [exact Hu |].
    apply in_flat_map. exists unp. rewrite <- list_elem_of_In. split; [exact Hunp |].
    rewrite Hw, He. simpl. now left.
Qed.

Lemma count_unique {A} `{!EqDecision A} (l : list A) (x : A) :
  NoDup l -> x ∈ l -> length (filter (fun y => y = x) l) = 1%nat.
Proof.
  induction 1 as [| y l Hy Hnd IH]; intros Hx; [inversion Hx |].
  rewrite filter_cons. destruct (decide (y = x)) as [-> | Hne].
  - simpl. f_equal. rewrite (filter_ext_elem _ (fun _ => False)).
    + clear Hy Hnd IH Hx. induction l as [| a l IHl]; [reflexivity |].
      rewrite filter_cons_False by tauto. exact IHl.
    + intros z Hz. split; [intros ->; contradiction | tauto].
  - apply IH. apply elem_of_cons in Hx as [-> | Hx]; [contradiction | exact Hx].
Qed.

Lemma Forall2_filter_length {A B} (R : A -> B -> Prop) (P : A -> Prop) (Q : B -> Prop)
    `{!forall a, Decision (P a)} `{!forall b, Decision (Q b)} (l : list A) (k : list B) :
  Forall2 R l k -> (forall a b, R a b -> (P a <-> Q b)) ->
  length (filter P l) = length (filter Q k).
Proof.
  intros HR Hpq. induction HR as [| a b l k Hab _ IH]; [reflexivity |].
  rewrite !filter_cons. specialize (Hpq a b Hab).
  destruct (decide (P a)), (decide (Q b)); simpl; try tauto; now rewrite IH.
Qed.

Lemma NoDup_fmap_inj {A B} (f : A -> B) (l : list A) (x y : A) :
  NoDup (f <$> l) -> x ∈ l -> y ∈ l -> f x = f y -> x = y.
Proof.
  intros Hnd Hx Hy Hf.
  apply list_elem_of_lookup in Hx as [i Hi]. apply list_elem_of_lookup in Hy as [j Hj].
  assert (i = j).
  { eapply (NoDup_lookup (f <$> l)); [exact Hnd | |]; rewrite list_lookup_fmap.
    - now rewrite Hi.
    - rewrite Hj. simpl. now rewrite Hf. }
  subst j. congruence.
Qed.

Lemma CreateNotification_no_fault (n : models.Notification.t) (w : World) :
  db_fault (steps w) = None ->
  models.Notification.Metadata n = None ->
  repository.CreateNotification n w
  = Done None
      (mkWorld
         (postgres.with_notifications (db w)
            (postgres.notifications (db w) ++ [repository.notification_row n None]))
         (producer_calls w) (log w) (S (steps w))).
Proof.
  intros Hf Hm.
  unfold repository.CreateNotification, repository.jsonb_arg, JSONMap.Value.
  rewrite Hm. simpl. unfold mbind, M_bind, db_Exec. rewrite Hf. reflexivity.
Qed.

(** Without database failures createDailyReminder writes the reminder
    (whether or not its outbox entry can be written). *)
Lemma createDailyReminder_no_fault (user : models.User.t) (w : World) :
  (forall n, db_fault n = None) ->
  exists w' row,
    scheduler.createDailyReminder user w = Done None w' /\
    postgres.notifications (db w') = (postgres.notifications (db w) ++ [row])%list /\
    reminder_row user row /\
    postgres.users (db w') = postgres.users (db w) /\
    postgres.user_notification_preferences (db w')
      = postgres.user_notification_preferences (db w).
Proof.
  intros Hf. unfold scheduler.createDailyReminder.
  unfold repository.GetUserEngagementStreak, mbind, M_bind, db_Query, mret, M_ret,
    log_Printf, uuid_New, time_Now.
  rewrite Hf. simpl.
  destruct (repository.first_row _) as [streak |]; simpl;
    (rewrite CreateNotification_no_fault by (first [apply Hf | reflexivity]); simpl;
     match goal with
     | |- context [repository.CreateOutboxEntry ?i ?w4] =>
         pose proof (CreateOutboxEntry_inv i w4) as Ho;
         destruct (repository.CreateOutboxEntry i w4) as [[e |] w5 | msg w5];
         [| | contradiction]
     end;
     [destruct Ho as [-> | ->] | destruct Ho as [data ->]]; simpl;
     eexists _, _; (split; [reflexivity |]); simpl;
     (split; [reflexivity |]); (split; [| split; reflexivity]);
     unfold reminder_row; simpl; eauto).
Qed.

Lemma remind_each_no_fault (users : list models.User.t) (w : World) :
  (forall n, db_fault n = None) ->
  exists w' rows,
    scheduler.remind_each users w = Done tt w' /\
    postgres.notifications (db w') = (postgres.notifications (db w) ++ rows)%list /\
    Forall2 reminder_row users rows /\
    postgres.users (db w') = postgres.users (db w) /\
    postgres.user_notification_preferences (db w')
      = postgres.user_notification_preferences (db w).
Proof.
  intros Hf. revert w. induction users as [| user rest IH]; intros w.
  - exists w, []. simpl. rewrite app_nil_r. repeat split. constructor.
  - destruct (createDailyReminder_no_fault user w Hf)
      as (w1 & row & Hrun & Hn & Hrow & Hu & Hp).
    destruct (IH w1) as (w2 & rows & Hrun' & Hn' & Hrows & Hu' & Hp').
    exists w2, (row :: rows). simpl. unfold mbind, M_bind. rewrite Hrun. simpl.
    unfold mret, M_ret. split; [exact Hrun' |].
    split; [rewrite Hn', Hn, <- app_assoc; reflexivity |].
    split; [constructor; assumption |]. split; congruence.
Qed.

Lemma getUsersNeedingDailyReminders_no_fault (w : World) :
  db_fault (steps w) = None ->
  scheduler.getUsersNeedingDailyReminders w
  = Done (Ok (map scheduler.scan_user
                (scheduler.daily_reminder_rows (clock (steps w)) (db w))))
         (tick w).
Proof.
  intros Hf. unfold scheduler.getUsersNeedingDailyReminders, mbind, M_bind, db_Query_at.
  now rewrite Hf.
Qed.

Lemma processDailyReminders_no_fault (w : World) :
  (forall n, db_fault n = None) ->
  exists w' rows,
    scheduler.processDailyReminders w = Done None w' /\
    postgres.notifications (db w') = (postgres.notifications (db w) ++ rows)%list /\
    Forall2 reminder_row
      (map scheduler.scan_user (scheduler.daily_reminder_rows (clock (steps w)) (db w)))
      rows /\
    postgres.users (db w') = postgres.users (db w) /\
    postgres.user_notification_preferences (db w')
      = postgres.user_notification_preferences (db w).
Proof.
  intros Hf. unfold scheduler.processDailyReminders.
  unfold mbind at 1. unfold M_bind at 1.
  rewrite getUsersNeedingDailyReminders_no_fault by apply Hf.
  set (users := map scheduler.scan_user _).
  unfold mbind, M_bind, mret, M_ret, log_Printf.
  destruct (0 <? Z.of_nat (length users)); simpl;
    match goal with
    | |- context [scheduler.remind_each users ?w1] =>
        destruct (remind_each_no_fault users w1 Hf) as (w2 & rows & Hrun & Hn & Hrows & Hu & Hp)
    end;
    rewrite Hrun; exists w2, rows; simpl in *; auto.
Qed.

(** C4. For a recipient with an enabled daily_reminder/in_app preference and
    no daily_reminder event yet today, two daily-reminder ticks run one after
    the other on the same calendar day (with the database answering every
    statement and user ids unique, as the primary key of users makes them)
    leave exactly one daily_reminder event of that recipient for the day: the
    cohort of the first tick contains the recipient, the tick writes one such
    event, the cohort of the second tick does not contain the recipient, and
    the second tick writes no further one. *)
Theorem daily_reminder_once_per_day (w : World) (u : postgres.users_row.t)
    (unp : postgres.preferences_row.t) (today : Z) :
  (forall n, db_fault n = None) ->
  (forall n, date_of (clock n) = today) ->
  NoDup (postgres.users_row.user_id <$> postgres.users (db w)) ->
  u ∈ postgres.users (db w) ->
  unp ∈ postgres.user_notification_preferences (db w) ->
  scheduler.wants_daily_reminder u unp = true ->
  daily_reminders_on today (postgres.users_row.user_id u) (db w) = [] ->
  exists w1 w2,
    scheduler.processDailyReminders w = Done None w1 /\
    scheduler.processDailyReminders w1 = Done None w2 /\
    (postgres.users_row.user_id u, postgres.users_row.name u, postgres.users_row.email u)
      ∈ scheduler.daily_reminder_rows (clock (steps w)) (db w) /\
    length (daily_reminders_on today (postgres.users_row.user_id u) (db w1)) = 1%nat /\
    Forall (fun t => t.1.1 <> postgres.users_row.user_id u)
      (scheduler.daily_reminder_rows (clock (steps w1)) (db w1)) /\
    daily_reminders_on today (postgres.users_row.user_id u) (db w2)
      = daily_reminders_on today (postgres.users_row.user_id u) (db w1).
Proof.
  intros Hf Hday Hnd Hu Hunp Hw Hnone.
  set (uid := postgres.users_row.user_id u) in *.
  set (mine := (uid, postgres.users_row.name u, postgres.users_row.email u)).
  destruct (processDailyReminders_no_fault w Hf) as (w1 & rows1 & Hrun1 & Hn1 & Hrows1 & Hu1 & Hp1).
  destruct (processDailyReminders_no_fault w1 Hf) as (w2 & rows2 & Hrun2 & Hn2 & Hrows2 & Hu2 & Hp2).
  set (T1 := scheduler.daily_reminder_rows (clock (steps w)) (db w)) in *.
  set (T2 := scheduler.daily_reminder_rows (clock (steps w1)) (db w1)) in *.
  (* what a written row says about the user it was written for *)
  assert (Hrel : forall user row, reminder_row user row ->
            (models.User.ID user = uid <->
             postgres.notifications_row.user_id row = uid /\
             postgres.notifications_row.type_ row = "daily_reminder" /\
             date_of (postgres.notifications_row.created_at row) = today)).
  { intros user row (Hid & Hty & n & Hat). rewrite Hid, Hty, Hat, Hday. tauto. }
  assert (Hcount : forall (T : list (UUID * string * string)) rows,
            Forall2 reminder_row (map scheduler.scan_user T) rows ->
            length (filter (fun n => postgres.notifications_row.user_id n = uid /\
                                     postgres.notifications_row.type_ n = "daily_reminder" /\
                                     date_of (postgres.notifications_row.created_at n) = today)
                      rows)
            = length (filter (fun t : UUID * string * string => t.1.1 = uid) T)).
  { intros T rows Hrows. symmetry.
    apply (Forall2_filter_length
             (fun t row => reminder_row (scheduler.scan_user t) row)).
    - change (map scheduler.scan_user T) with (scheduler.scan_user <$> T) in Hrows.
      rewrite Forall2_fmap_l in Hrows. exact Hrows.
    - intros t row Hr. apply (Hrel _ _ Hr). }
  assert (Hmine : mine ∈ T1).
  { apply in_daily_reminder_rows. exists u, unp. rewrite Hday.
    repeat split; try assumption. now apply reminded_today. }
  assert (Hone : length (daily_reminders_on today uid (db w1)) = 1%nat).
  { unfold daily_reminders_on in *. rewrite Hn1, filter_app, Hnone. simpl.
    rewrite (Hcount T1 rows1 Hrows1).
    rewrite (filter_ext_elem _ (fun t => t = mine)).
    - apply count_unique; [apply NoDup_remove_dups | exact Hmine].
    - intros t Ht. apply in_daily_reminder_rows in Ht as (u' & _ & Hu' & _ & _ & _ & ->).
      simpl. split.
      + intros Hid. rewrite (NoDup_fmap_inj postgres.users_row.user_id _ u' u Hnd Hu' Hu Hid).
        reflexivity.
      + intros Heq. unfold mine in Heq. congruence. }
  assert (Hout : Forall (fun t : UUID * string * string => t.1.1 <> uid) T2).
  { apply Forall_forall. intros t Ht Hid.
    apply in_daily_reminder_rows in Ht as (u' & _ & _ & _ & _ & Hex & ->).
    simpl in Hid. rewrite Hday in Hex. apply reminded_today in Hex.
    rewrite Hid in Hex. rewrite Hex in Hone. discriminate. }
  exists w1, w2. repeat (split; [assumption |]).
  unfold daily_reminders_on. rewrite Hn2, filter_app.
  rewrite <- (app_nil_r (filter _ (postgres.notifications (db w1)))) at 2. f_equal.
  apply length_zero_iff_nil. rewrite (Hcount T2 rows2 Hrows2).
  apply length_zero_iff_nil. clear -Hout.
  induction Hout as [| t T Ht _ IH]; [reflexivity |].
  rewrite filter_cons_False by exact Ht. exact IH.
Qed.

End daily_reminders.

Lemma same_day_today (n : nat) : date_of (@clock examples.same_day n) = examples.today.
Proof.
  unfold date_of, nanoseconds_per_day, examples.today. simpl.
  symmetry. apply Z.div_unique with
    (r := 1700000000000000000 + Z.min (Z.of_nat n) 3600 * 1000000000
          - 86400 * 1000000000 * 19675); lia.
Qed.

Lemma daily_reminder_once_per_day_witness :
  exists w1 w2,
    @scheduler.processDailyReminders reference.json examples.same_day
      (examples.world_of examples.one_user_db) = Done None w1 /\
    @scheduler.processDailyReminders reference.json examples.same_day w1 = Done None w2 /\
    (examples.alice, "Alice", "alice@example.com")
      ∈ scheduler.daily_reminder_rows
          (@clock examples.same_day (steps (examples.world_of examples.one_user_db)))
          (db (examples.world_of examples.one_user_db)) /\
    length (@daily_reminders_on examples.today examples.alice (db w1)) = 1%nat /\
    Forall (fun t => t.1.1 <> examples.alice)
      (scheduler.daily_reminder_rows (@clock examples.same_day (steps w1)) (db w1)) /\
    daily_reminders_on examples.today examples.alice (db w2)
      = daily_reminders_on examples.today examples.alice (db w1).
Proof.
  apply (@daily_reminder_once_per_day reference.json examples.same_day
           (examples.world_of examples.one_user_db)
           examples.alice_row examples.alice_wants_reminders examples.today).
  - intros n. reflexivity.
  - exact same_day_today.
  - apply (bool_decide_unpack _). vm_compute. exact I.
  - apply list_elem_of_here.
  - apply list_elem_of_here.
  - vm_compute. reflexivity.
  - vm_compute. reflexivity.
Defined.

(** The run of that example: one reminder after the first tick, still one
    after the second. *)
Example daily_reminder_run :
  length (postgres.notifications (db examples.reminded_once)) = 1%nat /\
  postgres.notifications (db examples.reminded_twice)
    = postgres.notifications (db examples.reminded_once).
Proof. split; vm_compute; reflexivity. Qed.

(** ** The key of the messages ProcessOutbox sends (C1) *)

Section message_keys.
Context `{!Json, !Env}.

Lemma publish_items_calls (items : list models.OutboxNotification.t) (w : World) :
  exists calls : list (ProducerMessage.t * result (Z * Z)),
    producer_calls (final_world (services.publish_items items w))
      = (producer_calls w ++ calls)%list /\
    Forall (fun c => exists item value,
                item ∈ items /\
                json_Marshal (models.OutboxNotification.Payload item) = Ok value /\
                c.1 = services.message_of item value)
      calls.
Proof.
  revert w. induction items as [| item rest IH]; intros w.
  - exists []. simpl. rewrite app_nil_r. split; [reflexivity | constructor].
  - rewrite publish_items_cons.
    destruct (json_Marshal (models.OutboxNotification.Payload item)) as [value | e0] eqn:Hm.
    + assert (Hitem : forall reply,
                exists it v, it ∈ item :: rest /\
                  json_Marshal (models.OutboxNotification.Payload it) = Ok v /\
                  (services.message_of item value, reply : result (Z * Z)).1
                    = services.message_of it v).
      { intros reply. exists item, value. split; [apply list_elem_of_here | auto]. }
      simpl. destruct (send_reply (steps w)) as [[partition offset] | e0] eqn:Hsend.
      * pose proof (MarkOutboxPublished_inv (models.OutboxNotification.ID item)
                      (mkWorld (db w)
                         (producer_calls w ++
                            [(services.message_of item value, Ok (partition, offset))])
                         (log w) (S (steps w)))) as Hinv.
        destruct (repository.MarkOutboxPublished _ _) as [[e |] w2 | msg w2];
          [| | contradiction].
        -- subst w2. exists [(services.message_of item value, Ok (partition, offset))].
           simpl. split; [reflexivity |]. constructor; [apply Hitem | constructor].
        -- subst w2. simpl.
           match goal with
           | |- context [services.publish_items rest ?w3] =>
               destruct (IH w3) as (calls & Hcalls & Hall)
           end.
           simpl in Hcalls.
           exists ((services.message_of item value, Ok (partition, offset)) :: calls).
           split; [rewrite Hcalls, <- app_assoc; reflexivity |].
           constructor; [apply Hitem |].
           eapply Forall_impl; [exact Hall |].
           intros c (it & v & Hin & Hv & Hc). exists it, v.
           split; [now apply list_elem_of_further | auto].
      * exists [(services.message_of item value, Err e0)].
        simpl. split; [reflexivity |]. constructor; [apply Hitem | constructor].
    + exists []. simpl. rewrite app_nil_r. split; [reflexivity | constructor].
Qed.

(** Every SendMessage call of a ProcessOutbox tick carries the message of an
    unpublished row of the outbox table. *)
Lemma ProcessOutbox_calls (w : World) :
  exists calls : list (ProducerMessage.t * result (Z * Z)),
    producer_calls (final_world (services.ProcessOutbox w))
      = (producer_calls w ++ calls)%list /\
    Forall (fun c => exists row,
                row ∈ postgres.outbox_notifications (db w) /\
                postgres.outbox_row.published row = false /\
                message_for row c.1)
      calls.
Proof.
  unfold services.ProcessOutbox, mbind, M_bind.
  pose proof (GetUnpublishedOutbox_inv 100 w) as Hinv.
  destruct (repository.GetUnpublishedOutbox 100 w) as [[items | e1] w1 | m1 w1];
    [| | contradiction].
  - destruct Hinv as (rows & Hq & Hscan & ->).
    apply unpublished_rows_Ok in Hq as [_ ->].
    apply scan_rows_Forall2 in Hscan.
    destruct (publish_items_calls items (tick (tick w))) as (calls & Hcalls & Hall).
    exists calls. split; [exact Hcalls |].
    eapply Forall_impl; [exact Hall |].
    intros c (item & value & Hin & Hv & Hc).
    apply list_elem_of_lookup in Hin as [i Hi].
    destruct (Forall2_lookup_r _ _ _ _ _ Hscan Hi) as (row & Hrow & Hitem).
    apply list_elem_of_lookup_2 in Hrow. apply elem_of_take_order_by in Hrow.
    apply list_elem_of_filter in Hrow as [Hpub Hrow].
    exists row. split; [exact Hrow |]. split; [exact Hpub |].
    exists item. split; [exact Hitem |].
    apply scan_outbox_fields in Hitem as (_ & Hnid & Htopic & _).
    rewrite Hc. simpl. rewrite <- Hnid, <- Htopic. auto.
  - destruct Hinv as (_ & Hcalls & _). exists []. simpl.
    rewrite app_nil_r. split; [exact Hcalls | constructor].
Qed.

End message_keys.

(** C1, as the code has it. The message ProcessOutbox sends for an outbox
    entry has the entry's topic, the marshalled payload as its value, and the
    entry's notification id (the event id) as its key, not the recipient's
    id. In the run of [examples.published] (alice, whose id ends in 0a, is
    sent one notification, whose id ends in 10, and one tick publishes it)
    the key of the one message is the notification id, its value carries both
    ids, and the consumer, which files a message under its key as the user
    id, holds nothing for alice. *)
Theorem ProcessOutbox_keys_by_notification_id :
  (forall (J : Json) (E : Env) (w : World),
      exists calls : list (ProducerMessage.t * result (Z * Z)),
        producer_calls (final_world (services.ProcessOutbox w))
          = (producer_calls w ++ calls)%list /\
        Forall (fun c => exists row,
                    row ∈ postgres.outbox_notifications (db w) /\
                    postgres.outbox_row.published row = false /\
                    message_for row c.1)
          calls) /\
  examples.published
    = final_world
        (@services.ProcessOutbox reference.json examples.calm
           (final_world
              (@services.CreateNotification reference.json examples.calm "notifications"
                 examples.request (examples.world_of examples.one_user_db)))) /\
  postgres.notifications_row.user_id <$> postgres.notifications (db examples.published)
    = [examples.alice] /\
  postgres.notifications_row.id <$> postgres.notifications (db examples.published)
    = [mkUUID 16] /\
  postgres.outbox_row.published <$> postgres.outbox_notifications (db examples.published)
    = [true] /\
  ProducerMessage.Key <$> broker_log examples.published = [uuid_String (mkUUID 16)] /\
  uuid_String (mkUUID 16) <> uuid_String examples.alice /\
  (models.Notification.ID <$>
     consumer.Get (uuid_String (mkUUID 16)) (consumer.data examples.delivered))
    = [mkUUID 16] /\
  (models.Notification.UserID <$>
     consumer.Get (uuid_String (mkUUID 16)) (consumer.data examples.delivered))
    = [examples.alice] /\
  consumer.Get (uuid_String examples.alice) (consumer.data examples.delivered) = [].
Proof.
  split; [intros J E w; apply ProcessOutbox_calls |].
  repeat split; try (vm_compute; reflexivity).
  vm_compute. discriminate.
Qed.

(** ** A run of the retry loop

    Against [examples.flaky] the loop waits five seconds after the refused
    connection, connects, consumes until the session ends with an error,
    closes the group, waits five seconds again, reconnects and goes on
    consuming. *)
Example setupConsumerGroup_flaky_run :
  consumer.events
    (@consumer.setupConsumerGroup reference.json examples.flaky 8 (consumer.start ∅))
  = [consumer.EvConnect (Some "dial tcp: connection refused");
     consumer.EvWait consumer.backoff false;
     consumer.EvConnect None;
     consumer.EvConsume (Some "kafka: broker not available");
     consumer.EvClose;
     consumer.EvWait consumer.backoff false;
     consumer.EvConnect None;
     consumer.EvConsume None;
     consumer.EvConsume None] /\
  consumer.place
    (@consumer.setupConsumerGroup reference.json examples.flaky 8 (consumer.start ∅))
  = consumer.Consuming.
Proof. split; vm_compute; reflexivity. Qed.

(** * Further properties *)

(** ** Pages of a sorted selection *)

Section pages.
Context {R : Type} (P : R -> Prop) `{!forall r, Decision (P r)} (key : R -> Z).

Lemma sorted_drop (n : nat) (l : list R) :
  StronglySorted (by_key key) l -> StronglySorted (by_key key) (drop n l).
Proof.
  intros Hs. rewrite <- (take_drop n l) in Hs. now apply StronglySorted_app_1_r in Hs.
Qed.

Lemma sorted_take (n : nat) (l : list R) :
  StronglySorted (by_key key) l -> StronglySorted (by_key key) (take n l).
Proof.
  intros Hs. rewrite <- (take_drop n l) in Hs. now apply StronglySorted_app_1_l in Hs.
Qed.

(** What [WHERE P ORDER BY key LIMIT limit OFFSET offset] selects. *)
Lemma limit_offset_page (limit offset : Z) (table rows : list R) :
  postgres.limit_offset limit offset (postgres.order_by key (filter P table)) = Ok rows ->
  0 <= limit /\ 0 <= offset /\
  Forall P rows /\
  StronglySorted (by_key key) rows /\
  Z.of_nat (length rows) <= limit /\
  exists skipped rest,
    filter P table ≡ₚ skipped ++ rows ++ rest /\
    length skipped = (Z.to_nat offset `min` length (filter P table))%nat /\
    (rest = [] \/ length rows = Z.to_nat limit) /\
    Forall (fun s => Forall (fun r => key s <= key r) rows) skipped /\
    Forall (fun t => Forall (fun r => key r <= key t) rows) rest.
Proof.
  unfold postgres.limit_offset.
  destruct (Z.ltb_spec limit 0); [discriminate |].
  destruct (Z.ltb_spec offset 0); [discriminate |].
  intros [= <-].
  set (sorted := postgres.order_by key (filter P table)).
  assert (Hsorted : StronglySorted (by_key key) sorted) by apply order_by_sorted.
  assert (Hperm : sorted ≡ₚ filter P table) by apply order_by_Permutation.
  set (n := Z.to_nat limit). set (m := Z.to_nat offset).
  split; [lia |]. split; [lia |]. split; [| split; [| split]].
  - apply Forall_forall. intros r Hr.
    apply subseteq_take, subseteq_drop in Hr. rewrite Hperm in Hr.
    now apply list_elem_of_filter in Hr as [Hr _].
  - now apply sorted_take, sorted_drop.
  - rewrite length_take. lia.
  - exists (take m sorted), (drop n (drop m sorted)).
    split; [now rewrite take_drop, take_drop |].
    split; [rewrite length_take, <- Hperm; reflexivity |].
    split.
    { destruct (decide (length (drop m sorted) <= n)%nat) as [Hle | Hgt].
      - left. now apply drop_ge.
      - right. rewrite length_take. lia. }
    split.
    + apply Forall_forall. intros s Hs. apply Forall_forall. intros r Hr.
      apply subseteq_take in Hr.
      exact (sorted_take_drop key m sorted s r Hsorted Hs Hr).
    + apply Forall_forall. intros t Ht. apply Forall_forall. intros r Hr.
      exact (sorted_take_drop key n (drop m sorted) r t (sorted_drop m sorted Hsorted) Hr Ht).
Qed.

(** Consecutive pages tile the selection. *)
Lemma limit_offset_next_page (limit offset : Z) (l : list R) :
  0 <= limit -> 0 <= offset ->
  exists first second both,
    postgres.limit_offset limit offset l = Ok first /\
    postgres.limit_offset limit (offset + limit) l = Ok second /\
    postgres.limit_offset (limit + limit) offset l = Ok both /\
    both = (first ++ second)%list.
Proof.
  intros Hl Ho. unfold postgres.limit_offset.
  repeat match goal with
         | |- context [?a <? ?b] => destruct (Z.ltb_spec a b); try lia
         end.
  eexists _, _, _. repeat split.
  rewrite !Z2Nat.inj_add by lia.
  rewrite <- drop_drop. symmetry. apply take_take_drop.
Qed.

End pages.

(** Properties of the rows carry over to the scanned items. *)
Lemma Forall2_Forall_r {R A} (S : R -> A -> Prop) (P : R -> Prop) (Q : A -> Prop)
    (rows : list R) (items : list A) :
  Forall2 S rows items -> Forall P rows -> (forall r i, S r i -> P r -> Q i) ->
  Forall Q items.
Proof.
  intros Hs Hp Hpq. induction Hs as [| r i rows items Hri _ IH]; [constructor |].
  apply Forall_cons in Hp as [Hr Hp]. constructor; eauto.
Qed.

Lemma Forall2_sorted {R A} (S : R -> A -> Prop) (L : R -> R -> Prop) (L' : A -> A -> Prop)
    (rows : list R) (items : list A) :
  StronglySorted L rows -> Forall2 S rows items ->
  (forall r r' i i', S r i -> S r' i' -> L r r' -> L' i i') ->
  StronglySorted L' items.
Proof.
  intros Hst Hs HL. revert items Hs.
  induction Hst as [| r rows Hst IH Hr]; intros items Hs.
  - apply Forall2_nil_inv_l in Hs as ->. constructor.
  - apply Forall2_cons_inv_l in Hs as (i & items' & Hi & Hs' & ->).
    constructor; [now apply IH |].
    eapply Forall2_Forall_r; [exact Hs' | exact Hr |]. intros r' i' Hri' Hrr'. eauto.
Qed.

(** ** The repository's SELECT queries *)

Section select_queries.
Context `{!Json, !Env}.

(** What a query that returns a slice amounts to. *)
Lemma collect_query_inv {R A} (query : postgres.Database -> result (list R))
    (what_query what_scan what_rows : string) (scan : R -> result A) (w : World) :
  match (rows ← db_Query query;
         repository.collect what_query what_scan what_rows scan rows) w with
  | Done (Ok items) w' =>
      exists rows,
        query (db w) = Ok rows /\
        repository.scan_rows scan rows = Ok items /\
        w' = tick (tick w)
  | Done (Err _) w' =>
      db w' = db w /\ producer_calls w' = producer_calls w /\ log w' = log w
  | Panicked _ _ => False
  end.
Proof.
  unfold repository.collect, mbind, M_bind, db_Query, rows_Err, mret, M_ret.
  destruct (db_fault (steps w)); simpl; [auto |].
  destruct (query (db w)) as [rows |] eqn:Hq; simpl; [| auto].
  destruct (repository.scan_rows scan rows) as [items |] eqn:Hs; simpl; [| auto].
  destruct (db_fault (S (steps w))); simpl; [auto |].
  exists rows. auto.
Qed.

Lemma collect_query_Ok {R A} (query : postgres.Database -> result (list R))
    (what_query what_scan what_rows : string) (scan : R -> result A) (w : World)
    (rows : list R) (items : list A) :
  db_fault (steps w) = None -> db_fault (S (steps w)) = None ->
  query (db w) = Ok rows -> repository.scan_rows scan rows = Ok items ->
  (rows ← db_Query query;
   repository.collect what_query what_scan what_rows scan rows) w
  = Done (Ok items) (tick (tick w)).
Proof.
  intros Hf Hf' Hq Hs.
  unfold repository.collect, mbind, M_bind, db_Query, rows_Err, mret, M_ret.
  rewrite Hf, Hq. simpl. rewrite Hs. simpl. now rewrite Hf'.
Qed.

(** Scanning a notification row copies its columns; only the metadata is
    decoded. *)
Lemma scan_notification_inv (r : postgres.notifications_row.t) (n : models.Notification.t) :
  repository.scan_notification r = Ok n ->
  repository.jsonb_scan "8" "metadata" (postgres.notifications_row.metadata r)
    = Ok (models.Notification.Metadata n) /\
  n = models.Notification.mk
        (postgres.notifications_row.id r) (postgres.notifications_row.user_id r)
        (postgres.notifications_row.type_ r) (postgres.notifications_row.channel r)
        (postgres.notifications_row.priority r) (postgres.notifications_row.template_id r)
        (postgres.notifications_row.title r) (postgres.notifications_row.message r)
        (models.Notification.Metadata n) (postgres.notifications_row.dedupe_key r)
        (postgres.notifications_row.created_at r) (postgres.notifications_row.scheduled_for r)
        (postgres.notifications_row.sent_at r) (postgres.notifications_row.delivered_at r)
        (postgres.notifications_row.read_at r) (postgres.notifications_row.status r).
Proof.
  unfold repository.scan_notification.
  destruct (repository.jsonb_scan _ _ _) as [metadata |]; [| discriminate].
  intros [= <-]. simpl. auto.
Qed.

Lemma scan_rows_app {R A} (scan : R -> result A) (rows1 rows2 : list R)
    (items : list A) :
  repository.scan_rows scan (rows1 ++ rows2) = Ok items ->
  exists items1 items2,
    repository.scan_rows scan rows1 = Ok items1 /\
    repository.scan_rows scan rows2 = Ok items2 /\
    items = (items1 ++ items2)%list.
Proof.
  revert items. induction rows1 as [| r rows1 IH]; intros items Hs; simpl in *.
  - exists [], items. auto.
  - destruct (scan r) as [i |]; [| discriminate].
    destruct (repository.scan_rows scan (rows1 ++ rows2)) as [rest |] eqn:Hrest;
      [| discriminate].
    injection Hs as <-. destruct (IH rest eq_refl) as (i1 & i2 & -> & -> & ->).
    exists (i :: i1), i2. auto.
Qed.

(** X1. The page GetUserNotifications returns: only notifications of the
    user, newest first, at most [limit] of them; they are the scanned images
    of rows of the user such that the rows skipped by the offset are at least
    as new and the rows left out after the page at most as old as every
    returned one, and the page is full unless the user's rows are exhausted.
    The call never changes the tables. *)
Theorem GetUserNotifications_newest_first (userID : UUID) (limit offset : Z) (w : World) :
  match repository.GetUserNotifications userID limit offset w with
  | Done (Ok items) w' =>
      db w' = db w /\
      Forall (fun n => models.Notification.UserID n = userID) items /\
      StronglySorted
        (fun a b => models.Notification.CreatedAt b <= models.Notification.CreatedAt a)
        items /\
      Z.of_nat (length items) <= limit /\
      exists skipped rows rest,
        Forall2 (fun r i => repository.scan_notification r = Ok i) rows items /\
        filter (fun r => postgres.notifications_row.user_id r = userID)
          (postgres.notifications (db w)) ≡ₚ skipped ++ rows ++ rest /\
        length skipped
          = (Z.to_nat offset `min`
             length (filter (fun r => postgres.notifications_row.user_id r = userID)
                       (postgres.notifications (db w))))%nat /\
        (rest = [] \/ length items = Z.to_nat limit) /\
        Forall (fun s =>
                  Forall (fun i => models.Notification.CreatedAt i
                                   <= postgres.notifications_row.created_at s) items)
          skipped /\
        Forall (fun t =>
                  Forall (fun i => postgres.notifications_row.created_at t
                                   <= models.Notification.CreatedAt i) items)
          rest
  | Done (Err _) w' => db w' = db w
  | Panicked _ _ => False
  end.
Proof.
  unfold repository.GetUserNotifications.
  match goal with
  | |- match ?run w with _ => _ end =>
      pose proof (collect_query_inv
                    (fun d => postgres.limit_offset limit offset
                                (postgres.order_by
                                   (fun r => - postgres.notifications_row.created_at r)
                                   (filter (fun r => postgres.notifications_row.user_id r = userID)
                                      (postgres.notifications d))))
                    "failed to query user notifications" "failed to scan notification"
                    "error iterating notifications" repository.scan_notification w) as Hinv;
      destruct (run w) as [[items | e] w' | msg w']; [| tauto | tauto]
  end.
  destruct Hinv as (rows & Hq & Hs & ->).
  apply scan_rows_Forall2 in Hs.
  apply (limit_offset_page _ (fun r => - postgres.notifications_row.created_at r)) in Hq
    as (_ & _ & Huser & Hsorted & Hlen & skipped & rest & Hperm & Hskip & Hfull & Hnewer & Holder).
  assert (Hat : forall r i, repository.scan_notification r = Ok i ->
                  models.Notification.CreatedAt i = postgres.notifications_row.created_at r /\
                  models.Notification.UserID i = postgres.notifications_row.user_id r).
  { intros r i Hri. apply scan_notification_inv in Hri as [_ ->]. auto. }
  split; [reflexivity |]. split; [| split; [| split]].
  - eapply Forall2_Forall_r; [exact Hs | exact Huser |].
    intros r i Hri Hr. destruct (Hat r i Hri) as [_ ->]. exact Hr.
  - eapply Forall2_sorted; [exact Hsorted | exact Hs |].
    intros r r' i i' Hri Hri' Hrr'. unfold by_key in Hrr'.
    destruct (Hat r i Hri) as [-> _]. destruct (Hat r' i' Hri') as [-> _]. lia.
  - rewrite <- (Forall2_length _ _ _ Hs). exact Hlen.
  - exists skipped, rows, rest. split; [exact Hs |]. split; [exact Hperm |].
    split; [exact Hskip |].
    split; [rewrite <- (Forall2_length _ _ _ Hs); exact Hfull |]. split.
    + eapply Forall_impl; [exact Hnewer |]. intros s Hrows. simpl in Hrows.
      eapply Forall2_Forall_r; [exact Hs | exact Hrows |].
      intros r i Hri Hr. simpl in Hr. destruct (Hat r i Hri) as [-> _]. lia.
    + eapply Forall_impl; [exact Holder |]. intros t Hrows. simpl in Hrows.
      eapply Forall2_Forall_r; [exact Hs | exact Hrows |].
      intros r i Hri Hr. simpl in Hr. destruct (Hat r i Hri) as [-> _]. lia.
Qed.

(** X3. GetNotificationsByStatus returns only notifications of the given
    status, oldest first, at most [limit] of them; they are the scanned
    images of rows of that status, no row of that status left out is older
    than a returned one, and the batch is full unless all rows of the status
    are in it.  The call never changes the tables. *)
Theorem GetNotificationsByStatus_oldest_first (status : models.DeliveryStatus) (limit : Z)
    (w : World) :
  match repository.GetNotificationsByStatus status limit w with
  | Done (Ok items) w' =>
      db w' = db w /\
      Forall (fun n => models.Notification.Status n = status) items /\
      StronglySorted (by_key models.Notification.CreatedAt) items /\
      Z.of_nat (length items) <= limit /\
      exists rows rest,
        Forall2 (fun r i => repository.scan_notification r = Ok i) rows items /\
        filter (fun r => postgres.notifications_row.status r = status)
          (postgres.notifications (db w)) ≡ₚ rows ++ rest /\
        (rest = [] \/ length items = Z.to_nat limit) /\
        Forall (fun t =>
                  Forall (fun i => models.Notification.CreatedAt i
                                   <= postgres.notifications_row.created_at t) items)
          rest
  | Done (Err _) w' => db w' = db w
  | Panicked _ _ => False
  end.
Proof.
  unfold repository.GetNotificationsByStatus.
  match goal with
  | |- match ?run w with _ => _ end =>
      pose proof (collect_query_inv
                    (fun d => postgres.limit_offset limit 0
                                (postgres.order_by postgres.notifications_row.created_at
                                   (filter (fun r => postgres.notifications_row.status r = status)
                                      (postgres.notifications d))))
                    "failed to query notifications by status" "failed to scan notification"
                    "error iterating notifications" repository.scan_notification w) as Hinv;
      destruct (run w) as [[items | e] w' | msg w']; [| tauto | tauto]
  end.
  destruct Hinv as (rows & Hq & Hs & ->).
  apply scan_rows_Forall2 in Hs.
  apply (limit_offset_page _ postgres.notifications_row.created_at) in Hq
    as (_ & _ & Hstatus & Hsorted & Hlen & skipped & rest & Hperm & Hskip & Hfull & _ & Holder).
  simpl in Hskip. apply nil_length_inv in Hskip. subst skipped. simpl in Hperm.
  assert (Hat : forall r i, repository.scan_notification r = Ok i ->
                  models.Notification.CreatedAt i = postgres.notifications_row.created_at r /\
                  models.Notification.Status i = postgres.notifications_row.status r).
  { intros r i Hri. apply scan_notification_inv in Hri as [_ ->]. auto. }
  split; [reflexivity |]. split; [| split; [| split]].
  - eapply Forall2_Forall_r; [exact Hs | exact Hstatus |].
    intros r i Hri Hr. destruct (Hat r i Hri) as [_ ->]. exact Hr.
  - eapply Forall2_sorted; [exact Hsorted | exact Hs |].
    intros r r' i i' Hri Hri' Hrr'. unfold by_key in *.
    destruct (Hat r i Hri) as [-> _]. destruct (Hat r' i' Hri') as [-> _]. exact Hrr'.
  - rewrite <- (Forall2_length _ _ _ Hs). exact Hlen.
  - exists rows, rest. split; [exact Hs |]. split; [exact Hperm |].
    split; [rewrite <- (Forall2_length _ _ _ Hs); exact Hfull |].
    eapply Forall_impl; [exact Holder |]. intros t Hrows. simpl in Hrows.
    eapply Forall2_Forall_r; [exact Hs | exact Hrows |].
    intros r i Hri Hr. simpl in Hr. destruct (Hat r i Hri) as [-> _]. exact Hr.
Qed.

Lemma is_due_spec (before : Time) (r : postgres.notifications_row.t) :
  repository.is_due before r = true <->
  exists t, postgres.notifications_row.scheduled_for r = Some t /\ t <= before /\
            postgres.notifications_row.status r = models.StatusQueued.
Proof.
  unfold repository.is_due.
  destruct (postgres.notifications_row.scheduled_for r) as [t |].
  - rewrite andb_true_iff, Z.leb_le, String.eqb_eq. split.
    + intros [Ht Hst]. eauto.
    + intros (t' & [= <-] & Ht & Hst). auto.
  - split; [discriminate | intros (t & Ht & _); discriminate].
Qed.

(** X4. GetScheduledNotifications returns only notifications that are still
    queued and whose scheduled time is set and not after [before], earliest
    scheduled first, at most [limit] of them; no due row left out is
    scheduled earlier than a returned one, and the batch is full unless all
    due rows are in it.  The call never changes the tables. *)
Theorem GetScheduledNotifications_due_only (before : Time) (limit : Z) (w : World) :
  match repository.GetScheduledNotifications before limit w with
  | Done (Ok items) w' =>
      db w' = db w /\
      Forall (fun n => exists t, models.Notification.ScheduledFor n = Some t /\ t <= before /\
                                 models.Notification.Status n = models.StatusQueued) items /\
      StronglySorted (by_key (fun n => default 0 (models.Notification.ScheduledFor n))) items /\
      Z.of_nat (length items) <= limit /\
      exists rows rest,
        Forall2 (fun r i => repository.scan_notification r = Ok i) rows items /\
        filter (fun r => repository.is_due before r = true)
          (postgres.notifications (db w)) ≡ₚ rows ++ rest /\
        (rest = [] \/ length items = Z.to_nat limit) /\
        Forall (fun t =>
                  Forall (fun i => default 0 (models.Notification.ScheduledFor i)
                                   <= default 0 (postgres.notifications_row.scheduled_for t))
                    items)
          rest
  | Done (Err _) w' => db w' = db w
  | Panicked _ _ => False
  end.
Proof.
  unfold repository.GetScheduledNotifications.
  match goal with
  | |- match ?run w with _ => _ end =>
      pose proof (collect_query_inv
                    (fun d => postgres.limit_offset limit 0
                                (postgres.order_by
                                   (fun r => default 0 (postgres.notifications_row.scheduled_for r))
                                   (filter (fun r => repository.is_due before r = true)
                                      (postgres.notifications d))))
                    "failed to query scheduled notifications" "failed to scan notification"
                    "error iterating scheduled notifications"
                    repository.scan_notification w) as Hinv;
      destruct (run w) as [[items | e] w' | msg w']; [| tauto | tauto]
  end.
  destruct Hinv as (rows & Hq & Hs & ->).
  apply scan_rows_Forall2 in Hs.
  apply (limit_offset_page _
           (fun r => default 0 (postgres.notifications_row.scheduled_for r))) in Hq
    as (_ & _ & Hdue & Hsorted & Hlen & skipped & rest & Hperm & Hskip & Hfull & _ & Holder).
  simpl in Hskip. apply nil_length_inv in Hskip. subst skipped. simpl in Hperm.
  assert (Hat : forall r i, repository.scan_notification r = Ok i ->
                  models.Notification.ScheduledFor i = postgres.notifications_row.scheduled_for r /\
                  models.Notification.Status i = postgres.notifications_row.status r).
  { intros r i Hri. apply scan_notification_inv in Hri as [_ ->]. auto. }
  split; [reflexivity |]. split; [| split; [| split]].
  - eapply Forall2_Forall_r; [exact Hs | exact Hdue |].
    intros r i Hri Hr. destruct (Hat r i Hri) as [-> ->]. now apply is_due_spec.
  - eapply Forall2_sorted; [exact Hsorted | exact Hs |].
    intros r r' i i' Hri Hri' Hrr'. unfold by_key in *.
    destruct (Hat r i Hri) as [-> _]. destruct (Hat r' i' Hri') as [-> _]. exact Hrr'.
  - rewrite <- (Forall2_length _ _ _ Hs). exact Hlen.
  - exists rows, rest. split; [exact Hs |]. split; [exact Hperm |].
    split; [rewrite <- (Forall2_length _ _ _ Hs); exact Hfull |].
    eapply Forall_impl; [exact Holder |]. intros t Hrows. simpl in Hrows.
    eapply Forall2_Forall_r; [exact Hs | exact Hrows |].
    intros r i Hri Hr. simpl in Hr. destruct (Hat r i Hri) as [-> _]. exact Hr.
Qed.

End select_queries.

(** ** Pages over distinct creation times *)

Lemma sorted_weaken {A : Type} (R R' : A -> A -> Prop) (l : list A) :
  (forall a b, R a b -> R' a b) -> StronglySorted R l -> StronglySorted R' l.
Proof.
  intros Himpl. induction 1 as [| x l _ IH Hx]; constructor; [exact IH |].
  eapply Forall_impl; [exact Hx | auto].
Qed.

Section one_order.
Context {A : Type} (key : A -> Z).

(** A selection whose keys are pairwise distinct has one sorted order. *)
Lemma sorted_order_unique (l1 l2 : list A) :
  (forall x y, x ∈ l1 -> y ∈ l1 -> key x = key y -> x = y) ->
  l1 ≡ₚ l2 ->
  StronglySorted (by_key key) l1 -> StronglySorted (by_key key) l2 ->
  l1 = l2.
Proof.
  revert l2. induction l1 as [| x l1 IH]; intros l2 Hinj Hperm Hs1 Hs2.
  - now apply Permutation_nil in Hperm.
  - destruct l2 as [| y l2]; [symmetry in Hperm; now apply Permutation_nil in Hperm |].
    apply StronglySorted_inv in Hs1 as [Hs1 Hx]. apply StronglySorted_inv in Hs2 as [Hs2 Hy].
    assert (Hyin : y ∈ x :: l1) by (rewrite Hperm; apply list_elem_of_here).
    assert (Hxin : x ∈ y :: l2) by (rewrite <- Hperm; apply list_elem_of_here).
    assert (Hxy : key x <= key y).
    { apply elem_of_cons in Hyin as [-> | Hyin]; [lia |].
      rewrite Forall_forall in Hx. exact (Hx y Hyin). }
    assert (Hyx : key y <= key x).
    { apply elem_of_cons in Hxin as [-> | Hxin]; [lia |].
      rewrite Forall_forall in Hy. exact (Hy x Hxin). }
    assert (x = y) as <-.
    { apply Hinj; [apply list_elem_of_here | exact Hyin | lia]. }
    f_equal. apply IH; [| now apply Permutation_cons_inv in Hperm | exact Hs1 | exact Hs2].
    intros a b Ha Hb. apply Hinj; now apply list_elem_of_further.
Qed.

End one_order.

Section distinct_pages.
Context `{!Json, !Env}.

(** X2. Consecutive pages tile the notifications of a user whose
    notifications have pairwise distinct creation times: when the table is
    the same for the three calls, the page of [limit + limit] entries at
    [offset] is the page of [limit] at [offset] followed by the page of
    [limit] at [offset + limit], so paging neither repeats nor loses an
    entry.  The pages are slices of the one newest-first order of the
    user's rows, whichever way the database sorts. *)
Theorem GetUserNotifications_distinct_pages_tile (userID : UUID) (limit offset : Z)
    (w1 w2 w3 w1' w2' w3' : World) (first second both : list models.Notification.t) :
  NoDup (postgres.notifications_row.created_at <$>
           filter (fun r => postgres.notifications_row.user_id r = userID)
             (postgres.notifications (db w1))) ->
  db w2 = db w1 -> db w3 = db w1 ->
  repository.GetUserNotifications userID limit offset w1 = Done (Ok first) w1' ->
  repository.GetUserNotifications userID limit (offset + limit) w2 = Done (Ok second) w2' ->
  repository.GetUserNotifications userID (limit + limit) offset w3 = Done (Ok both) w3' ->
  both = (first ++ second)%list /\
  forall newest_first,
    newest_first ≡ₚ filter (fun r => postgres.notifications_row.user_id r = userID)
                      (postgres.notifications (db w1)) ->
    StronglySorted (fun a b => postgres.notifications_row.created_at b
                               <= postgres.notifications_row.created_at a) newest_first ->
    Forall2 (fun r i => repository.scan_notification r = Ok i)
      (take (Z.to_nat limit) (drop (Z.to_nat offset) newest_first)) first /\
    Forall2 (fun r i => repository.scan_notification r = Ok i)
      (take (Z.to_nat limit) (drop (Z.to_nat (offset + limit)) newest_first)) second.
Proof.
  intros Hdistinct Hdb2 Hdb3 H1 H2 H3.
  set (mine := filter (fun r => postgres.notifications_row.user_id r = userID)
                 (postgres.notifications (db w1))) in *.
  set (selection := postgres.order_by
                      (fun r => - postgres.notifications_row.created_at r) mine).
  assert (Hcall : forall l o w w' items,
            db w = db w1 ->
            repository.GetUserNotifications userID l o w = Done (Ok items) w' ->
            exists rows,
              postgres.limit_offset l o selection = Ok rows /\
              repository.scan_rows repository.scan_notification rows = Ok items).
  { intros l o w w' items Hdb Hrun. unfold repository.GetUserNotifications in Hrun.
    pose proof (collect_query_inv
                  (fun d => postgres.limit_offset l o
                              (postgres.order_by
                                 (fun r => - postgres.notifications_row.created_at r)
                                 (filter (fun r => postgres.notifications_row.user_id r = userID)
                                    (postgres.notifications d))))
                  "failed to query user notifications" "failed to scan notification"
                  "error iterating notifications" repository.scan_notification w) as Hinv.
    rewrite Hrun in Hinv. destruct Hinv as (rows & Hq & Hs & _).
    rewrite Hdb in Hq. eauto. }
  destruct (Hcall _ _ _ _ _ eq_refl H1) as (rows1 & Hq1 & Hs1).
  destruct (Hcall _ _ _ _ _ Hdb2 H2) as (rows2 & Hq2 & Hs2).
  destruct (Hcall _ _ _ _ _ Hdb3 H3) as (rows3 & Hq3 & Hs3).
  assert (Hbounds : 0 <= limit /\ 0 <= offset).
  { unfold postgres.limit_offset in Hq1.
    destruct (Z.ltb_spec limit 0); [discriminate |].
    destruct (Z.ltb_spec offset 0); [discriminate |]. lia. }
  split.
  - destruct (limit_offset_next_page limit offset selection (proj1 Hbounds) (proj2 Hbounds))
      as (r1 & r2 & r3 & Hr1 & Hr2 & Hr3 & ->).
    rewrite Hq1 in Hr1. rewrite Hq2 in Hr2. rewrite Hq3 in Hr3.
    injection Hr1 as <-. injection Hr2 as <-. injection Hr3 as ->.
    apply scan_rows_app in Hs3 as (i1 & i2 & Hi1 & Hi2 & ->). congruence.
  - intros newest_first Hperm Hsorted.
    assert (newest_first = selection) as ->.
    { apply (sorted_order_unique (fun r => - postgres.notifications_row.created_at r)).
      - intros x y Hx Hy Hkey. rewrite Hperm in Hx, Hy.
        apply (NoDup_fmap_inj postgres.notifications_row.created_at mine x y
                 Hdistinct Hx Hy). apply Z.opp_inj. exact Hkey.
      - rewrite Hperm. symmetry. apply order_by_Permutation.
      - eapply sorted_weaken; [| exact Hsorted].
        intros a b Hab. unfold by_key. simpl in *. lia.
      - apply order_by_sorted. }
    unfold postgres.limit_offset in Hq1, Hq2.
    destruct (Z.ltb_spec limit 0); [discriminate |].
    destruct (Z.ltb_spec offset 0); [discriminate |].
    destruct (Z.ltb_spec (offset + limit) 0); [discriminate |].
    injection Hq1 as <-. injection Hq2 as <-.
    split; now apply scan_rows_Forall2.
Qed.

End distinct_pages.

Section lookups.
Context `{!Json, !Env}.

Lemma scan_rows_Err {R B} (scan : R -> result B) (rows : list R) (e : error) :
  repository.scan_rows scan rows = Err e -> exists r, r ∈ rows /\ scan r = Err e.
Proof.
  induction rows as [| r rows IH]; simpl; [discriminate |].
  destruct (scan r) as [i | e'] eqn:Hr.
  - destruct (repository.scan_rows scan rows) as [items | e'']; [discriminate |].
    intros [= <-]. destruct (IH eq_refl) as (r' & Hin & Hr').
    exists r'. split; [now apply list_elem_of_further | exact Hr'].
  - intros [= <-]. exists r. split; [apply list_elem_of_here | exact Hr].
Qed.

(** A template row scans exactly when none of its nullable columns that Go
    reads into plain fields is NULL. *)
Lemma scan_template_inv (r : postgres.templates_row.t) :
  match repository.scan_template r with
  | Ok t =>
      postgres.templates_row.locale r = Some (models.NotificationTemplate.Locale t) /\
      postgres.templates_row.priority r = Some (models.NotificationTemplate.Priority t) /\
      postgres.templates_row.is_active r = Some (models.NotificationTemplate.IsActive t) /\
      postgres.templates_row.version r = Some (models.NotificationTemplate.Version t) /\
      postgres.templates_row.created_at r = Some (models.NotificationTemplate.CreatedAt t) /\
      models.NotificationTemplate.ID t = postgres.templates_row.id r /\
      models.NotificationTemplate.Type_ t = postgres.templates_row.type_ r /\
      models.NotificationTemplate.Channel t = postgres.templates_row.channel r /\
      models.NotificationTemplate.Title t = postgres.templates_row.title r /\
      models.NotificationTemplate.Body t = postgres.templates_row.body r
  | Err _ =>
      postgres.templates_row.locale r = None \/ postgres.templates_row.priority r = None \/
      postgres.templates_row.is_active r = None \/ postgres.templates_row.version r = None \/
      postgres.templates_row.created_at r = None
  end.
Proof.
  unfold repository.scan_template.
  destruct (postgres.templates_row.locale r); [| tauto].
  destruct (postgres.templates_row.priority r); [| tauto].
  destruct (postgres.templates_row.is_active r); [| tauto].
  destruct (postgres.templates_row.version r); [| tauto].
  destruct (postgres.templates_row.created_at r); [| tauto].
  simpl. repeat split.
Qed.

(** X5. GetNotificationTemplates returns exactly the active templates of the
    given type and channel (each once), highest version first.  It never
    changes the tables, and it fails only when the database does or when a
    selected row holds NULL in locale, priority, version or created_at,
    columns the schema leaves nullable and the code scans into plain
    fields. *)
Theorem GetNotificationTemplates_active_latest_first
    (notificationType : models.NotificationType) (channel : models.NotificationChannel)
    (w : World) :
  let selected (r : postgres.templates_row.t) :=
    postgres.templates_row.type_ r = notificationType /\
    postgres.templates_row.channel r = channel /\
    postgres.templates_row.is_active r = Some true in
  match repository.GetNotificationTemplates notificationType channel w with
  | Done (Ok items) w' =>
      db w' = db w /\
      Forall (fun t => models.NotificationTemplate.Type_ t = notificationType /\
                       models.NotificationTemplate.Channel t = channel /\
                       models.NotificationTemplate.IsActive t = true) items /\
      StronglySorted
        (fun a b => models.NotificationTemplate.Version b <= models.NotificationTemplate.Version a)
        items /\
      exists rows,
        Forall2 (fun r i => repository.scan_template r = Ok i) rows items /\
        rows ≡ₚ filter selected (postgres.notification_templates (db w))
  | Done (Err _) w' =>
      db w' = db w /\
      (is_Some (db_fault (steps w)) \/ is_Some (db_fault (S (steps w))) \/
       exists r,
         r ∈ postgres.notification_templates (db w) /\ selected r /\
         (postgres.templates_row.locale r = None \/
          postgres.templates_row.priority r = None \/
          postgres.templates_row.version r = None \/
          postgres.templates_row.created_at r = None))
  | Panicked _ _ => False
  end.
Proof.
  intros selected. unfold repository.GetNotificationTemplates.
  unfold repository.collect, mbind, M_bind, db_Query, rows_Err, mret, M_ret.
  destruct (db_fault (steps w)) eqn:Hf; simpl; [split; [reflexivity | left; eauto] |].
  set (chosen := filter _ (postgres.notification_templates (db w))).
  set (key := fun r : postgres.templates_row.t => - default 0 (postgres.templates_row.version r)).
  set (nulls := filter (fun r => postgres.templates_row.version r = None) chosen).
  set (versioned := filter (fun r => postgres.templates_row.version r <> None) chosen).
  assert (Hperm : (nulls ++ postgres.order_by key versioned)%list ≡ₚ chosen).
  { rewrite order_by_Permutation. apply filter_app_complement. }
  destruct (repository.scan_rows repository.scan_template
              (nulls ++ postgres.order_by key versioned)) as [items | e] eqn:Hitems; simpl.
  - destruct (db_fault (S (steps w))) eqn:Hf'; simpl;
      [split; [reflexivity | right; left; eauto] |].
    apply scan_rows_Forall2 in Hitems.
    assert (Hnone : nulls = []).
    { destruct nulls as [| r rest] eqn:Hn; [reflexivity |].
      assert (Hr : r ∈ nulls) by (rewrite Hn; apply list_elem_of_here).
      apply list_elem_of_filter in Hr as [Hr _].
      apply Forall2_cons_inv_l in Hitems as (i & items' & Hri & _ & _).
      pose proof (scan_template_inv r) as Hinv. rewrite Hri in Hinv.
      destruct Hinv as (_ & _ & _ & Hv & _). congruence. }
    rewrite Hnone in Hitems, Hperm. simpl in Hitems, Hperm.
    assert (Hat : forall r i, repository.scan_template r = Ok i ->
              postgres.templates_row.version r = Some (models.NotificationTemplate.Version i) /\
              postgres.templates_row.is_active r = Some (models.NotificationTemplate.IsActive i) /\
              models.NotificationTemplate.Type_ i = postgres.templates_row.type_ r /\
              models.NotificationTemplate.Channel i = postgres.templates_row.channel r).
    { intros r i Hri. pose proof (scan_template_inv r) as Hinv. rewrite Hri in Hinv.
      tauto. }
    split; [reflexivity |]. split; [| split].
    + eapply Forall2_Forall_r; [exact Hitems | |].
      * apply Forall_forall. intros r Hr. rewrite Hperm in Hr.
        apply list_elem_of_filter in Hr as [Hr _]. exact Hr.
      * intros r i Hri (Ht & Hc & Ha). destruct (Hat r i Hri) as (_ & Ha' & -> & ->).
        split; [exact Ht |]. split; [exact Hc |]. congruence.
    + eapply Forall2_sorted; [apply order_by_sorted | exact Hitems |].
      intros r r' i i' Hri Hri' Hrr'. unfold by_key, key in Hrr'.
      destruct (Hat r i Hri) as (Hv & _). destruct (Hat r' i' Hri') as (Hv' & _).
      rewrite Hv, Hv' in Hrr'. simpl in Hrr'. lia.
    + exists (postgres.order_by key versioned). split; [exact Hitems | exact Hperm].
  - split; [reflexivity |]. right. right.
    apply scan_rows_Err in Hitems as (r & Hr & Herr). rewrite Hperm in Hr.
    apply list_elem_of_filter in Hr as [Hsel Hin].
    exists r. split; [exact Hin |]. split; [exact Hsel |].
    pose proof (scan_template_inv r) as Hinv. rewrite Herr in Hinv.
    destruct Hsel as (_ & _ & Ha). rewrite Ha in Hinv.
    destruct Hinv as [? | [? | [? | [? | ?]]]]; try discriminate; tauto.
Qed.

(** X6. GetNotificationByID of an id the table does not hold reports that
    the notification was not found, naming the id, and changes nothing. *)
Theorem GetNotificationByID_unknown (notificationID : UUID) (w : World) :
  db_fault (steps w) = None ->
  Forall (fun r => postgres.notifications_row.id r <> notificationID)
    (postgres.notifications (db w)) ->
  repository.GetNotificationByID notificationID w
  = Done (Err ("notification not found: " +:+ uuid_String notificationID)) (tick w).
Proof.
  intros Hf Hnone.
  unfold repository.GetNotificationByID, mbind, M_bind, db_Query, mret, M_ret.
  rewrite Hf.
  replace (filter (fun r => postgres.notifications_row.id r = notificationID)
             (postgres.notifications (db w))) with (@nil postgres.notifications_row.t);
    [reflexivity |].
  symmetry. induction Hnone as [| r rows Hr _ IH]; [reflexivity |].
  now rewrite filter_cons_False.
Qed.

(** X7. Insert, then look up.  After the repository's CreateNotification has
    written a notification under an id the table did not hold,
    GetNotificationByID of that id (the database answering) finds that row:
    it returns a notification with the id, user, type, channel, priority,
    template, title, message, dedupe key and status that were written,
    whose metadata is what Scan reads from the stored encoding of the
    written metadata, and whose sent, delivered and read times are unset, so
    that IsSent, IsDelivered and IsRead are false.  The lookup fails only
    when the stored metadata does not decode. *)
Theorem CreateNotification_then_GetNotificationByID
    (n : models.Notification.t) (w w1 : World) :
  repository.CreateNotification n w = Done None w1 ->
  Forall (fun r => postgres.notifications_row.id r <> models.Notification.ID n)
    (postgres.notifications (db w)) ->
  db_fault (steps w1) = None ->
  exists stored,
    repository.jsonb_arg (models.Notification.Metadata n) = Ok stored /\
    match repository.GetNotificationByID (models.Notification.ID n) w1 with
    | Done (Ok n') w2 =>
        w2 = tick w1 /\
        repository.jsonb_scan "8" "metadata" stored = Ok (models.Notification.Metadata n') /\
        models.Notification.ID n' = models.Notification.ID n /\
        models.Notification.UserID n' = models.Notification.UserID n /\
        models.Notification.Type_ n' = models.Notification.Type_ n /\
        models.Notification.Channel n' = models.Notification.Channel n /\
        models.Notification.Priority n' = models.Notification.Priority n /\
        models.Notification.TemplateID n' = models.Notification.TemplateID n /\
        models.Notification.Title n' = models.Notification.Title n /\
        models.Notification.Message n' = models.Notification.Message n /\
        models.Notification.DedupeKey n' = models.Notification.DedupeKey n /\
        models.Notification.Status n' = models.Notification.Status n /\
        models.Notification.SentAt n' = None /\
        models.Notification.DeliveredAt n' = None /\
        models.Notification.ReadAt n' = None /\
        models.IsSent n' = false /\ models.IsDelivered n' = false /\
        models.IsRead n' = false
    | Done (Err e) w2 =>
        w2 = tick w1 /\
        exists e0,
          repository.jsonb_scan "8" "metadata" stored = Err e0 /\
          e = "failed to get notification: " +:+ e0
    | Panicked _ _ => False
    end.
Proof.
  intros Hcreate Hfresh Hf.
  unfold repository.CreateNotification in Hcreate.
  destruct (repository.jsonb_arg (models.Notification.Metadata n)) as [stored |] eqn:Harg;
    [| discriminate].
  unfold repository.wrap, mbind, M_bind, mret, M_ret, db_Exec in Hcreate.
  destruct (db_fault (steps w)); [discriminate |]. simpl in Hcreate.
  injection Hcreate as <-.
  exists stored. split; [reflexivity |].
  unfold repository.GetNotificationByID, mbind, M_bind, db_Query, mret, M_ret.
  simpl in Hf. simpl. rewrite Hf. simpl.
  rewrite filter_app.
  replace (filter (fun r => postgres.notifications_row.id r = models.Notification.ID n)
             (postgres.notifications (db w))) with (@nil postgres.notifications_row.t).
  2: { symmetry. induction Hfresh as [| r rows Hr _ IH]; [reflexivity |].
       now rewrite filter_cons_False. }
  rewrite filter_cons_True by reflexivity. simpl.
  unfold repository.scan_notification. simpl.
  destruct (repository.jsonb_scan "8" "metadata" stored) as [metadata | e0]; simpl.
  - repeat split.
  - split; [reflexivity |]. now exists e0.
Qed.

End lookups.

(** ** The outbox: ids, clean ticks, repeated sends *)

Section outbox_ids.
Context `{!Json, !Env}.

Lemma outbox_change_fresh (d d' : postgres.Database) :
  outbox_change d d' -> outbox_ids_fresh d -> outbox_ids_fresh d'.
Proof.
  intros Hc [Hnd Hlt]. unfold outbox_ids_fresh.
  destruct Hc as [Hrows Hseq | f Hf Hrows Hseq | r Hr Hrows Hseq]; rewrite Hrows, Hseq.
  - auto.
  - split.
    + rewrite <- list_fmap_compose.
      erewrite (list_fmap_ext _ postgres.outbox_row.id); [exact Hnd |].
      intros i x _. apply Hf.
    + apply Forall_fmap. eapply Forall_impl; [exact Hlt |].
      intros x Hx. simpl. now rewrite Hf.
  - split.
    + rewrite fmap_app. apply NoDup_app. split; [exact Hnd |]. split.
      * intros i Hi Hi'. simpl in Hi'. apply list_elem_of_singleton in Hi'. subst i.
        apply list_elem_of_fmap in Hi as (x & Hx & Hin).
        rewrite Forall_forall in Hlt. specialize (Hlt x Hin). lia.
      * simpl. apply NoDup_singleton.
    + apply Forall_app. split.
      * eapply Forall_impl; [exact Hlt |]. intros x Hx. simpl in Hx. lia.
      * constructor; [lia | constructor].
Qed.

Ltac break_innermost :=
  match goal with
  | |- context [match ?x with _ => _ end] =>
      lazymatch x with
      | context [match _ with _ => _ end] => fail
      | _ => destruct x eqn:?; simpl
      end
  end.

Ltac run_repository :=
  unfold repository.collect, repository.wrap, mbind, M_bind, mret, M_ret,
    db_Exec, db_Query, rows_Err, time_Now, tick; simpl;
  repeat break_innermost;
  repeat match goal with
         | E : Ok _ = Ok _ |- _ => injection E as <-
         | E : Err _ = Ok _ |- _ => discriminate E
         | E : (if ?b then _ else _) = Ok _ |- _ => destruct b
         end; simpl.

Lemma mark_published_keeps_id (now : Time) (outboxID : Z) (r : postgres.outbox_row.t) :
  postgres.outbox_row.id
    (if postgres.outbox_row.id r =? outboxID then repository.set_published now r else r)
  = postgres.outbox_row.id r.
Proof. destruct (postgres.outbox_row.id r =? outboxID); reflexivity. Qed.

Lemma world_after_outbox_change (c : Call) (w : World) :
  outbox_change (db w) (db (world_after c w)).
Proof.
  destruct c; unfold world_after.
  - unfold repository.CreateNotification. run_repository; now apply outbox_same.
  - unfold repository.GetUserNotifications. run_repository; now apply outbox_same.
  - unfold repository.GetNotificationByID. run_repository; now apply outbox_same.
  - unfold repository.MarkAsRead, repository.update_notification.
    run_repository; now apply outbox_same.
  - unfold repository.MarkAsDelivered, repository.update_notification.
    run_repository; now apply outbox_same.
  - unfold repository.MarkAsSent, repository.update_notification.
    run_repository; now apply outbox_same.
  - unfold repository.GetUnpublishedOutbox. run_repository; now apply outbox_same.
  - unfold repository.MarkOutboxPublished, repository.mark_published.
    run_repository; try (now apply outbox_same).
    all: eapply outbox_marked; [apply mark_published_keeps_id | reflexivity | reflexivity].
  - unfold repository.CreateOutboxEntry, repository.insert_outbox.
    run_repository; try (now apply outbox_same).
    all: eapply outbox_inserted; [| reflexivity | reflexivity]; reflexivity.
  - unfold repository.GetUserPreferences. run_repository; now apply outbox_same.
  - unfold repository.UpdateUserPreferences, repository.upsert_preferences.
    run_repository; now apply outbox_same.
  - unfold repository.GetUserEngagementStreak. run_repository; now apply outbox_same.
  - unfold repository.UpdateUserEngagementStreak, repository.upsert_streak.
    run_repository; now apply outbox_same.
  - unfold repository.GetNotificationsByStatus. run_repository; now apply outbox_same.
  - unfold repository.GetScheduledNotifications. run_repository; now apply outbox_same.
  - unfold repository.CreateDeliveryAttempt. run_repository; now apply outbox_same.
  - unfold repository.GetNotificationTemplates. run_repository; now apply outbox_same.
Qed.

Lemma marked_rows_ids (ids : list Z) (before after : list postgres.outbox_row.t) :
  marked_rows ids before after ->
  postgres.outbox_row.id <$> after = postgres.outbox_row.id <$> before.
Proof.
  intros Hm. apply marked_rows_same_entry in Hm.
  induction Hm as [| r r' before after Hr _ IH]; [reflexivity |].
  rewrite !fmap_cons, IH. destruct Hr as (-> & _). reflexivity.
Qed.

Lemma ProcessOutbox_ids_fresh (w : World) :
  outbox_ids_fresh (db w) -> outbox_ids_fresh (db (final_world (services.ProcessOutbox w))).
Proof.
  intros [Hnd Hlt]. destruct (ProcessOutbox_frame w) as (Hdb & ids & Hmarked).
  unfold outbox_ids_fresh. rewrite Hdb. simpl.
  pose proof (marked_rows_ids _ _ _ Hmarked) as Hids.
  split; [now rewrite Hids |].
  apply Forall_forall. intros r' Hr'.
  assert (Hin : postgres.outbox_row.id r'
                ∈ postgres.outbox_row.id <$> postgres.outbox_notifications (db w)).
  { rewrite <- Hids. apply list_elem_of_fmap. eauto. }
  apply list_elem_of_fmap in Hin as (r & -> & Hr).
  rewrite Forall_forall in Hlt. now apply Hlt.
Qed.

(** X8. Distinct outbox ids are an invariant of the store: when the ids of
    the outbox rows are distinct and below the sequence, they still are
    after any call of the repository, after a ProcessOutbox tick and after
    services.CreateNotification. *)
Theorem outbox_ids_stay_distinct (w : World) :
  outbox_ids_fresh (db w) ->
  (forall c, outbox_ids_fresh (db (world_after c w))) /\
  outbox_ids_fresh (db (final_world (services.ProcessOutbox w))) /\
  (forall topic req,
      outbox_ids_fresh (db (final_world (services.CreateNotification topic req w)))).
Proof.
  intros Hfresh. split; [| split].
  - intros c. eapply outbox_change_fresh; [apply world_after_outbox_change | exact Hfresh].
  - now apply ProcessOutbox_ids_fresh.
  - intros topic req. unfold services.CreateNotification.
    destruct (models.IsValidNotificationType _); simpl; [| exact Hfresh].
    destruct (models.IsValidChannel _); simpl; [| exact Hfresh].
    unfold mbind, M_bind, uuid_New, time_Now, os_Getenv, mret, M_ret. simpl.
    match goal with
    | |- context [repository.CreateNotification ?n ?w2] =>
        pose proof (world_after_outbox_change (CallCreateNotification n) w2) as Hn;
        unfold world_after in Hn;
        destruct (repository.CreateNotification n w2) as [[e |] w3 | msg w3]; simpl in Hn;
        pose proof (outbox_change_fresh _ _ Hn Hfresh) as Hfresh3; simpl; try exact Hfresh3
    end.
    match goal with
    | |- context [repository.CreateOutboxEntry ?i ?w4] =>
        pose proof (world_after_outbox_change (CallCreateOutboxEntry i) w4) as Ho;
        unfold world_after in Ho;
        destruct (repository.CreateOutboxEntry i w4) as [[e |] w5 | msg w5]; simpl in Ho;
        pose proof (outbox_change_fresh _ _ Ho Hfresh3) as Hfresh5; simpl; try exact Hfresh5
    end.
    destruct (services.strings_EqualFold _ _); simpl; [| exact Hfresh5].
    pose proof (ProcessOutbox_ids_fresh w5 Hfresh5) as Hp.
    destruct (services.ProcessOutbox w5); simpl in *; exact Hp.
Qed.

End outbox_ids.

Section ticks.
Context `{!Json, !Env}.

(** A tick of ProcessOutbox that obtained its batch: it completed a prefix of
    [k] entries, the rows of that prefix are marked, and the next batch
    starts with the entries from [k] on. *)
Lemma ProcessOutbox_batch (w w' : World) (ret : option error)
    (items : list models.OutboxNotification.t) :
  NoDup (postgres.outbox_row.id <$> postgres.outbox_notifications (db w)) ->
  repository.GetUnpublishedOutbox 100 w = Done (Ok items) (tick (tick w)) ->
  services.ProcessOutbox w = Done ret w' ->
  exists (k : nat) (calls : list (ProducerMessage.t * result (Z * Z))),
    (k <= length items)%nat /\
    producer_calls w' = (producer_calls w ++ calls)%list /\
    Forall2 sent_ok (take k items) (take k calls) /\
    marked_rows (models.OutboxNotification.ID <$> take k items)
      (postgres.outbox_notifications (db w)) (postgres.outbox_notifications (db w')) /\
    (forall j item,
        (k <= j)%nat -> items !! j = Some item ->
        exists row,
          row ∈ postgres.outbox_notifications (db w') /\
          repository.scan_outbox row = Ok item /\
          postgres.outbox_row.published row = false) /\
    (forall items' w'',
        repository.GetUnpublishedOutbox 100 w' = Done (Ok items') w'' ->
        drop k items `prefix_of` items') /\
    (length (filter (fun r => postgres.outbox_row.published r = false)
               (postgres.outbox_notifications (db w))) <= 100 ->
     k = length items ->
     Forall (fun r => postgres.outbox_row.published r = true)
       (postgres.outbox_notifications (db w')))%nat /\
    match ret with
    | None => k = length items /\ length calls = k
    | Some e =>
        exists item value,
          items !! k = Some item /\ length calls = S k /\
          json_Marshal (models.OutboxNotification.Payload item) = Ok value /\
          ((exists e0, calls !! k = Some (services.message_of item value, Err e0) /\
                       e = "failed to send message to Kafka: " +:+ e0) \/
           (exists reply e0, calls !! k = Some (services.message_of item value, Ok reply) /\
                             e = "failed to mark outbox as published: " +:+ e0))
    end.
Proof.
  intros Hnd Hget Hrun.
  unfold services.ProcessOutbox, mbind, M_bind in Hrun. rewrite Hget in Hrun.
  pose proof (GetUnpublishedOutbox_inv 100 w) as Hinv. rewrite Hget in Hinv.
  destruct Hinv as (rows & Hq & Hscan & _).
  apply unpublished_rows_Ok in Hq as [_ Hrows].
  apply scan_rows_Forall2 in Hscan.
  destruct (publish_items_run items (tick (tick w)))
    as (k & calls & Hk & Hcalls & _ & Hmarked & Hsent & Hout).
  rewrite Hrun in *. simpl in Hcalls, Hmarked.
  set (unpublished := filter (fun r => postgres.outbox_row.published r = false)
                        (postgres.outbox_notifications (db w))) in *.
  set (sorted := postgres.order_by postgres.outbox_row.created_at unpublished) in *.
  assert (Hndsorted : NoDup (postgres.outbox_row.id <$> sorted))
    by now apply NoDup_sorted_unpublished.
  assert (Hlenrows : length rows = length items) by (eapply Forall2_length; exact Hscan).
  assert (Hk100 : (length rows <= 100)%nat) by (rewrite Hrows, length_take; lia).
  assert (Hids : models.OutboxNotification.ID <$> take k items
                 = postgres.outbox_row.id <$> take k sorted).
  { rewrite (scan_outbox_ids (take k rows) (take k items)) by now apply Forall2_take.
    rewrite Hrows, take_take. f_equal. f_equal. lia. }
  assert (Hndrows : NoDup (postgres.outbox_row.id <$> rows)).
  { eapply sublist_NoDup; [exact Hndsorted |]. rewrite Hrows.
    apply fmap_sublist, sublist_take. }
  assert (Hrowin : forall j r, rows !! j = Some r ->
                               r ∈ postgres.outbox_notifications (db w)).
  { intros j r Hr. apply list_elem_of_lookup_2 in Hr. rewrite Hrows in Hr.
    apply elem_of_take_order_by in Hr. now apply list_elem_of_filter in Hr as [_ Hr]. }
  exists k, calls. split; [exact Hk |]. split; [exact Hcalls |].
  split; [exact Hsent |]. split; [exact Hmarked |].
  split; [| split; [| split]].
  - intros j item Hj Hitem.
    destruct (Forall2_lookup_r _ _ _ _ _ Hscan Hitem) as (r & Hr & Hsr).
    destruct (proj1 (list_elem_of_lookup _ _) (Hrowin j r Hr)) as [p Hp].
    destruct (Forall2_lookup_l _ _ _ _ _ Hmarked Hp) as (r' & Hp' & Hr').
    simpl in Hr'. rewrite bool_decide_eq_false_2 in Hr'.
    + subst r'. exists r. split; [eapply list_elem_of_lookup_2; exact Hp' |].
      split; [exact Hsr |].
      assert (Hin : r ∈ unpublished).
      { apply (elem_of_take_order_by postgres.outbox_row.created_at (Z.to_nat 100)).
        change (r ∈ take (Z.to_nat 100) sorted). rewrite <- Hrows.
        eapply list_elem_of_lookup_2. exact Hr. }
      now apply list_elem_of_filter in Hin as [Hin _].
    + rewrite Hids. intros Hin.
      apply list_elem_of_fmap in Hin as (r0 & Hid0 & Hin0).
      apply list_elem_of_lookup in Hin0 as [j0 Hj0].
      rewrite lookup_take in Hj0. destruct (decide (j0 < k)%nat) as [Hlt |]; [| discriminate].
      assert (Hrow0 : rows !! j0 = Some r0).
      { rewrite Hrows, lookup_take.
        destruct (decide (j0 < Z.to_nat 100)%nat); [exact Hj0 | lia]. }
      assert (j0 = j); [| lia].
      eapply (NoDup_lookup (postgres.outbox_row.id <$> rows));
        [exact Hndrows | | ]; rewrite list_lookup_fmap.
      * rewrite Hrow0. simpl. now rewrite <- Hid0.
      * now rewrite Hr.
  - intros items' w'' Hnext.
    pose proof (GetUnpublishedOutbox_inv 100 w') as Hinv'. rewrite Hnext in Hinv'.
    destruct Hinv' as (rows' & Hq' & Hscan' & _).
    apply unpublished_rows_Ok in Hq' as [_ Hrows'].
    apply scan_rows_Forall2 in Hscan'.
    rewrite (filter_unpublished_marked _ _ _ Hmarked) in Hrows'.
    fold unpublished in Hrows'.
    rewrite <- (order_by_filter postgres.outbox_row.created_at) in Hrows'.
    fold sorted in Hrows'. rewrite Hids in Hrows'.
    rewrite (filter_not_in_take postgres.outbox_row.id sorted k Hndsorted) in Hrows'.
    assert (Hsplit : rows' = (drop k rows ++ take k (drop (Z.to_nat 100) sorted))%list).
    { rewrite Hrows', Hrows, take_drop_commute.
      rewrite (Nat.add_comm k), <- take_take_drop.
      rewrite drop_app_le; [reflexivity |]. rewrite <- Hrows. lia. }
    rewrite Hsplit in Hscan'.
    apply Forall2_app_inv_l in Hscan' as (ia & ib & Ha & _ & ->).
    rewrite <- (scan_outbox_functional _ _ _ (Forall2_drop _ _ _ k Hscan) Ha).
    apply prefix_app_r. reflexivity.
  - intros Hfew Hall.
    assert (Hnone : filter (fun r => postgres.outbox_row.published r = false)
                      (postgres.outbox_notifications (db w')) = []).
    { rewrite (filter_unpublished_marked _ _ _ Hmarked). fold unpublished.
      apply length_zero_iff_nil.
      rewrite <- (Permutation_length (order_by_Permutation postgres.outbox_row.created_at _)).
      rewrite <- (order_by_filter postgres.outbox_row.created_at). fold sorted.
      rewrite Hids, (filter_not_in_take postgres.outbox_row.id sorted k Hndsorted).
      rewrite length_drop.
      assert (length sorted = length unpublished)
        by apply Permutation_length, order_by_Permutation.
      assert (length rows = length sorted)
        by (rewrite Hrows, length_take; lia).
      lia. }
    apply Forall_forall. intros r Hr.
    destruct (postgres.outbox_row.published r) eqn:Hp; [reflexivity |].
    assert (Hin : r ∈ filter (fun r => postgres.outbox_row.published r = false)
                        (postgres.outbox_notifications (db w')))
      by (apply list_elem_of_filter; auto).
    rewrite Hnone in Hin. inversion Hin.
  - destruct ret as [e |]; exact Hout.
Qed.

Lemma all_published_none_unpublished (rows : list postgres.outbox_row.t) :
  Forall (fun r => postgres.outbox_row.published r = true) rows ->
  filter (fun r => postgres.outbox_row.published r = false) rows = [].
Proof.
  induction 1 as [| r rows Hr _ IH]; [reflexivity |].
  rewrite filter_cons_False by (rewrite Hr; discriminate). exact IH.
Qed.

Lemma sent_ok_broker_log (items : list models.OutboxNotification.t)
    (calls : list (ProducerMessage.t * result (Z * Z))) :
  Forall2 sent_ok items calls -> filter (fun c => is_Ok (snd c)) calls = calls.
Proof.
  induction 1 as [| item c items calls (value & reply & _ & ->) _ IH]; [reflexivity |].
  rewrite filter_cons_True by reflexivity. now rewrite IH.
Qed.

Lemma ProcessOutbox_obtained_batch (w w' : World) (ret : option error) :
  services.ProcessOutbox w = Done ret w' ->
  (exists items, repository.GetUnpublishedOutbox 100 w = Done (Ok items) (tick (tick w))) \/
  (producer_calls w' = producer_calls w /\ db w' = db w /\ is_Some ret).
Proof.
  intros Hrun. unfold services.ProcessOutbox, mbind, M_bind in Hrun.
  pose proof (GetUnpublishedOutbox_inv 100 w) as Hinv.
  destruct (repository.GetUnpublishedOutbox 100 w) as [[items | e1] w1 | m1 w1];
    [| | contradiction].
  - destruct Hinv as (rows & _ & _ & ->). left. eauto.
  - right. injection Hrun as <- <-. destruct Hinv as (Hdb & Hpc & _). eauto.
Qed.

(** X9. A tick of ProcessOutbox that returns nil has sent the message of
    every entry of its batch, once and in batch order, had each one
    acknowledged, and has marked exactly the rows of the batch as published.
    When the backlog was of at most 100 entries no unpublished row is left,
    and the tick that follows (the database answering) sends nothing. *)
Theorem ProcessOutbox_clean_tick (w w' : World) :
  NoDup (postgres.outbox_row.id <$> postgres.outbox_notifications (db w)) ->
  services.ProcessOutbox w = Done None w' ->
  exists items calls,
    repository.GetUnpublishedOutbox 100 w = Done (Ok items) (tick (tick w)) /\
    producer_calls w' = (producer_calls w ++ calls)%list /\
    Forall2 sent_ok items calls /\
    broker_log w' = (broker_log w ++ calls.*1)%list /\
    marked_rows (models.OutboxNotification.ID <$> items)
      (postgres.outbox_notifications (db w)) (postgres.outbox_notifications (db w')) /\
    ((length (filter (fun r => postgres.outbox_row.published r = false)
                (postgres.outbox_notifications (db w))) <= 100)%nat ->
     Forall (fun r => postgres.outbox_row.published r = true)
       (postgres.outbox_notifications (db w')) /\
     (db_fault (steps w') = None -> db_fault (S (steps w')) = None ->
      services.ProcessOutbox w' = Done None (tick (tick w')))).
Proof.
  intros Hnd Hrun.
  destruct (ProcessOutbox_obtained_batch _ _ _ Hrun) as [[items Hget] | (_ & _ & [e He])];
    [| discriminate].
  destruct (ProcessOutbox_batch w w' None items Hnd Hget Hrun)
    as (k & calls & _ & Hcalls & Hsent & Hmarked & _ & _ & Hdrain & -> & Hlen).
  rewrite firstn_all in Hsent, Hmarked.
  rewrite <- Hlen, firstn_all in Hsent.
  exists items, calls. split; [exact Hget |]. split; [exact Hcalls |].
  split; [exact Hsent |]. split; [| split; [exact Hmarked |]].
  - unfold broker_log. rewrite Hcalls, filter_app, fmap_app.
    now rewrite (sent_ok_broker_log _ _ Hsent).
  - intros Hfew. pose proof (Hdrain Hfew eq_refl) as Hall. split; [exact Hall |].
    intros Hf Hf'.
    unfold services.ProcessOutbox, repository.GetUnpublishedOutbox, repository.collect,
      mbind, M_bind, db_Query, rows_Err, mret, M_ret.
    rewrite Hf. rewrite unpublished_rows_eq by lia.
    rewrite (all_published_none_unpublished _ Hall).
    simpl. rewrite Hf'. reflexivity.
Qed.


End ticks.

(** ** The service's create paths *)

Section service_create.
Context `{!Json, !Env}.

Lemma CreateNotification_errors (n : models.Notification.t) (w w' : World) (e : error) :
  repository.CreateNotification n w = Done (Some e) w' ->
  exists e0, e = "failed to create notification: " +:+ e0 /\
             db w' = db w /\ producer_calls w' = producer_calls w.
Proof.
  unfold repository.CreateNotification, repository.wrap, mbind, M_bind, mret, M_ret, db_Exec.
  destruct (repository.jsonb_arg _) as [metadata | e1]; simpl.
  - destruct (db_fault (steps w)) as [e1 |]; simpl; [| discriminate].
    intros [= <- <-]. eauto.
  - intros [= <- <-]. eauto.
Qed.

Lemma CreateOutboxEntry_errors (item : models.OutboxNotification.t) (w w' : World)
    (e : error) :
  repository.CreateOutboxEntry item w = Done (Some e) w' ->
  exists e0, e = "failed to create outbox entry: " +:+ e0 /\
             db w' = db w /\ producer_calls w' = producer_calls w.
Proof.
  unfold repository.CreateOutboxEntry, repository.wrap, mbind, M_bind, mret, M_ret, db_Exec.
  destruct (repository.jsonb_arg _) as [payload | e1]; simpl.
  - destruct (db_fault (steps w)) as [e1 |]; simpl; [intros [= <- <-]; eauto |].
    destruct payload as [data |]; simpl; [discriminate |].
    intros [= <- <-]. eauto.
  - intros [= <- <-]. eauto.
Qed.

(** X11. The outcomes of services.CreateNotification.  On success the
    request was valid and the notification returned is the request's, with
    the id drawn and the time read at the start, status queued and every
    other field unset; the broker is contacted only when
    OUTBOX_IMMEDIATE_PUBLISH is set to true.  An error is one of four: an
    invalid type or an invalid channel (checked in that order, before
    anything is drawn, read or written: the world is untouched); a failed
    insert of the notification (nothing written); a failed insert of the
    outbox entry (the notification row stays).  The error of the repository
    is wrapped twice, and no error path contacts the broker. *)
Theorem CreateNotification_outcomes (topic : string)
    (req : models.CreateNotificationRequest.t) (w : World) :
  let type := models.CreateNotificationRequest.Type_ req in
  let channel := models.CreateNotificationRequest.Channel req in
  let immediate := services.strings_EqualFold (getenv "OUTBOX_IMMEDIATE_PUBLISH") "true" in
  match services.CreateNotification topic req w with
  | Done (Ok n) w' =>
      models.IsValidNotificationType type = true /\
      models.IsValidChannel channel = true /\
      n = models.Notification.mk (fresh_uuid (steps w))
            (models.CreateNotificationRequest.UserID req) type channel
            (models.CreateNotificationRequest.Priority req) None
            (models.CreateNotificationRequest.Title req)
            (models.CreateNotificationRequest.Message req)
            (models.CreateNotificationRequest.Metadata req) None
            (clock (S (steps w)))
            (models.CreateNotificationRequest.ScheduledFor req)
            None None None models.StatusQueued /\
      (immediate = false -> producer_calls w' = producer_calls w)
  | Done (Err e) w' =>
      producer_calls w' = producer_calls w /\
      ((models.IsValidNotificationType type = false /\
        e = "invalid notification type: " +:+ type /\ w' = w) \/
       (models.IsValidNotificationType type = true /\
        models.IsValidChannel channel = false /\
        e = "invalid notification channel: " +:+ channel /\ w' = w) \/
       (exists e0,
           e = "failed to create notification: " +:+ "failed to create notification: " +:+ e0 /\
           db w' = db w) \/
       (exists e0 row,
           e = "failed to create outbox entry: " +:+ "failed to create outbox entry: " +:+ e0 /\
           postgres.notifications (db w') = (postgres.notifications (db w) ++ [row])%list /\
           postgres.outbox_notifications (db w') = postgres.outbox_notifications (db w)))
  | Panicked _ _ => immediate = true
  end.
Proof.
  intros type channel immediate. unfold services.CreateNotification.
  fold type channel.
  destruct (models.IsValidNotificationType type) eqn:Htype; simpl; [| auto 10].
  destruct (models.IsValidChannel channel) eqn:Hchannel; simpl; [| auto 10].
  unfold mbind, M_bind, uuid_New, time_Now, os_Getenv, mret, M_ret. simpl.
  match goal with
  | |- context [repository.CreateNotification ?n ?w2] =>
      pose proof (CreateNotification_inv n w2) as Hn;
      pose proof (CreateNotification_errors n w2) as Hne;
      destruct (repository.CreateNotification n w2) as [[e |] w3 | msg w3];
      [| | contradiction]
  end.
  { destruct (Hne w3 e eq_refl) as (e0 & -> & Hdb & Hpc). simpl in *.
    split; [exact Hpc |]. right. right. left. eauto. }
  clear Hne. destruct Hn as [metadata ->]. simpl.
  match goal with
  | |- context [repository.CreateOutboxEntry ?i ?w4] =>
      pose proof (CreateOutboxEntry_inv i w4) as Ho;
      pose proof (CreateOutboxEntry_errors i w4) as Hoe;
      destruct (repository.CreateOutboxEntry i w4) as [[e |] w5 | msg w5];
      [| | contradiction]
  end.
  { destruct (Hoe w5 e eq_refl) as (e0 & -> & Hdb & Hpc). simpl in *.
    split; [exact Hpc |]. right. right. right.
    eexists e0, _. split; [reflexivity |]. rewrite Hdb. simpl. auto. }
  clear Hoe. destruct Ho as [data ->]. simpl. fold immediate.
  destruct immediate; simpl.
  - match goal with
    | |- context [services.ProcessOutbox ?w6] =>
        destruct (services.ProcessOutbox w6) as [ret w7 | msg w7]; simpl
    end; [| reflexivity].
    repeat split. discriminate.
  - repeat split.
Qed.

(** The practice streak GetUserEngagementStreak finds for a user. *)
Lemma GetUserEngagementStreak_inv (userID : UUID) (streakType : string) (w : World) :
  exists r,
    repository.GetUserEngagementStreak userID streakType w = Done r (tick w) /\
    match r with
    | Ok streak =>
        exists row,
          head (filter (fun r => postgres.streaks_row.user_id r = userID /\
                                 postgres.streaks_row.streak_type r = streakType)
                  (postgres.user_engagement_streaks (db w))) = Some row /\
          streak = repository.scan_streak row
    | Err _ => True
    end.
Proof.
  unfold repository.GetUserEngagementStreak, mbind, M_bind, db_Query, mret, M_ret,
    repository.first_row.
  destruct (db_fault (steps w)); simpl.
  { eexists (Err _). split; [reflexivity | exact I]. }
  destruct (head _) as [row |] eqn:Hrow; simpl.
  - eexists (Ok _). split; [reflexivity |]. eauto.
  - eexists (Err _). split; [reflexivity | exact I].
Qed.

(** X12. Neither the service's CreateStreakReminder nor the scheduler's
    createStreakReminder writes anything for a user whose practice streak is
    missing or zero: both return an error after the one query, and the
    tables, the broker and (for the service) the log are as before. *)
Theorem streak_reminder_needs_active_streak (topic : string) (user : models.User.t)
    (w : World) :
  Forall (fun r => postgres.streaks_row.user_id r = models.User.ID user ->
                   postgres.streaks_row.streak_type r = "practice" ->
                   postgres.streaks_row.current_streak r = 0)
    (postgres.user_engagement_streaks (db w)) ->
  (exists e, services.CreateStreakReminder topic user w = Done (Some e) (tick w)) /\
  (exists e, scheduler.createStreakReminder user w = Done (Some e) (tick w)).
Proof.
  intros Hzero.
  destruct (GetUserEngagementStreak_inv (models.User.ID user) "practice" w)
    as (r & Hget & Hr).
  assert (Hcur : match r with
                 | Ok streak => models.UserEngagementStreak.CurrentStreak streak = 0
                 | Err _ => True
                 end).
  { destruct r as [streak |]; [| exact I]. destruct Hr as (row & Hrow & ->).
    apply head_Some_elem_of, list_elem_of_filter in Hrow as [[Hu Ht] Hin].
    rewrite Forall_forall in Hzero. exact (Hzero row Hin Hu Ht). }
  split; [unfold services.CreateStreakReminder | unfold scheduler.createStreakReminder];
    unfold mbind at 1; unfold M_bind at 1; rewrite Hget;
    (destruct r as [streak | e]; [rewrite Hcur |]); simpl; unfold mret, M_ret; eauto.
Qed.

End service_create.

Section sibling_reminders.
Context `{!Json, !Env}.

Ltac break_scrutinee :=
  match goal with
  | |- context [match ?x with _ => _ end] =>
      lazymatch x with
      | context [match _ with _ => _ end] => fail
      | _ => destruct x eqn:?; simpl
      end
  end.

Ltac run_reminder :=
  unfold scheduler.enqueue;
  unfold repository.GetUserEngagementStreak, repository.CreateNotification,
    repository.CreateOutboxEntry, repository.insert_outbox, repository.wrap,
    repository.first_row,
    mbind, M_bind, mret, M_ret,
    db_Exec, db_Query, time_Now, uuid_New, log_Printf, tick; simpl;
  repeat break_scrutinee.

Lemma retopic_same (rows : list postgres.outbox_row.t) (topic : string) :
  (take (length rows) rows ++ (with_topic topic <$> drop (length rows) rows))%list = rows.
Proof. rewrite firstn_all, drop_all. apply app_nil_r. Qed.

Lemma retopic_added (rows : list postgres.outbox_row.t) (r : postgres.outbox_row.t)
    (topic : string) :
  (take (length rows) (rows ++ [r]) ++
   (with_topic topic <$> drop (length rows) (rows ++ [r])))%list
  = (rows ++ [with_topic topic r])%list.
Proof. now rewrite take_app_length, drop_app_length. Qed.

(** X13. The reminder the HTTP service creates and the one the scheduler
    creates are the same up to the topic of the outbox entry: from the same
    world, the service's CreateDailyReminder and the scheduler's
    createDailyReminder leave the same tables except that the outbox row
    the service adds is under the service's topic and the one the scheduler
    adds under the hard-coded topic notifications (so the tables are equal
    when that is the service's topic), the same broker history and the same
    number of interactions; likewise the two streak reminders.  They differ
    in what they report: when only the outbox entry cannot be written the
    service returns that error, the scheduler logs it and returns nil; every
    error the scheduler returns the service returns too. *)
Theorem reminders_agree (topic : string) (user : models.User.t) (w : World) :
  let agree (s c : outcome (option error)) (what : string) :=
    db (final_world s)
      = retopic (length (postgres.outbox_notifications (db w))) topic (db (final_world c)) /\
    (topic = "notifications" -> db (final_world s) = db (final_world c)) /\
    producer_calls (final_world s) = producer_calls (final_world c) /\
    steps (final_world s) = steps (final_world c) /\
    match s, c with
    | Done rs _, Done rc _ =>
        (rs = None -> rc = None) /\
        (forall e, rc = Some e -> rs = Some e) /\
        (rc = None ->
         rs = None \/
         exists e, rs = Some ("failed to create outbox entry for " +:+ what +:+ ": " +:+
                              "failed to create outbox entry: " +:+ e))
    | _, _ => False
    end in
  agree (services.CreateDailyReminder topic user w)
        (scheduler.createDailyReminder user w) "daily reminder" /\
  agree (services.CreateStreakReminder topic user w)
        (scheduler.createStreakReminder user w) "streak reminder".
Proof.
  intros agree. unfold agree, retopic. destruct w as [[] calls lines n].
  split.
  - unfold services.CreateDailyReminder, scheduler.createDailyReminder.
    run_reminder;
      repeat split; try congruence; try discriminate; eauto;
      unfold postgres.with_outbox; simpl;
      rewrite ?retopic_same, ?retopic_added; try reflexivity.
  - unfold services.CreateStreakReminder, scheduler.createStreakReminder.
    run_reminder;
      repeat split; try congruence; try discriminate; eauto;
      unfold postgres.with_outbox; simpl;
      rewrite ?retopic_same, ?retopic_added; try reflexivity.
Qed.

End sibling_reminders.

(** ** The consumer's store and its HTTP handler *)

Section delivery_store.
Context `{!Json}.

Lemma Get_Add (k k' : string) (n : models.Notification.t)
    (ns : gmap string (list models.Notification.t)) :
  consumer.Get k (consumer.Add k' n ns)
  = if String.eqb k' k then (consumer.Get k ns ++ [n])%list else consumer.Get k ns.
Proof.
  unfold consumer.Get, consumer.Add.
  destruct (String.eqb_spec k' k) as [-> | Hne].
  - now rewrite lookup_insert_eq.
  - now rewrite lookup_insert_ne.
Qed.

(** X14. What a claim leaves in the Delivery Store: under every key, the
    notifications held before followed by those of the claim's messages with
    that key whose value decodes, in the order they were claimed; exactly
    the decodable messages are marked, in order; ConsumeClaim returns nil.
    The HTTP handler then answers 404 for an empty user id, 200 with a
    message and an empty list when nothing is filed under the id, and 200
    with the filed notifications otherwise. *)
Theorem ConsumeClaim_files_by_key (messages : list ConsumerMessage.t)
    (p : consumer.Process) (k : string) :
  let p' := (consumer.ConsumeClaim messages p).1 in
  let notes := (consumer.Get k (consumer.data p) ++ filed_under k messages)%list in
  consumer.Get k (consumer.data p') = notes /\
  consumer.marked p'
    = (consumer.marked p ++
       filter (fun msg => is_Ok (json_Unmarshal_Notification (ConsumerMessage.Value msg)) = true)
         messages)%list /\
  (consumer.ConsumeClaim messages p).2 = None /\
  consumer.handleNotifications k (consumer.data p')
    = (if String.eqb k EmptyString then
         consumer.mkResponse 404 (Some "no messages found") None
       else
         match notes with
         | [] => consumer.mkResponse 200 (Some "No notifications found for user") (Some [])
         | _ :: _ => consumer.mkResponse 200 None (Some notes)
         end).
Proof.
  intros p' notes.
  assert (Hget : consumer.Get k (consumer.data p') = notes).
  { subst p' notes. revert p. induction messages as [| msg rest IH]; intros p; simpl.
    - now rewrite app_nil_r.
    - rewrite IH. unfold consumer.consume_message.
      destruct (json_Unmarshal_Notification (ConsumerMessage.Value msg)) as [n | e]; simpl.
      + rewrite Get_Add. destruct (String.eqb (ConsumerMessage.Key msg) k); simpl.
        * now rewrite <- app_assoc.
        * reflexivity.
      + destruct (String.eqb (ConsumerMessage.Key msg) k); reflexivity. }
  split; [exact Hget |]. split; [| split].
  - subst p'. clear Hget notes. revert p.
    induction messages as [| msg rest IH]; intros p; simpl.
    + now rewrite app_nil_r.
    + rewrite IH. unfold consumer.consume_message. rewrite filter_cons.
      destruct (json_Unmarshal_Notification (ConsumerMessage.Value msg)) as [n | e]; simpl.
      * now rewrite <- app_assoc.
      * reflexivity.
  - apply ConsumeClaim_returns_nil.
  - unfold consumer.handleNotifications, consumer.getUserIDFromRequest.
    destruct (String.eqb k EmptyString); [reflexivity |].
    rewrite Hget. destruct notes; reflexivity.
Qed.

End delivery_store.

(** ** The ticks of the scheduler *)

Section cohort_tick.
Context `{!Json, !Env}.

Lemma notifications_added_same (w w' : World) :
  db w' = db w -> notifications_added w w' [].
Proof. intros Hdb. unfold notifications_added. now rewrite Hdb, app_nil_r. Qed.

Lemma notifications_added_refl (w : World) : notifications_added w w [].
Proof. now apply notifications_added_same. Qed.

Lemma notifications_added_trans (w w1 w2 : World)
    (rows rows' : list postgres.notifications_row.t) :
  notifications_added w w1 rows -> notifications_added w1 w2 rows' ->
  notifications_added w w2 (rows ++ rows').
Proof.
  intros (Hn & Hu & Hp & Hs) (Hn' & Hu' & Hp' & Hs'). unfold notifications_added.
  rewrite Hn', Hn, <- app_assoc. repeat split; congruence.
Qed.

Lemma notifications_added_log (w w' : World) (rows : list postgres.notifications_row.t)
    (line : string) :
  notifications_added w w' rows ->
  notifications_added w (mkWorld (db w') (producer_calls w') (log w' ++ [line]) (steps w')) rows.
Proof. intros Ha. exact Ha. Qed.

(** The outbox entry and the closing log line never fail a create function
    and leave the other tables alone. *)
Lemma enqueue_frame (notification : models.Notification.t) (what created : string)
    (w : World) :
  exists w', scheduler.enqueue notification what created w = Done None w' /\
             notifications_added w w' [].
Proof.
  unfold scheduler.enqueue, mbind, M_bind, mret, M_ret, time_Now, log_Printf.
  match goal with
  | |- context [repository.CreateOutboxEntry ?i ?w4] =>
      pose proof (CreateOutboxEntry_inv i w4) as Ho;
      destruct (repository.CreateOutboxEntry i w4) as [[e |] w5 | msg w5];
      [| | contradiction]
  end.
  - destruct Ho as [-> | ->]; simpl; eexists; (split; [reflexivity |]);
      unfold notifications_added; simpl; now rewrite app_nil_r.
  - destruct Ho as [data ->]. simpl. eexists. split; [reflexivity |].
    unfold notifications_added. simpl. now rewrite app_nil_r.
Qed.

(** What the insert of a reminder does, whatever happens to it. *)
Lemma reminder_insert (id : UUID) (user : models.User.t) (type : models.NotificationType)
    (priority : models.PriorityLevel) (title message : string) (now : nat) (w : World) :
  exists err w' rows,
    repository.CreateNotification
      (services.reminder id user type priority title message (clock now)) w
    = Done err w' /\
    notifications_added w w' rows /\
    Forall (made_for type user) rows /\
    match err with
    | None => length rows = 1%nat
    | Some _ => rows = []
    end /\
    (db_fault (steps w) = None -> err = None).
Proof.
  unfold repository.CreateNotification, repository.jsonb_arg, JSONMap.Value. simpl.
  unfold repository.wrap, mbind, M_bind, mret, M_ret, db_Exec.
  destruct (db_fault (steps w)) as [e |]; simpl.
  - eexists _, _, []. split; [reflexivity |].
    split; [now apply notifications_added_same |].
    split; [constructor |]. split; [reflexivity | discriminate].
  - eexists _, _, [_]. split; [reflexivity |].
    split; [unfold notifications_added; simpl; auto |].
    split; [| auto]. constructor; [| constructor].
    unfold made_for. simpl. eauto.
Qed.

Variable type : string.
Variable create : models.User.t -> M (option error).
Variable can_create : models.User.t -> postgres.Database -> Prop.

Hypothesis create_spec : forall user w,
  exists r w' rows,
    create user w = Done r w' /\
    notifications_added w w' rows /\
    Forall (made_for type user) rows /\
    (length rows <= 1)%nat /\
    ((forall n, db_fault n = None) -> can_create user (db w) -> length rows = 1%nat).

Hypothesis can_create_frame : forall user d d',
  postgres.user_engagement_streaks d' = postgres.user_engagement_streaks d ->
  can_create user d -> can_create user d'.

Lemma each_user_spec (what : string) (users : list models.User.t) (w : World) :
  exists w' rows,
    scheduler.each_user create what users w = Done tt w' /\
    notifications_added w w' rows /\
    Forall (fun row => postgres.notifications_row.type_ row = type /\
                       exists n, postgres.notifications_row.created_at row = clock n) rows /\
    forall userID,
      (length (filter (fun row => postgres.notifications_row.user_id row = userID) rows)
       <= length (filter (fun user => models.User.ID user = userID) users))%nat /\
      ((forall n, db_fault n = None) ->
       (forall user, user ∈ users -> models.User.ID user = userID -> can_create user (db w)) ->
       length (filter (fun row => postgres.notifications_row.user_id row = userID) rows)
       = length (filter (fun user => models.User.ID user = userID) users)).
Proof.
  revert w. induction users as [| user rest IH]; intros w.
  - exists w, []. split; [reflexivity |]. split; [apply notifications_added_refl |].
    split; [constructor |]. intros userID. simpl. auto.
  - destruct (create_spec user w) as (r & w1 & rows1 & Hrun & Hadd & Hmade & Hle & Hone).
    set (w1' := match r with
                | Some e =>
                    mkWorld (db w1) (producer_calls w1)
                      (log w1 ++ ["Failed to create " +:+ what +:+ " for user " +:+
                                  uuid_String (models.User.ID user) +:+ ": " +:+ e])
                      (steps w1)
                | None => w1
                end).
    assert (Hadd' : notifications_added w w1' rows1) by (subst w1'; now destruct r).
    destruct (IH w1') as (w2 & rows2 & Hrun2 & Hadd2 & Hmade2 & Hcount).
    exists w2, (rows1 ++ rows2)%list. split; [| split; [| split]].
    + simpl. unfold mbind, M_bind. rewrite Hrun.
      destruct r; simpl; unfold log_Printf, mret, M_ret; exact Hrun2.
    + eapply notifications_added_trans; eassumption.
    + apply Forall_app. split; [| exact Hmade2].
      eapply Forall_impl; [exact Hmade |]. intros row (_ & Ht & Hn). auto.
    + intros userID. destruct (Hcount userID) as [Hle2 Heq2].
      rewrite filter_app, length_app, filter_cons.
      assert (Hrows1 : forall row, row ∈ rows1 ->
                         postgres.notifications_row.user_id row = models.User.ID user).
      { intros row Hrow. rewrite Forall_forall in Hmade. now destruct (Hmade row Hrow). }
      destruct (decide (models.User.ID user = userID)) as [Heq | Hne]; simpl.
      * split.
        -- pose proof (length_filter (fun row => postgres.notifications_row.user_id row = userID)
                         rows1). lia.
        -- intros Hf Hcan.
           rewrite (filter_all _ rows1) by (intros row Hrow; rewrite (Hrows1 row Hrow); exact Heq).
           rewrite (Hone Hf (Hcan user (list_elem_of_here _ _) Heq)).
           rewrite Heq2; [reflexivity | exact Hf |].
           intros user' Hin Hid. destruct Hadd' as (_ & _ & _ & Hs).
           eapply can_create_frame; [exact Hs |].
           apply Hcan; [now apply list_elem_of_further | exact Hid].
      * assert (Hnone : filter (fun row => postgres.notifications_row.user_id row = userID)
                          rows1 = []).
        { rewrite (filter_ext_elem _ (fun _ => False)).
          - clear. induction rows1 as [| a l IHl]; [reflexivity |].
            now rewrite filter_cons_False by tauto.
          - intros row Hrow. rewrite (Hrows1 row Hrow). tauto. }
        rewrite Hnone. simpl. split; [exact Hle2 |].
        intros Hf Hcan. apply Heq2; [exact Hf |].
        intros user' Hin Hid. destruct Hadd' as (_ & _ & _ & Hs).
        eapply can_create_frame; [exact Hs |].
        apply Hcan; [now apply list_elem_of_further | exact Hid].
Qed.

Lemma process_spec (cohort what plural : string) (users : list models.User.t) (w : World) :
  exists w' rows,
    scheduler.process cohort what plural create (Ok users) w = Done None w' /\
    notifications_added w w' rows /\
    Forall (fun row => postgres.notifications_row.type_ row = type /\
                       exists n, postgres.notifications_row.created_at row = clock n) rows /\
    forall userID,
      (length (filter (fun row => postgres.notifications_row.user_id row = userID) rows)
       <= length (filter (fun user => models.User.ID user = userID) users))%nat /\
      ((forall n, db_fault n = None) ->
       (forall user, user ∈ users -> models.User.ID user = userID -> can_create user (db w)) ->
       length (filter (fun row => postgres.notifications_row.user_id row = userID) rows)
       = length (filter (fun user => models.User.ID user = userID) users)).
Proof.
  unfold scheduler.process, mbind, M_bind, mret, M_ret, log_Printf.
  set (w0 := match (if 0 <? Z.of_nat (length users)
                    then Done tt (mkWorld (db w) (producer_calls w)
                                    (log w ++ ["Processing " +:+ plural +:+ " for " +:+
                                               pretty (Z.of_nat (length users)) +:+ " users"])
                                    (steps w))
                    else Done tt w) with
             | Done _ w0 => w0
             | Panicked _ w0 => w0
             end).
  assert (Hdb : db w0 = db w) by (subst w0; now destruct (0 <? Z.of_nat (length users))).
  destruct (each_user_spec what users w0) as (w' & rows & Hrun & Hadd & Hmade & Hcount).
  exists w', rows. split; [| split; [| split]].
  - subst w0. destruct (0 <? Z.of_nat (length users)); simpl in *; now rewrite Hrun.
  - unfold notifications_added in *. now rewrite Hdb in Hadd.
  - exact Hmade.
  - intros userID. rewrite <- Hdb. apply Hcount.
Qed.

Variable rows_of : Time -> postgres.Database -> list (UUID * string * string).
Variable eligible : Time -> postgres.users_row.t -> postgres.Database -> bool.
Variable recent : Time -> postgres.notifications_row.t -> bool.
Variable getUsers : M (result (list models.User.t)).
Variables cohort what plural query_error : string.

Hypothesis rows_spec : forall now d t,
  t ∈ rows_of now d <->
  exists u unp,
    u ∈ postgres.users d /\ unp ∈ postgres.user_notification_preferences d /\
    scheduler.wants type u unp = true /\
    eligible now u d = true /\
    existsb (fun n => scheduler.notified type u n && recent now n)
      (postgres.notifications d) = false /\
    t = cohort_row u.

Hypothesis rows_nodup : forall now d, NoDup (rows_of now d).

Hypothesis recent_spec : forall n m row,
  postgres.notifications_row.created_at row = clock n -> recent (clock m) row = true.

Hypothesis getUsers_spec : forall w,
  getUsers w
  = match db_fault (steps w) with
    | Some e => Done (Err (query_error +:+ e)) (tick w)
    | None => Done (Ok (map scheduler.scan_user (rows_of (clock (steps w)) (db w)))) (tick w)
    end.

(** A tick fails only when its cohort query does; what happens to a user
    never fails it. *)
Lemma tick_outcome (w : World) :
  match (users ← getUsers; scheduler.process cohort what plural create users) w with
  | Done None w' => db_fault (steps w) = None
  | Done (Some e) w' =>
      exists e0, db_fault (steps w) = Some e0 /\ w' = tick w /\
                 e = "failed to get " +:+ cohort +:+ ": " +:+ query_error +:+ e0
  | Panicked _ _ => False
  end.
Proof.
  unfold mbind at 1. unfold M_bind at 1. rewrite getUsers_spec.
  destruct (db_fault (steps w)) as [e0 |]; cbv beta iota.
  - unfold scheduler.process, mret, M_ret. eauto.
  - match goal with
    | |- context [scheduler.process _ _ _ _ (Ok ?users) ?w1] =>
        destruct (process_spec cohort what plural users w1) as (w' & rows & -> & _)
    end.
    reflexivity.
Qed.

Lemma cohort_count (now : Time) (d : postgres.Database) (u : postgres.users_row.t) :
  NoDup (postgres.users_row.user_id <$> postgres.users d) ->
  u ∈ postgres.users d ->
  length (filter (fun user => models.User.ID user = postgres.users_row.user_id u)
            (map scheduler.scan_user (rows_of now d)))
  = length (filter (fun t => t = cohort_row u) (rows_of now d)).
Proof.
  intros Hnd Hu.
  transitivity (length (filter (fun t : UUID * string * string =>
                                  t.1.1 = postgres.users_row.user_id u) (rows_of now d))).
  - symmetry.
    apply (Forall2_filter_length (fun t user => user = scheduler.scan_user t)).
    + change (map scheduler.scan_user (rows_of now d))
        with (scheduler.scan_user <$> rows_of now d).
      apply Forall2_fmap_r, Forall_Forall2_diag, Forall_forall. auto.
    + intros t user ->. reflexivity.
  - f_equal. apply filter_ext_elem. intros t Ht.
    apply rows_spec in Ht as (u' & _ & Hu' & _ & _ & _ & _ & ->). unfold cohort_row. simpl.
    split.
    + intros Hid. now rewrite (NoDup_fmap_inj postgres.users_row.user_id _ u' u Hnd Hu' Hu Hid).
    + intros Heq. congruence.
Qed.

Lemma two_ticks (w : World) (u : postgres.users_row.t) (unp : postgres.preferences_row.t) :
  (forall n, db_fault n = None) ->
  NoDup (postgres.users_row.user_id <$> postgres.users (db w)) ->
  u ∈ postgres.users (db w) ->
  unp ∈ postgres.user_notification_preferences (db w) ->
  scheduler.wants type u unp = true ->
  eligible (clock (steps w)) u (db w) = true ->
  existsb (fun n => scheduler.notified type u n && recent (clock (steps w)) n)
    (postgres.notifications (db w)) = false ->
  can_create (scheduler.scan_user (cohort_row u)) (db w) ->
  exists w1,
    (users ← getUsers; scheduler.process cohort what plural create users) w = Done None w1 /\
    length (notifications_of type (postgres.users_row.user_id u) (db w1))
    = S (length (notifications_of type (postgres.users_row.user_id u) (db w))) /\
    forall w1',
      db w1' = db w1 ->
      exists w2,
        (users ← getUsers; scheduler.process cohort what plural create users) w1'
        = Done None w2 /\
        notifications_of type (postgres.users_row.user_id u) (db w2)
        = notifications_of type (postgres.users_row.user_id u) (db w1).
Proof.
  intros Hf Hnd Hu Hunp Hwants Hel Hfresh Hcan.
  set (userID := postgres.users_row.user_id u).
  assert (Hof : forall w0 w' rows,
            notifications_added w0 w' rows ->
            Forall (fun row => postgres.notifications_row.type_ row = type /\
                               exists n, postgres.notifications_row.created_at row = clock n)
              rows ->
            notifications_of type userID (db w')
            = (notifications_of type userID (db w0) ++
               filter (fun row => postgres.notifications_row.user_id row = userID) rows)%list).
  { intros w0 w' rows (Hn & _) Hmade. unfold notifications_of. rewrite Hn, filter_app.
    f_equal. apply filter_ext_elem. intros row Hrow.
    rewrite Forall_forall in Hmade. destruct (Hmade row Hrow) as [Ht _]. tauto. }
  (* the first tick *)
  assert (Hin : cohort_row u ∈ rows_of (clock (steps w)) (db w)).
  { apply rows_spec. exists u, unp. auto 10. }
  unfold mbind at 1. unfold M_bind at 1. rewrite getUsers_spec, Hf. cbv beta iota.
  match goal with
  | |- context [scheduler.process _ _ _ _ (Ok ?users) ?w0] =>
      destruct (process_spec cohort what plural users w0)
        as (w1 & rows1 & Hrun1 & Hadd1 & Hmade1 & Hcount1)
  end.
  destruct (Hcount1 userID) as [_ Hexact].
  assert (Hone : length (filter (fun row => postgres.notifications_row.user_id row = userID)
                           rows1) = 1%nat).
  { rewrite Hexact; [| exact Hf |].
    - subst userID. rewrite cohort_count by assumption.
      apply count_unique; [apply rows_nodup | exact Hin].
    - intros user Huser Hid. simpl.
      change (map scheduler.scan_user (rows_of (clock (steps w)) (db w)))
        with (scheduler.scan_user <$> rows_of (clock (steps w)) (db w)) in Huser.
      apply list_elem_of_fmap in Huser as (t & -> & Ht).
      apply rows_spec in Ht as (u' & _ & Hu' & _ & _ & _ & _ & ->).
      simpl in Hid.
      now rewrite (NoDup_fmap_inj postgres.users_row.user_id _ u' u Hnd Hu' Hu Hid). }
  assert (Hadd1' : notifications_added w w1 rows1) by exact Hadd1.
  exists w1. split; [exact Hrun1 |]. split.
  { rewrite (Hof w w1 rows1 Hadd1' Hmade1), length_app, Hone. lia. }
  (* the second tick *)
  intros w1' Hdb.
  assert (Hblocked : forall m,
            existsb (fun n => scheduler.notified type u n && recent (clock m) n)
              (postgres.notifications (db w1)) = true).
  { intros m.
    destruct (filter (fun row => postgres.notifications_row.user_id row = userID) rows1)
      as [| row0 rest] eqn:Hrows; [discriminate |].
    assert (Hrow0 : row0 ∈ filter (fun row => postgres.notifications_row.user_id row = userID)
                             rows1) by (rewrite Hrows; apply list_elem_of_here).
    apply list_elem_of_filter in Hrow0 as [Hid Hrow0].
    rewrite Forall_forall in Hmade1. destruct (Hmade1 row0 Hrow0) as (Hty & n & Hat).
    apply existsb_exists. exists row0. split.
    - destruct Hadd1' as (Hn & _). rewrite Hn. apply in_or_app. right.
      now apply list_elem_of_In.
    - unfold scheduler.notified. rewrite (recent_spec n m row0 Hat).
      rewrite bool_decide_eq_true_2 by exact Hid.
      rewrite Hty, String.eqb_refl. reflexivity. }
  assert (Hout : cohort_row u ∉ rows_of (clock (steps w1')) (db w1')).
  { intros Ht. apply rows_spec in Ht as (u' & _ & Hu' & _ & _ & _ & Hnone & Heq).
    assert (Hid : postgres.users_row.user_id u' = postgres.users_row.user_id u)
      by (unfold cohort_row in Heq; congruence).
    rewrite Hdb in Hnone. specialize (Hblocked (steps w1')).
    apply existsb_exists in Hblocked as (row & Hrow & Hb).
    assert (Hyes : existsb (fun n => scheduler.notified type u' n &&
                                     recent (clock (steps w1')) n)
                     (postgres.notifications (db w1)) = true).
    { apply existsb_exists. exists row. split; [exact Hrow |].
      unfold scheduler.notified in *. now rewrite Hid. }
    rewrite Hnone in Hyes. discriminate. }
  unfold mbind at 1. unfold M_bind at 1. rewrite getUsers_spec, Hf. cbv beta iota.
  match goal with
  | |- context [scheduler.process _ _ _ _ (Ok ?users) ?w0] =>
      destruct (process_spec cohort what plural users w0)
        as (w2 & rows2 & Hrun2 & Hadd2 & Hmade2 & Hcount2)
  end.
  exists w2. split; [exact Hrun2 |].
  assert (Hadd2' : notifications_added w1 w2 rows2).
  { unfold notifications_added in *. simpl in Hadd2. now rewrite Hdb in Hadd2. }
  rewrite (Hof w1 w2 rows2 Hadd2' Hmade2).
  destruct (Hcount2 userID) as [Hle _].
  assert (Hu1 : u ∈ postgres.users (db w1')).
  { rewrite Hdb. destruct Hadd1' as (_ & -> & _). exact Hu. }
  assert (Hnd1 : NoDup (postgres.users_row.user_id <$> postgres.users (db w1'))).
  { rewrite Hdb. destruct Hadd1' as (_ & -> & _). exact Hnd. }
  subst userID. rewrite (cohort_count _ _ u Hnd1 Hu1) in Hle.
  assert (Hzero : filter (fun t => t = cohort_row u) (rows_of (clock (steps w1')) (db w1')) = []).
  { rewrite (filter_ext_elem _ (fun _ => False)).
    - generalize (rows_of (clock (steps w1')) (db w1')). intros l.
      induction l as [| a l IHl]; [reflexivity |]. now rewrite filter_cons_False by tauto.
    - intros t Ht. split; [intros ->; contradiction | tauto]. }
  rewrite Hzero in Hle. simpl in Hle.
  destruct (filter _ rows2); [now rewrite app_nil_r | simpl in Hle; lia].
Qed.

End cohort_tick.

Section create_functions.
Context `{!Json, !Env}.

Lemma notifications_added_from (w w0 w' : World) (rows : list postgres.notifications_row.t) :
  db w0 = db w -> notifications_added w0 w' rows -> notifications_added w w' rows.
Proof. unfold notifications_added. intros ->. auto. Qed.

Lemma notifications_added_nil (w w0 w' : World) (rows : list postgres.notifications_row.t) :
  notifications_added w w0 rows -> notifications_added w0 w' [] ->
  notifications_added w w' rows.
Proof.
  intros Ha Hb. rewrite <- (app_nil_r rows). eapply notifications_added_trans; eassumption.
Qed.

(* The insert of the reminder, then the outbox entry: what the four create
   functions end with. *)
Ltac finish_create :=
  match goal with
  | |- context [repository.CreateNotification
                  (services.reminder ?id ?u ?t ?p ?ti ?m (clock ?n)) ?w3] =>
      let err := fresh "err" in
      let w4 := fresh "w" in
      let rows := fresh "rows" in
      let Hins := fresh "Hins" in
      let Hadd := fresh "Hadd" in
      let Hmade := fresh "Hmade" in
      let Herr := fresh "Herr" in
      let Hok := fresh "Hok" in
      let Hf := fresh "Hf" in
      destruct (reminder_insert id u t p ti m n w3)
        as (err & w4 & rows & Hins & Hadd & Hmade & Herr & Hok);
      rewrite Hins; simpl;
      destruct err as [? |];
      [ subst rows; eexists _, _, [];
        split; [reflexivity |];
        split; [eapply notifications_added_from; [| exact Hadd]; reflexivity |];
        split; [constructor |]; split; [simpl; lia |];
        intros Hf _; specialize (Hok (Hf _)); discriminate
      | match goal with
        | |- context [scheduler.enqueue ?notification ?what ?created ?w5] =>
            let w6 := fresh "w" in
            let Hq := fresh "Hq" in
            let Hadd' := fresh "Hadd" in
            destruct (enqueue_frame notification what created w5) as (w6 & Hq & Hadd');
            rewrite Hq;
            eexists _, _, rows;
            split; [reflexivity |];
            split; [eapply notifications_added_from;
                    [| eapply notifications_added_nil; [exact Hadd | exact Hadd']];
                    reflexivity |];
            split; [exact Hmade |]; split; [lia |]; intros _ _; exact Herr
        end ]
  end.

Lemma createWeeklyRecap_spec (user : models.User.t) (w : World) :
  exists r w' rows,
    scheduler.createWeeklyRecap user w = Done r w' /\
    notifications_added w w' rows /\
    Forall (made_for "weekly_recap" user) rows /\
    (length rows <= 1)%nat /\
    ((forall n, db_fault n = None) -> True -> length rows = 1%nat).
Proof.
  unfold scheduler.createWeeklyRecap.
  destruct (GetUserEngagementStreak_inv (models.User.ID user) "practice" w)
    as (streak & Hget & _).
  unfold mbind at 1. unfold M_bind at 1. rewrite Hget.
  destruct streak as [streak | e]; simpl;
    unfold mbind, M_bind, mret, M_ret, log_Printf, uuid_New, time_Now; simpl;
    finish_create.
Qed.

Lemma createEngagementNudge_spec (user : models.User.t) (w : World) :
  exists r w' rows,
    scheduler.createEngagementNudge user w = Done r w' /\
    notifications_added w w' rows /\
    Forall (made_for "we_miss_you" user) rows /\
    (length rows <= 1)%nat /\
    ((forall n, db_fault n = None) -> True -> length rows = 1%nat).
Proof.
  unfold scheduler.createEngagementNudge.
  unfold mbind, M_bind, mret, M_ret, uuid_New, time_Now; simpl.
  finish_create.
Qed.

Lemma createStreakReminder_spec (user : models.User.t) (w : World) :
  exists r w' rows,
    scheduler.createStreakReminder user w = Done r w' /\
    notifications_added w w' rows /\
    Forall (made_for "streak_reminder" user) rows /\
    (length rows <= 1)%nat /\
    ((forall n, db_fault n = None) -> practice_streak_active user (db w) ->
     length rows = 1%nat).
Proof.
  unfold scheduler.createStreakReminder, practice_streak_active.
  unfold mbind at 1. unfold M_bind at 1.
  unfold repository.GetUserEngagementStreak, mbind, M_bind, db_Query, mret, M_ret,
    repository.first_row.
  destruct (db_fault (steps w)) as [e |] eqn:Hfault; simpl.
  { eexists _, _, []. split; [reflexivity |].
    split; [now apply notifications_added_same |].
    split; [constructor |]. split; [simpl; lia |].
    intros Hf _. rewrite Hf in Hfault. discriminate. }
  destruct (head _) as [row |] eqn:Hrow; simpl.
  2: { eexists _, _, []. split; [reflexivity |].
       split; [now apply notifications_added_same |].
       split; [constructor |]. split; [simpl; lia |].
       intros _ (row & Hrow' & _). discriminate. }
  destruct (Z.eqb_spec (postgres.streaks_row.current_streak row) 0) as [Hzero | Hpos]; simpl.
  { eexists _, _, []. split; [reflexivity |].
    split; [now apply notifications_added_same |].
    split; [constructor |]. split; [simpl; lia |].
    intros _ (row' & [= <-] & Hne). contradiction. }
  unfold uuid_New, time_Now. simpl.
  finish_create.
Qed.

Lemma createDailyReminder_spec (user : models.User.t) (w : World) :
  exists r w' rows,
    scheduler.createDailyReminder user w = Done r w' /\
    notifications_added w w' rows /\
    Forall (made_for "daily_reminder" user) rows /\
    (length rows <= 1)%nat /\
    ((forall n, db_fault n = None) -> True -> length rows = 1%nat).
Proof.
  unfold scheduler.createDailyReminder.
  destruct (GetUserEngagementStreak_inv (models.User.ID user) "practice" w)
    as (streak & Hget & _).
  unfold mbind at 1. unfold M_bind at 1. rewrite Hget.
  destruct streak as [streak | e]; simpl;
    unfold mbind, M_bind, mret, M_ret, log_Printf, uuid_New, time_Now; simpl.
  all: match goal with
       | |- context [repository.CreateNotification
                       (services.reminder ?id ?u ?t ?p ?ti ?m (clock ?n)) ?w3] =>
           destruct (reminder_insert id u t p ti m n w3)
             as (err & w4 & rows & Hins & Hadd & Hmade & Herr & Hok);
           rewrite Hins; simpl
       end.
  all: destruct err as [e' |];
    [ subst rows; eexists _, _, [];
      split; [reflexivity |];
      split; [eapply notifications_added_from; [| exact Hadd]; reflexivity |];
      split; [constructor |]; split; [simpl; lia |];
      intros Hf _; specialize (Hok (Hf _)); discriminate |].
  all: match goal with
       | |- context [repository.CreateOutboxEntry ?i ?w5] =>
           pose proof (CreateOutboxEntry_inv i w5) as Ho;
           destruct (repository.CreateOutboxEntry i w5) as [[e2 |] w6 | msg w6];
           [| | contradiction]
       end.
  all: simpl; eexists _, _, rows; (split; [reflexivity |]);
    (split; [| split; [exact Hmade |]; split; [lia |]; intros _ _; exact Herr]).
  all: unfold notifications_added in *; simpl in *.
  all: try (destruct Ho as [-> | ->]); try (destruct Ho as [data ->]); simpl; exact Hadd.
Qed.

End create_functions.

Section cohorts.
Context `{!Json, !Env}.



Lemma cohort_query_spec (rows_of : Time -> postgres.Database -> list (UUID * string * string))
    (query_error : string) (w : World) :
  (rows ← db_Query_at (fun now d => Ok (rows_of now d));
   match rows with
   | Err e => mret (Err (query_error +:+ e))
   | Ok rows => mret (Ok (map scheduler.scan_user rows))
   end) w
  = match db_fault (steps w) with
    | Some e => Done (Err (query_error +:+ e)) (tick w)
    | None => Done (Ok (map scheduler.scan_user (rows_of (clock (steps w)) (db w)))) (tick w)
    end.
Proof.
  unfold mbind, M_bind, db_Query_at, mret, M_ret.
  destruct (db_fault (steps w)); reflexivity.
Qed.

Lemma always_can_create (user : models.User.t) (d d' : postgres.Database) :
  postgres.user_engagement_streaks d' = postgres.user_engagement_streaks d -> True -> True.
Proof. auto. Qed.

Lemma practice_streak_active_frame (user : models.User.t) (d d' : postgres.Database) :
  postgres.user_engagement_streaks d' = postgres.user_engagement_streaks d ->
  practice_streak_active user d -> practice_streak_active user d'.
Proof. unfold practice_streak_active. now intros ->. Qed.

(** Membership in the rows of a cohort query. *)
Lemma in_cohort (cond : postgres.users_row.t -> postgres.preferences_row.t -> bool)
    (users : list postgres.users_row.t) (prefs : list postgres.preferences_row.t)
    (t : UUID * string * string) :
  t ∈ remove_dups
        (flat_map
           (fun u => flat_map (fun unp => if cond u unp then [cohort_row u] else []) prefs)
           users) <->
  exists u unp, u ∈ users /\ unp ∈ prefs /\ cond u unp = true /\ t = cohort_row u.
Proof.
  rewrite elem_of_remove_dups, list_elem_of_In, in_flat_map. split.
  - intros (u & Hu & Ht). apply in_flat_map in Ht as (unp & Hunp & Ht).
    destruct (cond u unp) eqn:Hc; simpl in Ht; [| contradiction].
    destruct Ht as [<- | []]. exists u, unp. rewrite !list_elem_of_In. auto.
  - intros (u & unp & Hu & Hunp & Hc & ->). exists u.
    rewrite <- list_elem_of_In. split; [exact Hu |].
    apply in_flat_map. exists unp. rewrite <- list_elem_of_In. split; [exact Hunp |].
    rewrite Hc. now left.
Qed.

Lemma flat_map_if {A B} (c : A -> bool) (x : B) (l : list A) (t : B) :
  In t (flat_map (fun a => if c a then [x] else []) l) <-> existsb c l = true /\ t = x.
Proof.
  induction l as [| a l IH]; simpl.
  - split; [contradiction | intros [? _]; discriminate].
  - rewrite in_app_iff, IH. destruct (c a); simpl.
    + split; [intros [[<- | []] | [_ ->]]; auto | intros [_ ->]; auto].
    + split; [intros [[] | Ht]; exact Ht | auto].
Qed.

Lemma in_weekly_recap_rows (now : Time) (d : postgres.Database) (t : UUID * string * string) :
  t ∈ scheduler.weekly_recap_rows now d <->
  exists u unp,
    u ∈ postgres.users d /\ unp ∈ postgres.user_notification_preferences d /\
    scheduler.wants "weekly_recap" u unp = true /\
    scheduler.has_active_streak u d = true /\
    existsb (fun n => scheduler.notified "weekly_recap" u n &&
                      (scheduler.week_start now <=? postgres.notifications_row.created_at n))
      (postgres.notifications d) = false /\
    t = cohort_row u.
Proof.
  unfold scheduler.weekly_recap_rows.
  rewrite (in_cohort
             (fun u unp =>
                scheduler.wants "weekly_recap" u unp && scheduler.has_active_streak u d &&
                negb (existsb
                        (fun n => scheduler.notified "weekly_recap" u n &&
                                  (scheduler.week_start now
                                   <=? postgres.notifications_row.created_at n))
                        (postgres.notifications d)))).
  split; intros (u & unp & Hu & Hunp & Hc & Ht); exists u, unp.
  - apply andb_true_iff in Hc as [Hc Hn]. apply andb_true_iff in Hc as [Hw He].
    apply negb_true_iff in Hn. auto 10.
  - destruct Ht as (He & Hn & ->). rewrite Hc, He, Hn. auto.
Qed.

Lemma in_engagement_nudge_rows (now : Time) (d : postgres.Database)
    (t : UUID * string * string) :
  t ∈ scheduler.engagement_nudge_rows now d <->
  exists u unp,
    u ∈ postgres.users d /\ unp ∈ postgres.user_notification_preferences d /\
    scheduler.wants "we_miss_you" u unp = true /\
    scheduler.long_inactive (date_of now) u d = true /\
    existsb (fun n => scheduler.notified "we_miss_you" u n &&
                      ((date_of now - 7) * nanoseconds_per_day
                       <=? postgres.notifications_row.created_at n))
      (postgres.notifications d) = false /\
    t = cohort_row u.
Proof.
  unfold scheduler.engagement_nudge_rows.
  rewrite (in_cohort
             (fun u unp =>
                scheduler.wants "we_miss_you" u unp &&
                scheduler.long_inactive (date_of now) u d &&
                negb (existsb
                        (fun n => scheduler.notified "we_miss_you" u n &&
                                  ((date_of now - 7) * nanoseconds_per_day
                                   <=? postgres.notifications_row.created_at n))
                        (postgres.notifications d)))).
  split; intros (u & unp & Hu & Hunp & Hc & Ht); exists u, unp.
  - apply andb_true_iff in Hc as [Hc Hn]. apply andb_true_iff in Hc as [Hw He].
    apply negb_true_iff in Hn. auto 10.
  - destruct Ht as (He & Hn & ->). rewrite Hc, He, Hn. auto.
Qed.

Lemma in_streak_reminder_rows (now : Time) (d : postgres.Database)
    (t : UUID * string * string) :
  t ∈ scheduler.streak_reminder_rows now d <->
  exists u unp,
    u ∈ postgres.users d /\ unp ∈ postgres.user_notification_preferences d /\
    scheduler.wants "streak_reminder" u unp = true /\
    existsb (scheduler.streak_at_risk (date_of now) u)
      (postgres.user_engagement_streaks d) = true /\
    existsb (fun n => scheduler.notified "streak_reminder" u n &&
                      (date_of (postgres.notifications_row.created_at n) =? date_of now))
      (postgres.notifications d) = false /\
    t = cohort_row u.
Proof.
  unfold scheduler.streak_reminder_rows.
  rewrite elem_of_remove_dups, list_elem_of_In, in_flat_map.
  set (guard := fun u : postgres.users_row.t =>
                  existsb (fun n => scheduler.notified "streak_reminder" u n &&
                                    (date_of (postgres.notifications_row.created_at n)
                                     =? date_of now))
                    (postgres.notifications d)).
  split.
  - intros (u & Hu & Ht). apply in_flat_map in Ht as (unp & Hunp & Ht).
    apply (flat_map_if
             (fun ues => scheduler.wants "streak_reminder" u unp &&
                         scheduler.streak_at_risk (date_of now) u ues && negb (guard u)))
      in Ht as [Hc ->].
    apply existsb_exists in Hc as (ues & Hues & Hc).
    apply andb_true_iff in Hc as [Hc Hn]. apply andb_true_iff in Hc as [Hw Hr].
    apply negb_true_iff in Hn.
    exists u, unp. rewrite !list_elem_of_In.
    repeat split; try assumption. apply existsb_exists. eauto.
  - intros (u & unp & Hu & Hunp & Hw & Hr & Hn & ->). exists u.
    rewrite <- list_elem_of_In. split; [exact Hu |].
    apply in_flat_map. exists unp. rewrite <- list_elem_of_In. split; [exact Hunp |].
    apply (flat_map_if
             (fun ues => scheduler.wants "streak_reminder" u unp &&
                         scheduler.streak_at_risk (date_of now) u ues && negb (guard u))).
    split; [| reflexivity].
    apply existsb_exists in Hr as (ues & Hues & Hr).
    apply existsb_exists. exists ues. split; [exact Hues |].
    unfold guard. now rewrite Hw, Hr, Hn.
Qed.

(** X16. processWeeklyRecaps does nothing but read the clock unless it is
    Monday; on a Monday it fails only when its cohort query fails. *)
Theorem processWeeklyRecaps_only_on_monday (w : World) :
  match scheduler.processWeeklyRecaps w with
  | Done None w' =>
      (weekday (clock (steps w)) = time_Monday /\ db_fault (S (steps w)) = None) \/
      (weekday (clock (steps w)) <> time_Monday /\ w' = tick w)
  | Done (Some e) w' =>
      weekday (clock (steps w)) = time_Monday /\
      exists e0,
        db_fault (S (steps w)) = Some e0 /\ w' = tick (tick w) /\
        e = "failed to get active users for weekly recap: " +:+
            "failed to query active users for weekly recap: " +:+ e0
  | Panicked _ _ => False
  end.
Proof.
  unfold scheduler.processWeeklyRecaps.
  unfold mbind at 1. unfold M_bind at 1. unfold time_Now. cbv beta iota.
  destruct (Z.eqb_spec (weekday (clock (steps w))) time_Monday) as [Hmon | Hother];
    simpl (negb _); cbv iota.
  - pose proof (tick_outcome "weekly_recap" scheduler.createWeeklyRecap (fun _ _ => True)
                  createWeeklyRecap_spec always_can_create
                  scheduler.weekly_recap_rows scheduler.getActiveUsersForWeeklyRecap
                  "active users for weekly recap" "weekly recap" "weekly recaps"
                  "failed to query active users for weekly recap: "
                  (cohort_query_spec _ _) (tick w)) as Hout.
    match type of Hout with
    | match ?o with _ => _ end => destruct o as [[e |] w' | msg w']; [| | exact Hout]
    end.
    + split; [exact Hmon |]. exact Hout.
    + left. split; [exact Hmon | exact Hout].
  - unfold mret, M_ret. right. split; [exact Hother | reflexivity].
Qed.

Lemma NoDup_remove_dups_rows {A} `{!EqDecision A} (l : list A) : NoDup (remove_dups l).
Proof. apply NoDup_remove_dups. Qed.

Lemma same_day_midnight (today : Z) (n : nat) :
  date_of (clock n) = today -> today * nanoseconds_per_day <= clock n.
Proof.
  unfold date_of, nanoseconds_per_day. intros <-.
  pose proof (Z.mul_div_le (clock n) (86400 * 1000000000)). lia.
Qed.

(** X17. For a user with an enabled streak_reminder/in_app preference whose
    practice streak is positive and was last active before today, and who
    has no streak reminder of today yet, two streak ticks run one after the
    other on the same day (the database answering, user ids and streak keys
    unique) create exactly one streak reminder: the first tick writes one,
    the second none. *)
Theorem streak_reminder_once_per_day (w : World) (u : postgres.users_row.t)
    (unp : postgres.preferences_row.t) (ues : postgres.streaks_row.t) (today : Z) :
  (forall n, db_fault n = None) ->
  (forall n, date_of (clock n) = today) ->
  NoDup (postgres.users_row.user_id <$> postgres.users (db w)) ->
  NoDup ((fun r => (postgres.streaks_row.user_id r, postgres.streaks_row.streak_type r))
           <$> postgres.user_engagement_streaks (db w)) ->
  u ∈ postgres.users (db w) ->
  unp ∈ postgres.user_notification_preferences (db w) ->
  ues ∈ postgres.user_engagement_streaks (db w) ->
  scheduler.wants "streak_reminder" u unp = true ->
  scheduler.streak_at_risk today u ues = true ->
  existsb (fun n => scheduler.notified "streak_reminder" u n &&
                    (date_of (postgres.notifications_row.created_at n) =? today))
    (postgres.notifications (db w)) = false ->
  exists w1 w2,
    scheduler.processStreakReminders w = Done None w1 /\
    scheduler.processStreakReminders w1 = Done None w2 /\
    length (notifications_of "streak_reminder" (postgres.users_row.user_id u) (db w1))
    = S (length (notifications_of "streak_reminder" (postgres.users_row.user_id u) (db w))) /\
    notifications_of "streak_reminder" (postgres.users_row.user_id u) (db w2)
    = notifications_of "streak_reminder" (postgres.users_row.user_id u) (db w1).
Proof.
  intros Hf Hday Hnd Hkeys Hu Hunp Hues Hwants Hrisk Hfresh.
  assert (Hactive : practice_streak_active (scheduler.scan_user (cohort_row u)) (db w)).
  { unfold practice_streak_active, cohort_row. simpl.
    unfold scheduler.streak_at_risk in Hrisk.
    apply andb_true_iff in Hrisk as [Hrisk _]. apply andb_true_iff in Hrisk as [Hrisk Hpos].
    apply andb_true_iff in Hrisk as [Hid Hty].
    apply bool_decide_eq_true in Hid. apply String.eqb_eq in Hty. apply Z.ltb_lt in Hpos.
    assert (Hin : ues ∈ filter (fun r => postgres.streaks_row.user_id r
                                         = postgres.users_row.user_id u /\
                                         postgres.streaks_row.streak_type r = "practice")
                          (postgres.user_engagement_streaks (db w)))
      by (apply list_elem_of_filter; auto).
    destruct (filter _ _) as [| row rest] eqn:Hrows; [inversion Hin |].
    exists row. split; [reflexivity |].
    assert (Hrow : row ∈ filter (fun r => postgres.streaks_row.user_id r
                                          = postgres.users_row.user_id u /\
                                          postgres.streaks_row.streak_type r = "practice")
                           (postgres.user_engagement_streaks (db w)))
      by (rewrite Hrows; apply list_elem_of_here).
    apply list_elem_of_filter in Hrow as [[Hid' Hty'] Hrow].
    assert (row = ues).
    { apply (NoDup_fmap_inj
               (fun r => (postgres.streaks_row.user_id r, postgres.streaks_row.streak_type r))
               _ row ues Hkeys Hrow Hues).
      simpl. congruence. }
    subst row. lia. }
  destruct (two_ticks "streak_reminder" scheduler.createStreakReminder
              practice_streak_active createStreakReminder_spec practice_streak_active_frame
              scheduler.streak_reminder_rows
              (fun now u d => existsb (scheduler.streak_at_risk (date_of now) u)
                                (postgres.user_engagement_streaks d))
              (fun now n => date_of (postgres.notifications_row.created_at n) =? date_of now)
              scheduler.getUsersNeedingStreakReminders
              "users needing streak reminders" "streak reminder" "streak reminders"
              "failed to query users needing streak reminders: "
              in_streak_reminder_rows
              (fun now d => NoDup_remove_dups_rows _)
              (fun n m row Hat => eq_trans (f_equal2 Z.eqb (eq_trans (f_equal date_of Hat) (Hday n)) (Hday m)) (Z.eqb_refl today))
              (cohort_query_spec _ _)
              w u unp Hf Hnd Hu Hunp Hwants)
    as (w1 & Hrun1 & Hone & Hnext).
  - rewrite Hday. apply existsb_exists. exists ues. split; [now apply list_elem_of_In | exact Hrisk].
  - rewrite Hday. exact Hfresh.
  - exact Hactive.
  - destruct (Hnext w1 eq_refl) as (w2 & Hrun2 & Hsame).
    exists w1, w2. auto.
Qed.

Lemma monday_week_start (today : Z) (now : Time) :
  date_of now = today -> (today + 4) mod 7 = time_Monday ->
  scheduler.week_start now = today * nanoseconds_per_day.
Proof.
  unfold scheduler.week_start, time_Monday. intros <- Hmon.
  replace ((date_of now + 3) mod 7) with 0; [f_equal; lia |].
  symmetry. Z.div_mod_to_equations. lia.
Qed.

(** X18. On a Monday, for a user with an enabled weekly_recap/in_app
    preference and a positive practice streak who has no weekly recap of
    this week yet, two weekly-recap ticks run one after the other that day
    (the database answering, user ids unique) create exactly one weekly
    recap. *)
Theorem weekly_recap_once_per_week (w : World) (u : postgres.users_row.t)
    (unp : postgres.preferences_row.t) (today : Z) :
  (forall n, db_fault n = None) ->
  (forall n, date_of (clock n) = today) ->
  (today + 4) mod 7 = time_Monday ->
  NoDup (postgres.users_row.user_id <$> postgres.users (db w)) ->
  u ∈ postgres.users (db w) ->
  unp ∈ postgres.user_notification_preferences (db w) ->
  scheduler.wants "weekly_recap" u unp = true ->
  scheduler.has_active_streak u (db w) = true ->
  existsb (fun n => scheduler.notified "weekly_recap" u n &&
                    (today * nanoseconds_per_day <=? postgres.notifications_row.created_at n))
    (postgres.notifications (db w)) = false ->
  exists w1 w2,
    scheduler.processWeeklyRecaps w = Done None w1 /\
    scheduler.processWeeklyRecaps w1 = Done None w2 /\
    length (notifications_of "weekly_recap" (postgres.users_row.user_id u) (db w1))
    = S (length (notifications_of "weekly_recap" (postgres.users_row.user_id u) (db w))) /\
    notifications_of "weekly_recap" (postgres.users_row.user_id u) (db w2)
    = notifications_of "weekly_recap" (postgres.users_row.user_id u) (db w1).
Proof.
  intros Hf Hday Hmon Hnd Hu Hunp Hwants Hactive Hfresh.
  assert (Hstart : forall k, scheduler.week_start (clock k) = today * nanoseconds_per_day)
    by (intros k; now apply monday_week_start).
  assert (Htick : forall w0,
            scheduler.processWeeklyRecaps w0
            = (users ← scheduler.getActiveUsersForWeeklyRecap;
               scheduler.process "active users for weekly recap" "weekly recap"
                 "weekly recaps" scheduler.createWeeklyRecap users) (tick w0)).
  { intros w0. unfold scheduler.processWeeklyRecaps.
    unfold mbind at 1. unfold M_bind at 1. unfold time_Now. cbv beta iota.
    unfold weekday. rewrite Hday, Hmon. reflexivity. }
  destruct (two_ticks "weekly_recap" scheduler.createWeeklyRecap (fun _ _ => True)
              createWeeklyRecap_spec always_can_create
              scheduler.weekly_recap_rows
              (fun now u d => scheduler.has_active_streak u d)
              (fun now n => scheduler.week_start now <=? postgres.notifications_row.created_at n)
              scheduler.getActiveUsersForWeeklyRecap
              "active users for weekly recap" "weekly recap" "weekly recaps"
              "failed to query active users for weekly recap: "
              in_weekly_recap_rows
              (fun now d => NoDup_remove_dups_rows _))
    with (w := tick w) (u := u) (unp := unp) as (w1 & Hrun1 & Hone & Hnext);
    try assumption.
  - intros n m row Hat. rewrite Hstart, Hat. apply Z.leb_le.
    now apply same_day_midnight.
  - apply cohort_query_spec.
  - simpl. rewrite Hstart. exact Hfresh.
  - exact I.
  - destruct (Hnext (tick w1) eq_refl) as (w2 & Hrun2 & Hsame).
    exists w1, w2. rewrite !Htick. auto.
Qed.

(** X19. For a user with an enabled we_miss_you/in_app preference whose
    practice streak was last active more than seven days ago and who got no
    nudge in the last seven days, two nudge ticks run one after the other on
    the same day (the database answering, user ids unique) create exactly
    one nudge. *)
Theorem engagement_nudge_once (w : World) (u : postgres.users_row.t)
    (unp : postgres.preferences_row.t) (today : Z) :
  (forall n, db_fault n = None) ->
  (forall n, date_of (clock n) = today) ->
  NoDup (postgres.users_row.user_id <$> postgres.users (db w)) ->
  u ∈ postgres.users (db w) ->
  unp ∈ postgres.user_notification_preferences (db w) ->
  scheduler.wants "we_miss_you" u unp = true ->
  scheduler.long_inactive today u (db w) = true ->
  existsb (fun n => scheduler.notified "we_miss_you" u n &&
                    ((today - 7) * nanoseconds_per_day
                     <=? postgres.notifications_row.created_at n))
    (postgres.notifications (db w)) = false ->
  exists w1 w2,
    scheduler.processEngagementNudges w = Done None w1 /\
    scheduler.processEngagementNudges w1 = Done None w2 /\
    length (notifications_of "we_miss_you" (postgres.users_row.user_id u) (db w1))
    = S (length (notifications_of "we_miss_you" (postgres.users_row.user_id u) (db w))) /\
    notifications_of "we_miss_you" (postgres.users_row.user_id u) (db w2)
    = notifications_of "we_miss_you" (postgres.users_row.user_id u) (db w1).
Proof.
  intros Hf Hday Hnd Hu Hunp Hwants Hinactive Hfresh.
  destruct (two_ticks "we_miss_you" scheduler.createEngagementNudge (fun _ _ => True)
              createEngagementNudge_spec always_can_create
              scheduler.engagement_nudge_rows
              (fun now u d => scheduler.long_inactive (date_of now) u d)
              (fun now n => (date_of now - 7) * nanoseconds_per_day
                            <=? postgres.notifications_row.created_at n)
              scheduler.getInactiveUsersForEngagementNudge
              "inactive users for engagement nudge" "engagement nudge" "engagement nudges"
              "failed to query inactive users for engagement nudge: "
              in_engagement_nudge_rows
              (fun now d => NoDup_remove_dups_rows _))
    with (w := w) (u := u) (unp := unp) as (w1 & Hrun1 & Hone & Hnext);
    try assumption.
  - intros n m row Hat. rewrite Hday, Hat. apply Z.leb_le.
    pose proof (same_day_midnight today n (Hday n)). unfold nanoseconds_per_day in *. lia.
  - apply cohort_query_spec.
  - now rewrite Hday.
  - simpl. rewrite Hday. exact Hfresh.
  - exact I.
  - destruct (Hnext w1 eq_refl) as (w2 & Hrun2 & Hsame).
    exists w1, w2. auto.
Qed.

End cohorts.

(** ** The loop of a tick *)

Section tick_loop.
Context `{!Json, !Env}.

Ltac break_scrutinee :=
  match goal with
  | |- context [match ?x with _ => _ end] =>
      lazymatch x with
      | context [match _ with _ => _ end] => fail
      | _ => destruct x eqn:?; simpl
      end
  end.





Variables type what : string.
Variable create : models.User.t -> M (option error).

Hypothesis create_outcome : forall user w,
  exists r w' lines,
    create user w = Done r w' /\
    log w' = (log w ++ lines)%list /\
    match r with
    | None =>
        exists row,
          postgres.notifications (db w') = (postgres.notifications (db w) ++ [row])%list /\
          made_for type user row
    | Some _ => postgres.notifications (db w') = postgres.notifications (db w)
    end.


Variable rows_of : Time -> postgres.Database -> list (UUID * string * string).
Variables cohort plural query_error : string.


End tick_loop.

Section ticks_go_on.
Context `{!Json, !Env}.


End ticks_go_on.

(** ** The broker address *)

Section broker_address.
Context `{!Env}.

Lemma before_comma_Some (s first : string) :
  before_comma s = Some first -> before_comma first = None.
Proof.
  revert first. induction s as [| c s IH]; intros first; simpl; [discriminate |].
  destruct (Ascii.eqb c ",") eqn:Hc; [now intros [= <-] |].
  destruct (before_comma s) as [first' |]; [| discriminate].
  intros [= <-]. simpl. rewrite Hc. now rewrite (IH first' eq_refl).
Qed.

Lemma before_comma_None (s : string) :
  before_comma s = None <-> ~ In ","%char (list_ascii_of_string s).
Proof.
  induction s as [| c s IH]; simpl; [tauto |].
  destruct (Ascii.eqb_spec c ",") as [-> | Hc].
  - split; [discriminate | tauto].
  - destruct (before_comma s).
    + split; [discriminate |]. intros Hnot. exfalso.
      destruct IH as [_ IH]. enough (Some s0 = None) by discriminate.
      apply IH. tauto.
    + split; [| reflexivity]. intros _ [Heq | Hin]; [congruence |].
      destruct IH as [IH _]. now apply IH.
Qed.

Lemma before_comma_rest (s first : string) :
  before_comma s = Some first ->
  exists rest,
    list_ascii_of_string s = (list_ascii_of_string first ++ ","%char :: rest)%list.
Proof.
  revert first. induction s as [| c s IH]; intros first; simpl; [discriminate |].
  destruct (Ascii.eqb_spec c ",") as [-> | Hc];
    [intros [= <-]; now exists (list_ascii_of_string s) |].
  destruct (before_comma s) as [first' |]; [| discriminate].
  intros [= <-]. destruct (IH first' eq_refl) as (rest & Heq).
  exists rest. simpl. now rewrite Heq.
Qed.

Lemma strip_bytes_Some (p s s' : list ascii) :
  strip_bytes p s = Some s' <-> s = (p ++ s')%list.
Proof.
  revert s. induction p as [| a p IH]; intros s; simpl.
  - split; congruence.
  - destruct s as [| b s]; [split; discriminate |].
    destruct (Ascii.eqb_spec a b) as [-> | Hab].
    + rewrite IH. split; congruence.
    + split; [discriminate | congruence].
Qed.

Lemma strip_rune_Some (runes : list (list ascii)) (s s' : list ascii) :
  strip_rune runes s = Some s' -> exists r, In r runes /\ s = (r ++ s')%list.
Proof.
  induction runes as [| r runes IH]; simpl; [discriminate |].
  destruct (strip_bytes r s) as [t |] eqn:Hr.
  - intros [= ->]. apply strip_bytes_Some in Hr. eauto.
  - intros Hs. destruct (IH Hs) as (r' & Hin & Heq). eauto.
Qed.

Lemma strip_rune_None (runes : list (list ascii)) (s : list ascii) :
  strip_rune runes s = None <->
  forall r rest, In r runes -> s <> (r ++ rest)%list.
Proof.
  induction runes as [| r runes IH]; simpl; [tauto |].
  destruct (strip_bytes r s) as [t |] eqn:Hr.
  - apply strip_bytes_Some in Hr. split; [discriminate |].
    intros Hnone. exfalso. apply (Hnone r t); auto.
  - rewrite IH. split.
    + intros Hnone r' rest [<- | Hin]; [| now apply Hnone].
      intros Heq. apply strip_bytes_Some in Heq. congruence.
    + intros Hnone r' rest Hin. apply Hnone. now right.
Qed.

Lemma space_runes_nonempty : Forall (fun r : list ascii => r <> []) space_runes.
Proof. repeat constructor; discriminate. Qed.

Lemma reversed_space_runes_nonempty :
  Forall (fun r : list ascii => r <> []) (map (@rev ascii) space_runes).
Proof. repeat constructor; discriminate. Qed.

(** Trimming cuts a run of the given runes, and with enough fuel what is
    left starts with none of them. *)
Lemma trim_front_run (runes : list (list ascii)) (fuel : nat) (s : list ascii) :
  Forall (fun r => r <> []) runes ->
  (length s <= fuel)%nat ->
  (exists cut, Forall (fun r => In r runes) cut /\
               s = (concat cut ++ trim_front fuel runes s)%list) /\
  strip_rune runes (trim_front fuel runes s) = None.
Proof.
  intros Hrunes. revert s. induction fuel as [| fuel IH]; intros s Hlen; simpl.
  - destruct s; [| simpl in Hlen; lia]. split; [now exists [] |].
    apply strip_rune_None. intros r rest Hin Heq.
    rewrite Forall_forall in Hrunes. apply (Hrunes r); [now apply list_elem_of_In |].
    now destruct r.
  - destruct (strip_rune runes s) as [s' |] eqn:Hs; [| split; [now exists [] | exact Hs]].
    apply strip_rune_Some in Hs as (r & Hin & ->).
    assert (r <> []) by (rewrite Forall_forall in Hrunes; apply Hrunes;
                         now apply list_elem_of_In).
    destruct (IH s') as [(cut & Hcut & Heq) Hnone].
    { rewrite length_app in Hlen. destruct r; [congruence | simpl in Hlen; lia]. }
    split; [| exact Hnone]. exists (r :: cut). split; [now constructor |].
    simpl. rewrite <- app_assoc. now f_equal.
Qed.

Lemma white_space_rev (cut : list (list ascii)) :
  Forall (fun r => In r (map (@rev ascii) space_runes)) cut ->
  white_space (rev (concat cut)).
Proof.
  intros Hcut. exists (rev (map (@rev ascii) cut)). split.
  - apply Forall_rev. apply Forall_forall. intros r Hr.
    apply list_elem_of_In, in_map_iff in Hr as (r' & <- & Hr').
    rewrite Forall_forall in Hcut. apply list_elem_of_In, Hcut in Hr'.
    apply in_map_iff in Hr' as (r0 & <- & Hr0). now rewrite rev_involutive.
  - induction cut as [| r cut IH]; [reflexivity |]. simpl.
    inversion Hcut as [| ? ? _ Hrest]; subst.
    rewrite rev_app_distr, concat_app, (IH Hrest). simpl. now rewrite app_nil_r.
Qed.

(** strings.TrimSpace: the argument is a run of white space, the result,
    and a run of white space; the result neither starts nor ends with a
    white-space rune. *)
Lemma strings_TrimSpace_trims (s : string) :
  exists leading trailing,
    list_ascii_of_string s
    = (leading ++ list_ascii_of_string (strings_TrimSpace s) ++ trailing)%list /\
    white_space leading /\ white_space trailing /\
    strip_rune space_runes (list_ascii_of_string (strings_TrimSpace s)) = None /\
    strip_rune (map (@rev ascii) space_runes)
      (rev (list_ascii_of_string (strings_TrimSpace s))) = None.
Proof.
  unfold strings_TrimSpace. cbv zeta.
  rewrite list_ascii_of_string_of_list_ascii, rev_involutive.
  destruct (trim_front_run space_runes (String.length s) (list_ascii_of_string s)
              space_runes_nonempty) as [(front & Hwhite & Hfront) Hstart].
  { clear. induction s; simpl; lia. }
  set (kept := trim_front (String.length s) space_runes (list_ascii_of_string s)) in *.
  destruct (trim_front_run (map (@rev ascii) space_runes) (length kept) (rev kept)
              reversed_space_runes_nonempty) as [(back & Hback & Hcut) Hend].
  { now rewrite length_rev. }
  set (core := trim_front (length kept) (map (@rev ascii) space_runes) (rev kept)) in *.
  assert (Hkept : kept = (rev core ++ rev (concat back))%list).
  { rewrite <- rev_app_distr, <- Hcut. now rewrite rev_involutive. }
  exists (concat front), (rev (concat back)).
  split; [now rewrite <- Hkept |]. split; [now exists front |].
  split; [now apply white_space_rev |]. split; [| exact Hend].
  apply strip_rune_None. intros r rest Hin Heq.
  rewrite strip_rune_None in Hstart. apply (Hstart r (rest ++ rev (concat back))%list Hin).
  rewrite Hkept, Heq. now rewrite <- app_assoc.
Qed.

(** X20. getKafkaBroker reads KAFKA_BROKERS and changes nothing.  It returns
    kafka:9092 when the variable is empty; otherwise it returns the first
    entry of the comma-separated list (everything before the first comma,
    the whole variable when it has none) without the white space around it:
    the entry is a run of white space, the address, and a run of white
    space, and the address neither starts nor ends with a white-space rune.
    The address is empty when the entry is all white space. *)
Theorem getKafkaBroker_first_entry (w : World) :
  exists address,
    consumer.getKafkaBroker w = Done address w /\
    if String.eqb (getenv "KAFKA_BROKERS") EmptyString
    then address = "kafka:9092"
    else
      exists leading trailing rest,
        list_ascii_of_string (getenv "KAFKA_BROKERS")
        = ((leading ++ list_ascii_of_string address ++ trailing) ++ rest)%list /\
        (rest = [] \/ head rest = Some ","%char) /\
        ~ In ","%char (leading ++ list_ascii_of_string address ++ trailing) /\
        white_space leading /\ white_space trailing /\
        strip_rune space_runes (list_ascii_of_string address) = None /\
        strip_rune (map (@rev ascii) space_runes) (rev (list_ascii_of_string address))
        = None.
Proof.
  exists (consumer.kafka_broker_of (getenv "KAFKA_BROKERS")).
  split; [reflexivity |]. unfold consumer.kafka_broker_of.
  destruct (String.eqb (getenv "KAFKA_BROKERS") EmptyString); [reflexivity |].
  set (brokers := getenv "KAFKA_BROKERS").
  assert (Hentry : forall entry rest,
            list_ascii_of_string brokers = (list_ascii_of_string entry ++ rest)%list ->
            rest = [] \/ head rest = Some ","%char ->
            ~ In ","%char (list_ascii_of_string entry) ->
            exists leading trailing rest,
              list_ascii_of_string brokers
              = ((leading ++ list_ascii_of_string (strings_TrimSpace entry) ++ trailing)
                 ++ rest)%list /\
              (rest = [] \/ head rest = Some ","%char) /\
              ~ In ","%char
                  (leading ++ list_ascii_of_string (strings_TrimSpace entry) ++ trailing) /\
              white_space leading /\ white_space trailing /\
              strip_rune space_runes (list_ascii_of_string (strings_TrimSpace entry)) = None /\
              strip_rune (map (@rev ascii) space_runes)
                (rev (list_ascii_of_string (strings_TrimSpace entry))) = None).
  { intros entry rest Heq Hrest Hcomma.
    destruct (strings_TrimSpace_trims entry)
      as (leading & trailing & Hcut & Hl & Ht & Hstart & Hend).
    exists leading, trailing, rest. rewrite <- Hcut. auto 10. }
  destruct (before_comma brokers) as [first |] eqn:Hfirst.
  - destruct (before_comma_rest _ _ Hfirst) as (rest & Heq).
    apply (Hentry first (","%char :: rest) Heq); [now right |].
    apply before_comma_None. now apply before_comma_Some in Hfirst.
  - apply (Hentry brokers []); [now rewrite app_nil_r | now left |].
    now apply before_comma_None.
Qed.

End broker_address.

(** ** Instances *)

Lemma monday_today (n : nat) : date_of (@clock examples.monday n) = examples.that_monday.
Proof.
  unfold date_of, nanoseconds_per_day, examples.that_monday. simpl.
  symmetry. apply Z.div_unique with
    (r := 1699913600000000000 + Z.min (Z.of_nat n) 3600 * 1000000000
          - 86400 * 1000000000 * 19674); lia.
Qed.

Lemma GetUserNotifications_distinct_pages_tile_witness :
  NoDup (postgres.notifications_row.created_at <$>
           filter (fun r => postgres.notifications_row.user_id r = examples.alice)
             (postgres.notifications (db examples.backlog))) /\
  exists first second both w1 w2 w3,
    @repository.GetUserNotifications reference.json examples.calm examples.alice 1 0
      examples.backlog = Done (Ok first) w1 /\
    @repository.GetUserNotifications reference.json examples.calm examples.alice 1 (0 + 1)
      examples.backlog = Done (Ok second) w2 /\
    @repository.GetUserNotifications reference.json examples.calm examples.alice (1 + 1) 0
      examples.backlog = Done (Ok both) w3 /\
    length first = 1%nat /\ length second = 1%nat /\
    both = (first ++ second)%list.
Proof.
  assert (Hdistinct : NoDup (postgres.notifications_row.created_at <$>
                               filter (fun r => postgres.notifications_row.user_id r
                                                = examples.alice)
                                 (postgres.notifications (db examples.backlog))))
    by (apply (bool_decide_unpack _); vm_compute; exact I).
  split; [exact Hdistinct |].
  pose (page := fun limit offset =>
          @repository.GetUserNotifications reference.json examples.calm examples.alice
            limit offset examples.backlog).
  pose (items := fun o : outcome (result (list models.Notification.t)) =>
          match o with Done (Ok l) _ => l | _ => [] end).
  assert (H1 : page 1 0 = Done (Ok (items (page 1 0))) (final_world (page 1 0)))
    by (vm_compute; reflexivity).
  assert (H2 : page 1 (0 + 1)
               = Done (Ok (items (page 1 (0 + 1)))) (final_world (page 1 (0 + 1))))
    by (vm_compute; reflexivity).
  assert (H3 : page (1 + 1) 0
               = Done (Ok (items (page (1 + 1) 0))) (final_world (page (1 + 1) 0)))
    by (vm_compute; reflexivity).
  exists (items (page 1 0)), (items (page 1 (0 + 1))), (items (page (1 + 1) 0)),
    (final_world (page 1 0)), (final_world (page 1 (0 + 1))), (final_world (page (1 + 1) 0)).
  split; [exact H1 |]. split; [exact H2 |]. split; [exact H3 |].
  split; [vm_compute; reflexivity |]. split; [vm_compute; reflexivity |].
  exact (proj1 (@GetUserNotifications_distinct_pages_tile reference.json examples.calm
                  examples.alice 1 0
                  examples.backlog examples.backlog examples.backlog _ _ _ _ _ _
                  Hdistinct eq_refl eq_refl H1 H2 H3)).
Defined.

Lemma GetNotificationByID_unknown_witness :
  @db_fault examples.calm (steps examples.backlog) = None /\
  Forall (fun r => postgres.notifications_row.id r <> mkUUID 99)
    (postgres.notifications (db examples.backlog)) /\
  @repository.GetNotificationByID reference.json examples.calm (mkUUID 99) examples.backlog
  = Done (Err ("notification not found: " +:+ uuid_String (mkUUID 99)))
      (tick examples.backlog).
Proof.
  assert (Hnone : Forall (fun r => postgres.notifications_row.id r <> mkUUID 99)
                    (postgres.notifications (db examples.backlog)))
    by (apply (bool_decide_unpack _); vm_compute; exact I).
  split; [reflexivity |]. split; [exact Hnone |].
  exact (@GetNotificationByID_unknown reference.json examples.calm (mkUUID 99)
           examples.backlog eq_refl Hnone).
Defined.

Lemma CreateNotification_then_GetNotificationByID_witness :
  exists w1 n',
    @repository.CreateNotification reference.json examples.calm examples.welcome
      (examples.world_of examples.one_user_db) = Done None w1 /\
    Forall (fun r => postgres.notifications_row.id r
                     <> models.Notification.ID examples.welcome)
      (postgres.notifications (db (examples.world_of examples.one_user_db))) /\
    @db_fault examples.calm (steps w1) = None /\
    @repository.GetNotificationByID reference.json examples.calm (mkUUID 99) w1
    = Done (Ok n') (tick w1) /\
    models.Notification.Metadata n' = Some examples.metadata /\
    models.Notification.Message n' = models.Notification.Message examples.welcome /\
    models.IsRead n' = false.
Proof.
  pose (run := @repository.CreateNotification reference.json examples.calm examples.welcome
                 (examples.world_of examples.one_user_db)).
  assert (Hrun : run = Done None (final_world run)) by (vm_compute; reflexivity).
  pose (look := @repository.GetNotificationByID reference.json examples.calm (mkUUID 99)
                  (final_world run)).
  pose (found := match look with
                 | Done (Ok n') _ => n'
                 | _ => examples.welcome
                 end).
  assert (Hlook : look = Done (Ok found) (tick (final_world run)))
    by (vm_compute; reflexivity).
  destruct (@CreateNotification_then_GetNotificationByID reference.json examples.calm
              examples.welcome (examples.world_of examples.one_user_db) (final_world run)
              Hrun (Forall_nil_2 _) eq_refl)
    as (stored & _ & Hget).
  change (models.Notification.ID examples.welcome) with (mkUUID 99) in Hget.
  fold look in Hget. rewrite Hlook in Hget.
  destruct Hget as (_ & _ & _ & _ & _ & _ & _ & _ & _ & Hmessage & _ & _ & _ & _ & _ & _ & _ & Hread).
  exists (final_world run), found.
  split; [exact Hrun |]. split; [apply Forall_nil_2 |]. split; [reflexivity |].
  split; [exact Hlook |]. split; [vm_compute; reflexivity |].
  split; [exact Hmessage | exact Hread].
Defined.

Lemma outbox_ids_stay_distinct_witness :
  outbox_ids_fresh (db examples.backlog) /\
  (forall c, outbox_ids_fresh
               (db (@world_after reference.json examples.calm c
                      examples.backlog))) /\
  outbox_ids_fresh
    (db (final_world (@services.ProcessOutbox reference.json examples.calm examples.backlog))) /\
  (forall topic req,
      outbox_ids_fresh
        (db (final_world (@services.CreateNotification reference.json examples.calm
                            topic req examples.backlog)))).
Proof.
  assert (Hfresh : outbox_ids_fresh (db examples.backlog)).
  { split; apply (bool_decide_unpack _); vm_compute; exact I. }
  split; [exact Hfresh |].
  exact (@outbox_ids_stay_distinct reference.json examples.calm examples.backlog Hfresh).
Defined.

Lemma ProcessOutbox_clean_tick_witness :
  NoDup (postgres.outbox_row.id <$> postgres.outbox_notifications (db examples.created)) /\
  @services.ProcessOutbox reference.json examples.calm examples.created
    = Done None examples.published /\
  exists items calls,
    @repository.GetUnpublishedOutbox reference.json examples.calm 100 examples.created
      = Done (Ok items) (tick (tick examples.created)) /\
    producer_calls examples.published = (producer_calls examples.created ++ calls)%list /\
    Forall2 (@sent_ok reference.json) items calls /\
    broker_log examples.published = (broker_log examples.created ++ calls.*1)%list /\
    marked_rows (models.OutboxNotification.ID <$> items)
      (postgres.outbox_notifications (db examples.created))
      (postgres.outbox_notifications (db examples.published)) /\
    Forall (fun r => postgres.outbox_row.published r = true)
      (postgres.outbox_notifications (db examples.published)) /\
    @services.ProcessOutbox reference.json examples.calm examples.published
      = Done None (tick (tick examples.published)).
Proof.
  assert (Hnd : NoDup (postgres.outbox_row.id <$>
                         postgres.outbox_notifications (db examples.created)))
    by (apply (bool_decide_unpack _); vm_compute; exact I).
  assert (Hrun : @services.ProcessOutbox reference.json examples.calm examples.created
                 = Done None examples.published) by (vm_compute; reflexivity).
  split; [exact Hnd |]. split; [exact Hrun |].
  destruct (@ProcessOutbox_clean_tick reference.json examples.calm examples.created
              examples.published Hnd Hrun)
    as (items & calls & Hget & Hcalls & Hsent & Hlog & Hmarked & Hdrain).
  destruct Hdrain as [Hall Hnext]; [vm_compute; lia |].
  exists items, calls. repeat (split; [assumption |]). now apply Hnext.
Defined.


Lemma streak_reminder_needs_active_streak_witness :
  Forall (fun r => postgres.streaks_row.user_id r = models.User.ID examples.alice_user ->
                   postgres.streaks_row.streak_type r = "practice" ->
                   postgres.streaks_row.current_streak r = 0)
    (postgres.user_engagement_streaks (db examples.backlog)) /\
  (exists e, @services.CreateStreakReminder reference.json examples.calm "notifications"
               examples.alice_user examples.backlog = Done (Some e) (tick examples.backlog)) /\
  (exists e, @scheduler.createStreakReminder reference.json examples.calm
               examples.alice_user examples.backlog = Done (Some e) (tick examples.backlog)).
Proof.
  assert (Hzero : Forall (fun r => postgres.streaks_row.user_id r
                                   = models.User.ID examples.alice_user ->
                                   postgres.streaks_row.streak_type r = "practice" ->
                                   postgres.streaks_row.current_streak r = 0)
                    (postgres.user_engagement_streaks (db examples.backlog)))
    by (vm_compute; constructor).
  split; [exact Hzero |].
  exact (@streak_reminder_needs_active_streak reference.json examples.calm "notifications"
           examples.alice_user examples.backlog Hzero).
Defined.

Lemma streak_reminder_once_per_day_witness :
  exists w1 w2,
    @scheduler.processStreakReminders reference.json examples.same_day
      (examples.world_of examples.engaged_db) = Done None w1 /\
    @scheduler.processStreakReminders reference.json examples.same_day w1 = Done None w2 /\
    length (notifications_of "streak_reminder" examples.alice (db w1))
    = S (length (notifications_of "streak_reminder" examples.alice
                   (db (examples.world_of examples.engaged_db)))) /\
    notifications_of "streak_reminder" examples.alice (db w2)
    = notifications_of "streak_reminder" examples.alice (db w1).
Proof.
  apply (@streak_reminder_once_per_day reference.json examples.same_day
           (examples.world_of examples.engaged_db) examples.alice_row
           (examples.alice_wants "streak_reminder" 1) examples.alice_streak examples.today).
  - intros n. reflexivity.
  - exact same_day_today.
  - apply (bool_decide_unpack _). vm_compute. exact I.
  - apply (bool_decide_unpack _). vm_compute. exact I.
  - apply list_elem_of_here.
  - apply list_elem_of_here.
  - apply list_elem_of_here.
  - vm_compute. reflexivity.
  - vm_compute. reflexivity.
  - vm_compute. reflexivity.
Defined.

Lemma weekly_recap_once_per_week_witness :
  exists w1 w2,
    @scheduler.processWeeklyRecaps reference.json examples.monday
      (examples.world_of examples.engaged_db) = Done None w1 /\
    @scheduler.processWeeklyRecaps reference.json examples.monday w1 = Done None w2 /\
    length (notifications_of "weekly_recap" examples.alice (db w1))
    = S (length (notifications_of "weekly_recap" examples.alice
                   (db (examples.world_of examples.engaged_db)))) /\
    notifications_of "weekly_recap" examples.alice (db w2)
    = notifications_of "weekly_recap" examples.alice (db w1).
Proof.
  apply (@weekly_recap_once_per_week reference.json examples.monday
           (examples.world_of examples.engaged_db) examples.alice_row
           (examples.alice_wants "weekly_recap" 2) examples.that_monday).
  - intros n. reflexivity.
  - exact monday_today.
  - vm_compute. reflexivity.
  - apply (bool_decide_unpack _). vm_compute. exact I.
  - apply list_elem_of_here.
  - apply list_elem_of_further, list_elem_of_here.
  - vm_compute. reflexivity.
  - vm_compute. reflexivity.
  - vm_compute. reflexivity.
Defined.

Lemma engagement_nudge_once_witness :
  exists w1 w2,
    @scheduler.processEngagementNudges reference.json examples.same_day
      (examples.world_of examples.engaged_db) = Done None w1 /\
    @scheduler.processEngagementNudges reference.json examples.same_day w1 = Done None w2 /\
    length (notifications_of "we_miss_you" examples.alice (db w1))
    = S (length (notifications_of "we_miss_you" examples.alice
                   (db (examples.world_of examples.engaged_db)))) /\
    notifications_of "we_miss_you" examples.alice (db w2)
    = notifications_of "we_miss_you" examples.alice (db w1).
Proof.
  apply (@engagement_nudge_once reference.json examples.same_day
           (examples.world_of examples.engaged_db) examples.alice_row
           (examples.alice_wants "we_miss_you" 3) examples.today).
  - intros n. reflexivity.
  - exact same_day_today.
  - apply (bool_decide_unpack _). vm_compute. exact I.
  - apply list_elem_of_here.
  - apply list_elem_of_further, list_elem_of_further, list_elem_of_here.
  - vm_compute. reflexivity.
  - vm_compute. reflexivity.
  - vm_compute. reflexivity.
Defined.

(** The runs of those examples: each tick writes its notification once. *)
Example engagement_runs :
  let tick_twice (run : World -> outcome (option error)) :=
    let w1 := final_world (run (examples.world_of examples.engaged_db)) in
    (length (postgres.notifications (db w1)),
     length (postgres.notifications (db (final_world (run w1))))) in
  tick_twice (@scheduler.processStreakReminders reference.json examples.same_day)
    = (1%nat, 1%nat) /\
  tick_twice (@scheduler.processWeeklyRecaps reference.json examples.monday)
    = (1%nat, 1%nat) /\
  tick_twice (@scheduler.processWeeklyRecaps reference.json examples.same_day)
    = (0%nat, 0%nat) /\
  tick_twice (@scheduler.processEngagementNudges reference.json examples.same_day)
    = (1%nat, 1%nat).
Proof. repeat split; vm_compute; reflexivity. Qed.
